(** * go-bdfs: a shallow embedding of the [pan] package

    The Baidu Pan client of this repository is embedded function by
    function: the device-code poll loop, token expiry and refresh, the
    slice hashing of the uploader, the upload protocol, the four batch
    operations of the file manager and the directory walker.

    Conventions.
    - Go's [int] and [int64] are [Z]; where the code can overflow, the
      wrap-around is written out ([wrap64]).
    - A Go [string] is a [string]; file contents are [list Byte.byte].
    - [time.Time] is the number of nanoseconds since the zero instant
      (January 1, year 1, UTC); [time.Duration] is a signed 64-bit count of
      nanoseconds.
    - The network is an oracle: it answers a request knowing the requests
      sent before it. Everything the code sends is logged in the world it
      runs in, which also holds the clock and the disk.
    - [encoding/json] and [crypto/md5] are libraries, not code of the
      repository: the decoders are parameters of the development, MD5 is
      implemented (RFC 1321) so that the slicer can be run. *)

From Stdlib Require Import ZArith Ascii DecimalString Lia.
From stdpp Require Import gmap strings list.

Open Scope Z_scope.

(** ** Go runtime: results, formatting, strings *)

(** What a Go function of type [(T, error)] returns, with the run-time panic
    (an index out of range, a negative [make]) made explicit. *)
Inductive result (A : Type) : Type :=
| Ok (a : A)
| Err (msg : string)
| Panic (msg : string).
Arguments Ok {A} a.
Arguments Err {A} msg.
Arguments Panic {A} msg.

(** What a Go function of type [error] returns; [Nil] is the [nil] error. *)
Definition outcome : Type := result unit.
Abbreviation Nil := (Ok tt).

(** [%d] of [fmt.Sprintf]. *)
Definition fmt_d (n : Z) : string := NilZero.string_of_int (Z.to_int n).

(** [strings.Join(elems, sep)]. *)
Fixpoint strings_Join (elems : list string) (sep : string) : string :=
  match elems with
  | [] => ""
  | [e] => e
  | e :: rest => e +:+ sep +:+ strings_Join rest sep
  end.

(** Two's complement reading of the low 64 bits: Go's signed overflow. *)
Definition wrap64 (x : Z) : Z := (x + 2 ^ 63) `mod` 2 ^ 64 - 2 ^ 63.

(** ** crypto/md5 (RFC 1321) and the [%x] verb *)

Module MD5.

Definition w32 (x : Z) : Z := Z.land x 0xFFFFFFFF.

Definition rotl (x c : Z) : Z :=
  w32 (Z.lor (Z.shiftl x c) (Z.shiftr x (32 - c))).

Definition not32 (x : Z) : Z := Z.lxor x 0xFFFFFFFF.

Definition shifts : list Z :=
  [7; 12; 17; 22; 7; 12; 17; 22; 7; 12; 17; 22; 7; 12; 17; 22;
   5; 9; 14; 20; 5; 9; 14; 20; 5; 9; 14; 20; 5; 9; 14; 20;
   4; 11; 16; 23; 4; 11; 16; 23; 4; 11; 16; 23; 4; 11; 16; 23;
   6; 10; 15; 21; 6; 10; 15; 21; 6; 10; 15; 21; 6; 10; 15; 21].

(** [floor (2^32 * |sin (i + 1)|)]. *)
Definition sines : list Z :=
  [0xd76aa478; 0xe8c7b756; 0x242070db; 0xc1bdceee;
   0xf57c0faf; 0x4787c62a; 0xa8304613; 0xfd469501;
   0x698098d8; 0x8b44f7af; 0xffff5bb1; 0x895cd7be;
   0x6b901122; 0xfd987193; 0xa679438e; 0x49b40821;
   0xf61e2562; 0xc040b340; 0x265e5a51; 0xe9b6c7aa;
   0xd62f105d; 0x02441453; 0xd8a1e681; 0xe7d3fbc8;
   0x21e1cde6; 0xc33707d6; 0xf4d50d87; 0x455a14ed;
   0xa9e3e905; 0xfcefa3f8; 0x676f02d9; 0x8d2a4c8a;
   0xfffa3942; 0x8771f681; 0x6d9d6122; 0xfde5380c;
   0xa4beea44; 0x4bdecfa9; 0xf6bb4b60; 0xbebfbc70;
   0x289b7ec6; 0xeaa127fa; 0xd4ef3085; 0x04881d05;
   0xd9d4d039; 0xe6db99e5; 0x1fa27cf8; 0xc4ac5665;
   0xf4292244; 0x432aff97; 0xab9423a7; 0xfc93a039;
   0x655b59c3; 0x8f0ccc92; 0xffeff47d; 0x85845dd1;
   0x6fa87e4f; 0xfe2ce6e0; 0xa3014314; 0x4e0811a1;
   0xf7537e82; 0xbd3af235; 0x2ad7d2bb; 0xeb86d391].

Definition byteZ (b : Byte.byte) : Z := Z.of_N (Byte.to_N b).

Definition Zbyte (z : Z) : Byte.byte :=
  default Byte.x00 (Byte.of_N (Z.to_N (Z.land z 0xFF))).

(** The [n] low bytes of [z], least significant first. *)
Fixpoint le_bytes (n : nat) (z : Z) : list Byte.byte :=
  match n with
  | O => []
  | S n' => Zbyte z :: le_bytes n' (Z.shiftr z 8)
  end.

Fixpoint le_word (bs : list Byte.byte) : Z :=
  match bs with
  | [] => 0
  | b :: rest => Z.lor (byteZ b) (Z.shiftl (le_word rest) 8)
  end.

(** Message, then 0x80, then zeros up to 56 modulo 64, then the bit length
    on 8 bytes. *)
Definition pad (msg : list Byte.byte) : list Byte.byte :=
  let len := Z.of_nat (length msg) in
  let zeros := Z.to_nat ((55 - len) `mod` 64) in
  msg ++ [Byte.x80] ++ replicate zeros Byte.x00 ++ le_bytes 8 (8 * len).

(** The 16 little-endian words of a 64-byte block. *)
Fixpoint words (n : nat) (block : list Byte.byte) : list Z :=
  match n with
  | O => []
  | S n' => le_word (take 4 block) :: words n' (drop 4 block)
  end.

Definition state : Type := Z * Z * Z * Z.

Definition step (M : list Z) (st : state) (i : Z) : state :=
  let '(A, B, C, D) := st in
  let '(F, g) :=
    if i <? 16 then (Z.lor (Z.land B C) (Z.land (not32 B) D), i)
    else if i <? 32 then
      (Z.lor (Z.land D B) (Z.land (not32 D) C), (5 * i + 1) `mod` 16)
    else if i <? 48 then (Z.lxor B (Z.lxor C D), (3 * i + 5) `mod` 16)
    else (Z.lxor C (Z.lor B (not32 D)), (7 * i) `mod` 16) in
  let F' := w32 (F + A + sines !!! Z.to_nat i + M !!! Z.to_nat g) in
  (D, w32 (B + rotl F' (shifts !!! Z.to_nat i)), B, C).

Definition block (st : state) (blk : list Byte.byte) : state :=
  let M := words 16 blk in
  let '(a, b, c, d) := st in
  let '(A, B, C, D) := foldl (step M) st (Z.of_nat <$> seq 0 64) in
  (w32 (a + A), w32 (b + B), w32 (c + C), w32 (d + D)).

Fixpoint blocks (n : nat) (st : state) (bs : list Byte.byte) : state :=
  match n with
  | O => st
  | S n' => blocks n' (block st (take 64 bs)) (drop 64 bs)
  end.

Definition init : state := (0x67452301, 0xefcdab89, 0x98badcfe, 0x10325476).

(** [md5.Sum]: the 16 bytes of the digest. *)
Definition sum (msg : list Byte.byte) : list Byte.byte :=
  let padded := pad msg in
  let '(a, b, c, d) := blocks (length padded / 64)%nat init padded in
  le_bytes 4 a ++ le_bytes 4 b ++ le_bytes 4 c ++ le_bytes 4 d.

End MD5.

Definition hex_digit (z : Z) : ascii :=
  default "0"%char (String.get (Z.to_nat z) "0123456789abcdef").

(** [fmt.Sprintf("%x", bs)] of a byte slice: two lower-case digits a byte. *)
Fixpoint fmt_x (bs : list Byte.byte) : string :=
  match bs with
  | [] => ""
  | b :: rest =>
      String (hex_digit (Z.shiftr (MD5.byteZ b) 4))
        (String (hex_digit (Z.land (MD5.byteZ b) 0xF)) (fmt_x rest))
  end.

(** The hash of one slice as [CalculateSliceMD5] formats it:
    [hash := md5.New(); hash.Write(p); fmt.Sprintf("%x", hash.Sum(nil))]. *)
Definition md5_hex (p : list Byte.byte) : string := fmt_x (MD5.sum p).

Definition bytes_of_string (s : string) : list Byte.byte :=
  Ascii.byte_of_ascii <$> String.list_ascii_of_string s.

(** Go compares strings with [==] and [!=]. *)
Definition streq (a b : string) : bool := bool_decide (a = b).

(** The double quote, written by its code: a literal cannot hold it. *)
Definition dquote : string := String "034"%char "".

(** ** time *)

Definition Time : Type := Z.
Definition Duration : Type := Z.

Definition Second : Duration := 1000000000.
Definition Hour : Duration := 3600 * Second.

(** [time.Duration(n) * d] on 64-bit integers. *)
Definition Duration_mul (n : Z) (d : Duration) : Duration := wrap64 (n * d).

Definition Time_IsZero (t : Time) : bool := t =? 0.
Definition Time_Add (t : Time) (d : Duration) : Time := t + d.
Definition Time_Before (t u : Time) : bool := t <? u.
Definition Time_After (t u : Time) : bool := t >? u.

(** ** Data model (src/pan/utils.go) *)

Module DeviceCodeResponse.
Record t : Type := mk {
  DeviceCode : string;
  UserCode : string;
  VerificationURL : string;
  ExpiresIn : Z;
  Interval : Z;
  QRCode : string
}.
End DeviceCodeResponse.

Module TokenResponse.
Record t : Type := mk {
  AccessToken : string;
  RefreshToken : string;
  ExpiresIn : Z;
  Scope : string;
  SessionKey : string;
  SessionSecret : string;
  UID : string
}.
(** [&TokenResponse{}] *)
Definition zero : t := mk "" "" 0 "" "" "" "".
End TokenResponse.

Module TokenFile.
Record t : Type := mk {
  AccessToken : string;
  RefreshToken : string;
  ExpiresIn : Z;
  UID : string;
  CreatedAt : Time
}.
End TokenFile.

Module PrecreateResponse.
Record t : Type := mk {
  Errno : Z;
  UploadID : string;
  BlockList : list Z;
  RequestID : Z;
  ReturnType : Z
}.
End PrecreateResponse.

Module CreateFileResponse.
Record t : Type := mk {
  Errno : Z;
  FsID : Z;
  Path : string;
  MD5 : string;
  Size : Z
}.
End CreateFileResponse.

(** The fields of [FileInfo] that the walker reads or that identify an
    entry; the other twenty-odd fields are carried by the decoder only. *)
Module FileInfo.
Record t : Type := mk {
  FsID : Z;
  ServerFilename : string;
  Size : Z;
  Path : string;
  IsDir : Z
}.
End FileInfo.

Module ListFilesResponse.
Record t : Type := mk {
  Errno : Z;
  List : list FileInfo.t
}.
End ListFilesResponse.

(** src/pan/move.go and src/pan/rename.go *)
Module MoveInfo.
Record t : Type := mk {
  Path : string; Dest : string; NewName : string; Errno : Z
}.
End MoveInfo.

Module MoveResponse.
Record t : Type := mk {
  Errno : Z; Info : list MoveInfo.t; TaskID : Z; RequestID : Z
}.
End MoveResponse.

Module MoveRequest.
Record t : Type := mk { Path : string; Dest : string; NewName : string }.
End MoveRequest.

Module CopyInfo.
Record t : Type := mk {
  Path : string; Dest : string; NewName : string; Errno : Z
}.
End CopyInfo.

Module CopyResponse.
Record t : Type := mk {
  Errno : Z; Info : list CopyInfo.t; TaskID : Z; RequestID : Z
}.
End CopyResponse.

Module CopyRequest.
Record t : Type := mk { Path : string; Dest : string; NewName : string }.
End CopyRequest.

Module RenameInfo.
Record t : Type := mk { Path : string; Errno : Z }.
End RenameInfo.

Module RenameResponse.
Record t : Type := mk {
  Errno : Z; Info : list RenameInfo.t; TaskID : Z; RequestID : Z
}.
End RenameResponse.

Module RenameRequest.
Record t : Type := mk { Path : string; NewName : string }.
End RenameRequest.

Module DeleteEntry.
Record t : Type := mk { Path : string; Errno : Z }.
End DeleteEntry.

Module DeleteResponse.
Record t : Type := mk {
  Errno : Z; RequestID : Z; List : list DeleteEntry.t
}.
End DeleteResponse.

(** The part of [Client] that is state: the two [http.Client]s are the
    network oracle below. *)
Record Client : Type := mkClient {
  clientID : string;
  clientSecret : string;
  accessToken : string;
  refreshToken : string;
  expiresIn : Z;
  uid : string;
  tokenFile : string;
  tokenCreatedAt : Time
}.

(** ** The world a call runs in *)

Definition accessTokenURL : string := "https://openapi.baidu.com/oauth/2.0/token".
Definition listFilesURL : string := "https://pan.baidu.com/rest/2.0/xpan/file".
Definition uploadPrecreateURL : string :=
  "https://pan.baidu.com/rest/2.0/xpan/file?method=precreate".
Definition uploadSuperfileURL : string :=
  "https://d.pcs.baidu.com/rest/2.0/pcs/superfile2".
Definition uploadCreateFileUrl : string :=
  "https://pan.baidu.com/rest/2.0/xpan/file?method=create".
Definition filemanagerURL : string := "https://pan.baidu.com/api/filemanager".

Definition StatusOK : Z := 200.
Definition StatusBadRequest : Z := 400.

(** [url.Values] built with [Add]. *)
Definition Values : Type := list (string * string).

(** An HTTP request: the URL, the query parameters that [url.Values.Encode]
    adds to it, the form fields of the body and, for a slice transfer, the
    bytes of the multipart file. The URL of a slice transfer is written
    whole, its query in it. *)
Record Request : Type := mkRequest {
  Method : string;
  URL : string;
  Query : Values;
  Form : Values;
  File : list Byte.byte
}.

(** What [c.client.Do(req)] followed by [io.ReadAll(resp.Body)] gives. *)
Inductive Exchange : Type :=
| DoError (err : string)
| ReadError (status : Z) (err : string)
| Response (status : Z) (body : string).

(** The answer of the network to one request, and the time it took. *)
Record Reply : Type := mkReply {
  exchange : Exchange;
  elapsed : Duration
}.

(** ** Limits of the Go runtime *)

(** The most that one [Read] of an [*os.File] transfers: [internal/poll]
    cuts the buffer to [maxRW], 1 GiB, before the system call. *)
Definition maxRW : Z := 2 ^ 30.

(** The largest slice of bytes that [make] gives: beyond [maxAlloc], 2^48
    bytes on the 64-bit platforms, and below zero, [make] panics. Below the
    limit the memory is taken to be there: its exhaustion is a fatal error
    of the runtime, not an outcome of the function. *)
Definition maxAlloc : Z := 2 ^ 48.

(** A file of the local disk, as [os.Stat] and [os.Open] see it. *)
Inductive LocalFile : Type :=
| Regular (name : string) (content : list Byte.byte)
| Directory (name : string).

Record World : Type := mkWorld {
  clock : Time;                          (* what [time.Now()] reads *)
  sent : list Request;                   (* every request issued so far *)
  token_files : gmap string TokenFile.t; (* token files, by path *)
  write_error : option string;           (* set when [os.WriteFile] fails *)
  local_files : gmap string LocalFile;
  stdout : list string                   (* lines printed *)
}.

Definition set_clock (t : Time) (w : World) : World :=
  mkWorld t (sent w) (token_files w) (write_error w) (local_files w) (stdout w).

Definition log_request (req : Request) (w : World) : World :=
  mkWorld (clock w) (sent w ++ [req]) (token_files w) (write_error w)
    (local_files w) (stdout w).

Definition set_token_files (m : gmap string TokenFile.t) (w : World) : World :=
  mkWorld (clock w) (sent w) m (write_error w) (local_files w) (stdout w).

Definition print (line : string) (w : World) : World :=
  mkWorld (clock w) (sent w) (token_files w) (write_error w) (local_files w)
    (stdout w ++ [line]).

(** [time.Sleep(d)]: returns at once when [d] is not positive. *)
Definition Sleep (d : Duration) (w : World) : World :=
  set_clock (clock w + Z.max d 0) w.

(** [PrintSuccess] *)
Definition PrintSuccess (message : string) (w : World) : World :=
  print ("[✓] " +:+ message) w.

(** [PrintError] *)
Definition PrintError (message : string) (w : World) : World :=
  print ("[×] " +:+ message) w.

(** What the goroutine of [Walk] does to its two channels. *)
Inductive ChanOp : Type :=
| SendFile (file : FileInfo.t)   (* [fileChan <- file] *)
| SendErr (err : string)         (* [errChan <- err] *)
| CloseFileChan.                 (* [close(fileChan)] *)

(** ** Concrete inputs for the examples *)

Module Fixture.

(** 2024-01-01T00:00:00Z, in nanoseconds since the zero instant. *)
Definition new_year_2024 : Time := 63839664000 * Second.

Definition no_files : gmap string LocalFile := ∅.

(** A world whose token file can be written. *)
Definition world (now : Time) : World :=
  mkWorld now [] ∅ None no_files [].

(** A world whose disk refuses the token file. *)
Definition read_only_world (now : Time) : World :=
  mkWorld now [] ∅ (Some "permission denied") no_files [].

(** A client holding a thirty-day token issued at [created]. *)
Definition client (created : Time) : Client :=
  mkClient "app-key" "app-secret" "OLD-ACCESS" "OLD-REFRESH" 2592000 "42"
    "/home/u/.local/app/bdfs/.bdfs_certs" created.

(** A client whose token claims to live for 9223372037 seconds, one second
    more than a [time.Duration] can count. *)
Definition long_lived_client (created : Time) : Client :=
  mkClient "app-key" "app-secret" "OLD-ACCESS" "OLD-REFRESH" 9223372037 "42"
    "/home/u/.local/app/bdfs/.bdfs_certs" created.

(** A network that answers every request with the same status and body,
    at once. *)
Definition always (StatusCode : Z) (body : string)
  : list Request -> Request -> Reply :=
  fun _ _ => mkReply (Response StatusCode body) 0.

(** Decoders for bodies that hold one value and nothing else. *)
Definition error_is_body : string -> string := fun body => body.

Definition new_token : TokenResponse.t :=
  TokenResponse.mk "NEW-ACCESS" "NEW-REFRESH" 2592000 "basic netdisk" "" ""
    "42".

Definition decodes_to {A : Type} (v : A) : string -> result A :=
  fun _ => Ok v.

(** A device-code session advertised with an expiry of 10 seconds and a
    poll interval of 5 seconds. *)
Definition session : DeviceCodeResponse.t :=
  DeviceCodeResponse.mk "DEVICE-CODE" "USER-CODE"
    "https://openapi.baidu.com/device" 10 5 "".

(** A local disk with one file of five bytes. *)
Definition five_bytes : list Byte.byte := bytes_of_string "abcde".

Definition disk : gmap string LocalFile :=
  {[ "/tmp/notes.txt" := Regular "notes.txt" five_bytes ]}.

Definition world_with_disk (now : Time) : World :=
  mkWorld now [] ∅ None disk [].

(** A precreate response: the content is already there. *)
Definition already_there : PrecreateResponse.t :=
  PrecreateResponse.mk 0 "" [] 7 2.

Definition dir_is (dir : string) : string -> string := fun _ => dir.
Definition no_text {A : Type} : A -> string := fun _ => "".
Definition no_progress : Z -> Z -> string := fun _ _ => "".

(** A batch rename of three items of which the second fails. *)
Definition renames : list RenameRequest.t :=
  [RenameRequest.mk "/docs/a.txt" "a1.txt";
   RenameRequest.mk "/docs/b.txt" "b1.txt";
   RenameRequest.mk "/docs/c.txt" "c1.txt"].

Definition second_failed : RenameResponse.t :=
  RenameResponse.mk 0
    [RenameInfo.mk "/docs/a.txt" 0; RenameInfo.mk "/docs/b.txt" (-9);
     RenameInfo.mk "/docs/c.txt" 0] 0 1.

(** A response with a fourth, failing entry for a batch of three. *)
Definition one_too_many : RenameResponse.t :=
  RenameResponse.mk 0
    [RenameInfo.mk "/docs/a.txt" 0; RenameInfo.mk "/docs/b.txt" 0;
     RenameInfo.mk "/docs/c.txt" 0; RenameInfo.mk "/docs/d.txt" (-9)] 0 1.

(** A copy of one item answered with two entries, none failing. *)
Definition copies : list CopyRequest.t :=
  [CopyRequest.mk "/docs/a.txt" "/backup" "a.txt"].

Definition two_copied : CopyResponse.t :=
  CopyResponse.mk 0
    [CopyInfo.mk "/docs/a.txt" "/backup" "a.txt" 0;
     CopyInfo.mk "/docs/b.txt" "/backup" "b.txt" 0] 0 1.

(** A path with a tab in it: no double quote, no backslash. *)
Definition tab_path : string := "/docs/a" +:+ String "009"%char "b.txt".

(** The tree / -> [/a (file), /b (dir) -> [/b/c (file)]]. *)
Definition file_a : FileInfo.t := FileInfo.mk 1 "a" 10 "/a" 0.
Definition dir_b : FileInfo.t := FileInfo.mk 2 "b" 0 "/b" 1.
Definition file_c : FileInfo.t := FileInfo.mk 3 "c" 20 "/b/c" 0.

(** A network that answers a list request with the name of the directory
    for a body. *)
Definition tree_server : list Request -> Request -> Reply :=
  fun _ req =>
    match Query req with
    | [_; _; (_, dir); _] => mkReply (Response 200 dir) 0
    | _ => mkReply (Response 404 "") 0
    end.

Definition tree_listing : string -> result ListFilesResponse.t :=
  fun body =>
    if streq body "/" then Ok (ListFilesResponse.mk 0 [file_a; dir_b])
    else if streq body "/b" then Ok (ListFilesResponse.mk 0 [file_c])
    else Err "unexpected end of JSON input".

(** The same tree, the listing of /b failing with [errno] -9. *)
Definition tree_listing_b_fails : string -> result ListFilesResponse.t :=
  fun body =>
    if streq body "/" then Ok (ListFilesResponse.mk 0 [file_a; dir_b])
    else if streq body "/b" then Ok (ListFilesResponse.mk (-9) [])
    else Err "unexpected end of JSON input".

(** The tree / -> [/b (dir), /a (file)], the listing of /b failing. *)
Definition tree_listing_b_first : string -> result ListFilesResponse.t :=
  fun body =>
    if streq body "/" then Ok (ListFilesResponse.mk 0 [dir_b; file_a])
    else Ok (ListFilesResponse.mk (-9) []).

(** A token file written at [created] for a thirty-day token, and a world
    whose disk holds it. *)
Definition token_on_disk (created : Time) : TokenFile.t :=
  TokenFile.mk "OLD-ACCESS" "OLD-REFRESH" 2592000 "42" created.

Definition world_with_token (now created : Time) : World :=
  mkWorld now []
    {[ "/home/u/.local/app/bdfs/.bdfs_certs" := token_on_disk created ]}
    None no_files [].

Definition Day : Duration := 24 * Hour.

(** A device authorization that does nothing. *)
Definition no_device_auth : Client -> World -> outcome * Client * World :=
  fun c w => (Nil, c, w).

(** A client that holds no token. *)
Definition signed_out : Client :=
  mkClient "app-key" "app-secret" "" "" 0 ""
    "/home/u/.local/app/bdfs/.bdfs_certs" 0.

(** A token endpoint that answers the first two polls with
    [authorization_pending] and the next ones with a token. *)
Definition authorized_after_two : list Request -> Request -> Reply :=
  fun history _ =>
    if (length history <? 2)%nat then
      mkReply (Response 400 "authorization_pending") 0
    else mkReply (Response 200 "token") 0.

(** A network for an upload: it takes the slices, or refuses them, and
    answers 200 to the rest. *)
Definition upload_server (slice_status : Z)
  : list Request -> Request -> Reply :=
  fun _ req =>
    if String.prefix uploadSuperfileURL (URL req) then
      mkReply (Response slice_status "slice") 0
    else mkReply (Response 200 "ok") 0.

(** A URL parser that takes every URL as it is written, and one that takes
    none. *)
Definition as_written : string -> result string := fun rawURL => Ok rawURL.

Definition malformed : string -> result string :=
  fun _ => Err "net/url: invalid control character in URL".

(** A disk with one file of [maxRW] bytes and one more. *)
Definition big_file : list Byte.byte :=
  replicate (S (Z.to_nat maxRW)) Byte.x00.

Definition world_with_big_file : World :=
  mkWorld new_year_2024 [] ∅ None
    {[ "/tmp/big.bin" := Regular "big.bin" big_file ]} [].

(** A precreate response that opens an upload session. *)
Definition session_opened : PrecreateResponse.t :=
  PrecreateResponse.mk 0 "UP-1" [0] 7 1.

Definition created_notes : CreateFileResponse.t :=
  CreateFileResponse.mk 0 1 "/docs/notes.txt" "" 5.

Definition undecoded {A : Type} : string -> result A :=
  fun _ => Err "unexpected end of JSON input".

End Fixture.
(** * The package, over a network and the JSON decoders *)

Section Pan.

(** The network answers a request knowing those that were sent before. *)
Variable server : list Request -> Request -> Reply.

(** [json.Unmarshal(body, &v)], one decoder for each type of [v]. The
    first gives the [Error] field of the anonymous error struct of
    [requestToken], whose decoding error is dropped. *)
Variable json_errorResp : string -> string.
Variable json_TokenResponse : string -> result TokenResponse.t.
Variable json_PrecreateResponse : string -> result PrecreateResponse.t.
Variable json_CreateFileResponse : string -> result CreateFileResponse.t.
Variable json_ListFilesResponse : string -> result ListFilesResponse.t.

(** [json.Marshal] of a list of strings. *)
Variable json_Marshal_strings : list string -> string.

(** [c.client.Do(req)] and [io.ReadAll(resp.Body)]. *)
Definition Do (req : Request) (w : World) : Exchange * World :=
  let r := server (sent w) req in
  (exchange r, set_clock (clock w + elapsed r) (log_request req w)).

(** ** Device-code polling (src/pan/utils.go) *)

Definition GetDeviceCodeForPoll (deviceCode : string)
  : result DeviceCodeResponse.t :=
  Ok (DeviceCodeResponse.mk deviceCode "" "" 1800 5 "").

(** The POST to the token endpoint, its parameters in the body. *)
Definition token_request (params : Values) : Request :=
  mkRequest "POST" accessTokenURL [] params [].

Definition requestToken (params : Values) (w : World)
  : result TokenResponse.t * World :=
  let '(x, w) := Do (token_request params) w in
  match x with
  | DoError err => (Err err, w)
  | ReadError _ err => (Err err, w)
  | Response StatusCode body =>
      let failed :=
        Err ("token request failed with status " +:+ fmt_d StatusCode
             +:+ ": " +:+ body) in
      if negb (StatusCode =? StatusOK) then
        if StatusCode =? StatusBadRequest then
          let errorResp_Error := json_errorResp body in
          if streq errorResp_Error "authorization_pending" then
            (Ok TokenResponse.zero, w)
          else if streq errorResp_Error "slow_down" then
            (Ok TokenResponse.zero, w)
          else (failed, w)
        else (failed, w)
      else (json_TokenResponse body, w)
  end.

(** The [for] loop of [PollForToken]; [None] when the fuel runs out. *)
Fixpoint poll_loop (fuel : nat) (c : Client) (params : Values)
    (interval : Z) (timeout : Time) (w : World)
  : option (result TokenResponse.t * Client * World) :=
  match fuel with
  | O => None
  | S fuel' =>
      if Time_After (clock w) timeout then
        Some (Err "device code has expired", c, w)
      else
        let '(r, w) := requestToken params w in
        match r with
        | Err err => Some (Err err, c, w)
        | Panic msg => Some (Panic msg, c, w)
        | Ok tokenResp =>
            if negb (streq (TokenResponse.AccessToken tokenResp) "") then
              Some (Ok tokenResp,
                    mkClient (clientID c) (clientSecret c)
                      (TokenResponse.AccessToken tokenResp)
                      (TokenResponse.RefreshToken tokenResp)
                      (TokenResponse.ExpiresIn tokenResp)
                      (TokenResponse.UID tokenResp)
                      (tokenFile c) (tokenCreatedAt c),
                    w)
            else
              poll_loop fuel' c params interval timeout
                (Sleep (Duration_mul interval Second) w)
        end
  end.

Definition poll_params (c : Client) (deviceCode : string) : Values :=
  [("grant_type", "device_token"); ("code", deviceCode);
   ("client_id", clientID c); ("client_secret", clientSecret c)].

(** [PollForToken] once the poll parameters are known. *)
Definition poll_with (initialResp : DeviceCodeResponse.t) (fuel : nat)
    (c : Client) (deviceCode : string) (w : World)
  : option (result TokenResponse.t * Client * World) :=
  let params := poll_params c deviceCode in
  let interval :=
    if DeviceCodeResponse.Interval initialResp =? 0 then 5
    else DeviceCodeResponse.Interval initialResp in
  let timeout :=
    Time_Add (clock w)
      (Duration_mul (DeviceCodeResponse.ExpiresIn initialResp) Second) in
  poll_loop fuel c params interval timeout w.

Definition PollForToken (fuel : nat) (c : Client) (deviceCode : string)
    (w : World) : option (result TokenResponse.t * Client * World) :=
  match GetDeviceCodeForPoll deviceCode with
  | Err err => Some (Err err, c, w)
  | Panic msg => Some (Panic msg, c, w)
  | Ok initialResp => poll_with initialResp fuel c deviceCode w
  end.

(** ** Token persistence, expiry and refresh (src/pan/utils.go) *)

(** [os.WriteFile(c.tokenFile, data, 0600)] of the marshalled record.
    [write_error] is the error of a write that cannot open the file, which
    is then as it was; a write that fails once the file is open, and leaves
    it truncated or partial, is not modelled. *)
Definition WriteTokenFile (path : string) (tf : TokenFile.t) (w : World)
  : outcome * World :=
  match write_error w with
  | Some err => (Err err, w)
  | None => (Nil, set_token_files (<[path := tf]> (token_files w)) w)
  end.

Definition SaveTokens (c : Client) (w : World) : outcome * Client * World :=
  if streq (accessToken c) "" then (Err "no access token to save", c, w)
  else
    let tokenFile_ :=
      TokenFile.mk (accessToken c) (refreshToken c) (expiresIn c) (uid c)
        (clock w) in
    let c :=
      mkClient (clientID c) (clientSecret c) (accessToken c)
        (refreshToken c) (expiresIn c) (uid c) (tokenFile c)
        (TokenFile.CreatedAt tokenFile_) in
    let '(r, w) := WriteTokenFile (tokenFile c) tokenFile_ w in
    (r, c, w).

Definition LoadTokens (c : Client) (w : World) : outcome * Client :=
  match token_files w !! tokenFile c with
  | None => (Err "unable to read token file", c)
  | Some tf =>
      (Nil,
       mkClient (clientID c) (clientSecret c) (TokenFile.AccessToken tf)
         (TokenFile.RefreshToken tf) (TokenFile.ExpiresIn tf)
         (TokenFile.UID tf) (tokenFile c) (TokenFile.CreatedAt tf))
  end.

(** [IsTokenExpired] reads the clock twice: [now1] for [twoDaysBefore],
    then [now2] for the comparison with the expiry itself. *)
Definition IsTokenExpired (c : Client) (now1 now2 : Time) : bool :=
  if Time_IsZero (tokenCreatedAt c) || (expiresIn c =? 0) then true
  else
    let expirationTime :=
      Time_Add (tokenCreatedAt c) (Duration_mul (expiresIn c) Second) in
    let twoDaysBefore := Time_Add now1 (48 * Hour) in
    Time_Before expirationTime now2
    || Time_Before expirationTime twoDaysBefore.

Definition refresh_params (c : Client) : Values :=
  [("grant_type", "refresh_token"); ("refresh_token", refreshToken c);
   ("client_id", clientID c); ("client_secret", clientSecret c)].

Definition RefreshToken (c : Client) (w : World)
  : outcome * Client * World :=
  if streq (refreshToken c) "" then
    (Err "no refresh token available", c, w)
  else
    let '(x, w) := Do (token_request (refresh_params c)) w in
    match x with
    | DoError err => (Err err, c, w)
    | ReadError _ err => (Err err, c, w)
    | Response StatusCode body =>
        if negb (StatusCode =? StatusOK) then
          (Err ("token refresh failed with status " +:+ fmt_d StatusCode
                  +:+ ": " +:+ body), c, w)
        else
          match json_TokenResponse body with
          | Err err => (Err err, c, w)
          | Panic msg => (Panic msg, c, w)
          | Ok tokenResp =>
              if streq (TokenResponse.AccessToken tokenResp) "" then
                (Err "refresh returned empty access token", c, w)
              else
                SaveTokens
                  (mkClient (clientID c) (clientSecret c)
                     (TokenResponse.AccessToken tokenResp)
                     (TokenResponse.RefreshToken tokenResp)
                     (TokenResponse.ExpiresIn tokenResp)
                     (TokenResponse.UID tokenResp)
                     (tokenFile c) (tokenCreatedAt c))
                  w
          end
    end.

(** ** Slice hashing (src/pan/utils.go) *)

(** An open [*os.File] on a regular file: its bytes and the read offset. *)
Record OpenFile : Type := mkOpenFile {
  content : list Byte.byte;
  offset : nat
}.

Inductive ReadErr : Type :=
| no_error
| EOF
| UnexpectedEOF
| io_error (err : string).

(** The cut of a read buffer to [maxRW]. *)
Definition capped (len_buffer : nat) : nat :=
  if Z.of_nat len_buffer >? maxRW then Z.to_nat maxRW else len_buffer.

(** [file.Read(buffer)] with [len(buffer) = len_buffer]: up to that many
    bytes from the offset, and no more than [maxRW]; [0, io.EOF] at the end
    of the file; [0, nil] when the buffer is empty. Returns the count, the
    error, the buffer as it is filled and the file with its offset moved. *)
Definition File_Read (file : OpenFile) (len_buffer : nat)
  : nat * ReadErr * list Byte.byte * OpenFile :=
  let rest := drop (offset file) (content file) in
  let n := (capped len_buffer `min` length rest)%nat in
  if (len_buffer =? 0)%nat then (O, no_error, [], file)
  else if (n =? 0)%nat then (O, EOF, [], file)
  else (n, no_error, take n rest,
        mkOpenFile (content file) (offset file + n)).

(** The [for] loop of [CalculateSliceMD5]. *)
Fixpoint slice_loop (fuel : nat) (file : OpenFile) (len_buffer : nat)
    (md5List : list string) : option (result (list string)) :=
  match fuel with
  | O => None
  | S fuel' =>
      let '(n, err, buffer, file) := File_Read file len_buffer in
      if (n =? 0)%nat then Some (Ok md5List)
      else
        match err with
        | io_error e => Some (Err ("failed to read file slice: " +:+ e))
        | UnexpectedEOF =>
            Some (Err "failed to read file slice: unexpected EOF")
        | no_error =>
            slice_loop fuel' file len_buffer
              (md5List ++ [md5_hex (take n buffer)])
        | EOF => Some (Ok (md5List ++ [md5_hex (take n buffer)]))
        end
  end.

(** [CalculateSliceMD5(filePath, sliceSize)]. A directory opens; its first
    [Read] fails with [n = 0], which the loop takes for the end. *)
Definition CalculateSliceMD5 (fuel : nat) (filePath : string)
    (sliceSize : Z) (w : World) : option (result (list string)) :=
  match local_files w !! filePath with
  | None =>
      Some (Err ("failed to open file " +:+ filePath +:+ ": open "
                 +:+ filePath +:+ ": no such file or directory"))
  | Some file =>
      if (sliceSize <? 0) || (maxAlloc <? sliceSize) then
        Some (Panic "makeslice: len out of range")
      else
        match file with
        | Directory _ => Some (Ok [])
        | Regular _ bytes =>
            slice_loop fuel (mkOpenFile bytes 0) (Z.to_nat sliceSize) []
        end
  end.

(** ** Batch operations of the file manager (src/pan/move.go,
    src/pan/rename.go) *)

Variable json_MoveResponse : string -> result MoveResponse.t.
Variable json_CopyResponse : string -> result CopyResponse.t.
Variable json_RenameResponse : string -> result RenameResponse.t.
Variable json_DeleteResponse : string -> result DeleteResponse.t.
Variable json_Marshal_MoveRequests : list MoveRequest.t -> string.
Variable json_Marshal_CopyRequests : list CopyRequest.t -> string.
Variable json_Marshal_RenameRequests : list RenameRequest.t -> string.

Definition unknown_error (errno : Z) : string :=
  "Unknown error code: " +:+ fmt_d errno.

(** The [switch] shared by [GetMoveErrorMessage], [GetCopyErrorMessage] and
    [GetRenameErrorMessage]. *)
Definition GetMoveErrorMessage (errno : Z) : string :=
  if errno =? 0 then "Success"
  else if errno =? 2 then "Parameters error"
  else if errno =? 3 then "User permission error"
  else if errno =? 4 then "Request source error"
  else if errno =? 12 then "Operation not allowed or path error"
  else if errno =? -9 then "File does not exist"
  else if errno =? 111 then
    "Another asynchronous task is currently executing"
  else if errno =? -7 then "Invalid file name"
  else if errno =? 108 then "Path error, path does not exist"
  else if errno =? 110 then "Target path already exists"
  else if errno =? 112 then
    "Same file already exists in the same directory"
  else if errno =? 113 then
    "File or directory name contains forbidden words"
  else if errno =? 114 then "Path too long"
  else if errno =? 115 then "Target directory does not exist"
  else if errno =? 116 then "Insufficient disk space"
  else if errno =? 117 then "File too large"
  else if errno =? 31001 then "User has been banned"
  else if errno =? 31026 then "File contains illegal content"
  else unknown_error errno.

Definition GetCopyErrorMessage : Z -> string := GetMoveErrorMessage.
Definition GetRenameErrorMessage : Z -> string := GetMoveErrorMessage.

(** [GetErrorMessage], that of [RemoveFiles], has no case for 12, -9, 111
    and -7. *)
Definition GetErrorMessage (errno : Z) : string :=
  if errno =? 0 then "Success"
  else if errno =? 2 then "Parameters error"
  else if errno =? 3 then "User permission error"
  else if errno =? 4 then "Request source error"
  else if errno =? 108 then "Path error, path does not exist"
  else if errno =? 110 then "Target path already exists"
  else if errno =? 112 then
    "Same file already exists in the same directory"
  else if errno =? 113 then
    "File or directory name contains forbidden words"
  else if errno =? 114 then "Path too long"
  else if errno =? 115 then "Target directory does not exist"
  else if errno =? 116 then "Insufficient disk space"
  else if errno =? 117 then "File too large"
  else if errno =? 31001 then "User has been banned"
  else if errno =? 31026 then "File contains illegal content"
  else unknown_error errno.

(** The query parameters of a move, a copy and a delete. *)
Definition filemanager_params (c : Client) (opera : string) : Values :=
  [("method", "filemanager"); ("access_token", accessToken c);
   ("opera", opera); ("async", "0"); ("channel", "chunlei"); ("web", "1");
   ("app_id", "250528"); ("bdstoken", accessToken c)].

(** The loop
    [for i, info := range resp.Info {
       if info.Errno != 0 { req := requests[i]; failed = append(failed, ...) } }]
    of MoveFiles, CopyFiles and RenameFiles, from index [i] on. [None] is
    the panic of [requests[i]] out of range. *)
Fixpoint range_failed {Req Info : Type} (errno : Info -> Z)
    (describe : Req -> Info -> string) (requests : list Req) (i : nat)
    (infos : list Info) (failed : list string) : option (list string) :=
  match infos with
  | [] => Some failed
  | info :: rest =>
      if negb (errno info =? 0) then
        match requests !! i with
        | None => None
        | Some req =>
            range_failed errno describe requests (S i) rest
              (failed ++ [describe req info])
        end
      else range_failed errno describe requests (S i) rest failed
  end.

Definition index_out_of_range : string :=
  "runtime error: index out of range".

Definition describe_move (req : MoveRequest.t) (moveInfo : MoveInfo.t)
  : string :=
  MoveRequest.Path req +:+ " -> " +:+ MoveRequest.Dest req +:+ "/"
  +:+ MoveRequest.NewName req +:+ " (error code: "
  +:+ fmt_d (MoveInfo.Errno moveInfo) +:+ ")".

(** The request that [MoveFiles] builds. *)
Definition move_request (c : Client) (moveRequests : list MoveRequest.t)
  : Request :=
  let moveRequestsJSON := json_Marshal_MoveRequests moveRequests in
  let params := filemanager_params c "move" in
  let formData := [("filelist", moveRequestsJSON); ("ondup", "newcopy")] in
  mkRequest "POST" filemanagerURL params formData [].

Definition MoveFiles (c : Client) (moveRequests : list MoveRequest.t)
    (w : World) : outcome * World :=
  if streq (accessToken c) "" then
    (Err "no access token, please authorize first", w)
  else if (length moveRequests =? 0)%nat then
    (Err "no files specified for move operation", w)
  else
    let '(x, w) := Do (move_request c moveRequests) w in
    match x with
    | DoError err => (Err ("move request failed: " +:+ err), w)
    | ReadError _ err => (Err ("failed to read move response: " +:+ err), w)
    | Response StatusCode responseBody =>
        if negb (StatusCode =? StatusOK) then
          (Err ("move request failed with status " +:+ fmt_d StatusCode
                +:+ ": " +:+ responseBody), w)
        else
          match json_MoveResponse responseBody with
          | Err err =>
              (Err ("failed to unmarshal move response: " +:+ err), w)
          | Panic msg => (Panic msg, w)
          | Ok moveResponse =>
              if negb (MoveResponse.Errno moveResponse =? 0) then
                (Err ("move API returned error code "
                      +:+ fmt_d (MoveResponse.Errno moveResponse) +:+ ": "
                      +:+ GetMoveErrorMessage
                            (MoveResponse.Errno moveResponse)), w)
              else
                match range_failed MoveInfo.Errno describe_move
                        moveRequests 0 (MoveResponse.Info moveResponse) []
                with
                | None => (Panic index_out_of_range, w)
                | Some failedMoves =>
                    if (0 <? length failedMoves)%nat then
                      (Err ("failed to move some files: "
                            +:+ strings_Join failedMoves "; "), w)
                    else (Nil, w)
                end
          end
    end.

Definition describe_copy (req : CopyRequest.t) (copyInfo : CopyInfo.t)
  : string :=
  CopyRequest.Path req +:+ " -> " +:+ CopyRequest.Dest req +:+ "/"
  +:+ CopyRequest.NewName req +:+ " (error code: "
  +:+ fmt_d (CopyInfo.Errno copyInfo) +:+ ")".

(** The second loop of [CopyFiles]:
    [for i, _ := range copyResponse.Info { req := copyRequests[i]; PrintSuccess(...) }]. *)
Fixpoint print_copied (copyRequests : list CopyRequest.t) (i : nat)
    (infos : list CopyInfo.t) (w : World) : outcome * World :=
  match infos with
  | [] => (Nil, w)
  | _ :: rest =>
      match copyRequests !! i with
      | None => (Panic index_out_of_range, w)
      | Some req =>
          print_copied copyRequests (S i) rest
            (PrintSuccess
               ("File '" +:+ CopyRequest.Path req
                +:+ "' copied successfully to '" +:+ CopyRequest.Dest req
                +:+ "/" +:+ CopyRequest.NewName req +:+ "'") w)
      end
  end.

(** The request that [CopyFiles] builds. *)
Definition copy_request (c : Client) (copyRequests : list CopyRequest.t)
  : Request :=
  let copyRequestsJSON := json_Marshal_CopyRequests copyRequests in
  let params := filemanager_params c "copy" in
  let formData := [("filelist", copyRequestsJSON); ("ondup", "newcopy")] in
  mkRequest "POST" filemanagerURL params formData [].

Definition CopyFiles (c : Client) (copyRequests : list CopyRequest.t)
    (w : World) : outcome * World :=
  if streq (accessToken c) "" then
    (Err "no access token, please authorize first", w)
  else if (length copyRequests =? 0)%nat then
    (Err "no files specified for copy operation", w)
  else
    let '(x, w) := Do (copy_request c copyRequests) w in
    match x with
    | DoError err => (Err ("copy request failed: " +:+ err), w)
    | ReadError _ err => (Err ("failed to read copy response: " +:+ err), w)
    | Response StatusCode responseBody =>
        if negb (StatusCode =? StatusOK) then
          (Err ("copy request failed with status " +:+ fmt_d StatusCode
                +:+ ": " +:+ responseBody), w)
        else
          match json_CopyResponse responseBody with
          | Err err =>
              (Err ("failed to unmarshal copy response: " +:+ err), w)
          | Panic msg => (Panic msg, w)
          | Ok copyResponse =>
              if negb (CopyResponse.Errno copyResponse =? 0) then
                (Err ("copy API returned error code "
                      +:+ fmt_d (CopyResponse.Errno copyResponse) +:+ ": "
                      +:+ GetCopyErrorMessage
                            (CopyResponse.Errno copyResponse)), w)
              else
                match range_failed CopyInfo.Errno describe_copy
                        copyRequests 0 (CopyResponse.Info copyResponse) []
                with
                | None => (Panic index_out_of_range, w)
                | Some failedCopies =>
                    if (0 <? length failedCopies)%nat then
                      (Err ("failed to copy some files: "
                            +:+ strings_Join failedCopies "; "), w)
                    else
                      print_copied copyRequests 0
                        (CopyResponse.Info copyResponse) w
                end
          end
    end.

Definition describe_rename (req : RenameRequest.t)
    (renameInfo : RenameInfo.t) : string :=
  RenameRequest.Path req +:+ " -> " +:+ RenameRequest.NewName req
  +:+ " (error code: " +:+ fmt_d (RenameInfo.Errno renameInfo) +:+ ")".

(** The request that [RenameFiles] builds: [async] is a form field here. *)
Definition rename_request (c : Client)
    (renameRequests : list RenameRequest.t) : Request :=
  let renameRequestsJSON := json_Marshal_RenameRequests renameRequests in
  let params :=
    [("method", "filemanager"); ("access_token", accessToken c);
     ("opera", "rename"); ("channel", "chunlei"); ("web", "1");
     ("app_id", "250528"); ("bdstoken", accessToken c)] in
  let formData :=
    [("filelist", renameRequestsJSON); ("ondup", "newcopy");
     ("async", "0")] in
  mkRequest "POST" filemanagerURL params formData [].

Definition RenameFiles (c : Client) (renameRequests : list RenameRequest.t)
    (w : World) : outcome * World :=
  if streq (accessToken c) "" then
    (Err "no access token, please authorize first", w)
  else if (length renameRequests =? 0)%nat then
    (Err "no files specified for rename operation", w)
  else
    let '(x, w) := Do (rename_request c renameRequests) w in
    match x with
    | DoError err => (Err ("rename request failed: " +:+ err), w)
    | ReadError _ err =>
        (Err ("failed to read rename response: " +:+ err), w)
    | Response StatusCode responseBody =>
        if negb (StatusCode =? StatusOK) then
          (Err ("rename request failed with status " +:+ fmt_d StatusCode
                +:+ ": " +:+ responseBody), w)
        else
          match json_RenameResponse responseBody with
          | Err err =>
              (Err ("failed to unmarshal rename response: " +:+ err), w)
          | Panic msg => (Panic msg, w)
          | Ok renameResponse =>
              if negb (RenameResponse.Errno renameResponse =? 0) then
                (Err ("rename API returned error code "
                      +:+ fmt_d (RenameResponse.Errno renameResponse)
                      +:+ ": "
                      +:+ GetRenameErrorMessage
                            (RenameResponse.Errno renameResponse)), w)
              else
                match range_failed RenameInfo.Errno describe_rename
                        renameRequests 0
                        (RenameResponse.Info renameResponse) []
                with
                | None => (Panic index_out_of_range, w)
                | Some failedRenames =>
                    if (0 <? length failedRenames)%nat then
                      (Err ("failed to rename some files: "
                            +:+ strings_Join failedRenames "; "), w)
                    else (Nil, w)
                end
          end
    end.

(** The loop of [RemoveFiles] that builds [fileListJSON], from index [i]
    on: a comma before every path but the first, each path between two
    double quotes as [fmt.Sprintf] with [%s] leaves it. *)
Fixpoint quote_paths (i : nat) (filePaths : list string)
    (fileListJSON : string) : string :=
  match filePaths with
  | [] => fileListJSON
  | path :: rest =>
      let fileListJSON :=
        if (0 <? i)%nat then fileListJSON +:+ "," else fileListJSON in
      quote_paths (S i) rest (fileListJSON +:+ (dquote +:+ path +:+ dquote))
  end.

Definition fileListJSON (filePaths : list string) : string :=
  quote_paths 0 filePaths "[" +:+ "]".

Definition describe_delete (entry : DeleteEntry.t) : string :=
  DeleteEntry.Path entry +:+ " (error code: "
  +:+ fmt_d (DeleteEntry.Errno entry) +:+ ")".

(** [for _, entry := range deleteResponse.List { if entry.Errno != 0 {...} }] *)
Fixpoint failed_deletes (entries : list DeleteEntry.t)
    (failedFiles : list string) : list string :=
  match entries with
  | [] => failedFiles
  | entry :: rest =>
      if negb (DeleteEntry.Errno entry =? 0) then
        failed_deletes rest (failedFiles ++ [describe_delete entry])
      else failed_deletes rest failedFiles
  end.

(** The request that [RemoveFiles] builds. *)
Definition delete_request (c : Client) (filePaths : list string) : Request :=
  let params := filemanager_params c "delete" in
  let formData := [("filelist", fileListJSON filePaths)] in
  mkRequest "POST" filemanagerURL params formData [].

Definition RemoveFiles (c : Client) (filePaths : list string) (w : World)
  : outcome * World :=
  if streq (accessToken c) "" then
    (Err "no access token, please authorize first", w)
  else if (length filePaths =? 0)%nat then
    (Err "no files specified for deletion", w)
  else
    let '(x, w) := Do (delete_request c filePaths) w in
    match x with
    | DoError err => (Err ("delete request failed: " +:+ err), w)
    | ReadError _ err =>
        (Err ("failed to read delete response: " +:+ err), w)
    | Response StatusCode responseBody =>
        if negb (StatusCode =? StatusOK) then
          (Err ("delete request failed with status " +:+ fmt_d StatusCode
                +:+ ": " +:+ responseBody), w)
        else
          match json_DeleteResponse responseBody with
          | Err err =>
              (Err ("failed to unmarshal delete response: " +:+ err), w)
          | Panic msg => (Panic msg, w)
          | Ok deleteResponse =>
              if negb (DeleteResponse.Errno deleteResponse =? 0) then
                (Err ("delete API returned error code "
                      +:+ fmt_d (DeleteResponse.Errno deleteResponse)
                      +:+ ": "
                      +:+ GetErrorMessage
                            (DeleteResponse.Errno deleteResponse)), w)
              else
                let failedFiles :=
                  failed_deletes (DeleteResponse.List deleteResponse) [] in
                if (0 <? length failedFiles)%nat then
                  (Err ("failed to delete some files: "
                        +:+ strings_Join failedFiles "; "), w)
                else (Nil, w)
          end
    end.

(** ** Upload (src/pan/move.go)

    [UploadFile] calls [ensureRemoteDirExists] and [calculateSliceMD5]; the
    package defines them as [EnsureRemoteDirExists] and
    [CalculateSliceMD5]. *)

(** [filepath.Dir], and the two formatters of [UploadFile] that print
    floating-point numbers. *)
Variable filepath_Dir : string -> string.
Variable byteCountToHumanReadable : Z -> string.
Variable fmt_progress : Z -> Z -> string.

Definition EnsureRemoteDirExists (remotePath : string) : outcome :=
  if negb (String.prefix "/" remotePath) then
    Err "remote path must be an absolute path starting with '/'"
  else Nil.

Definition sliceSize : Z := 4 * 1024 * 1024.

(** [localFile.Seek(offset, io.SeekStart)] then
    [io.ReadFull(localFile, sliceBuffer)]: the bytes read and the error. *)
Definition Seek_ReadFull (bytes : list Byte.byte) (offset : Z)
    (len_buffer : nat) : list Byte.byte * ReadErr :=
  let currentSlice := take len_buffer (drop (Z.to_nat offset) bytes) in
  (currentSlice,
   if (length currentSlice =? len_buffer)%nat then no_error
   else if (length currentSlice =? 0)%nat then EOF
   else UnexpectedEOF).

(** The URL of a slice transfer, as [fmt.Sprintf] writes it: the access
    token, the remote path and the upload id go in as they are. *)
Definition sliceUploadURL (c : Client) (remoteFilePath UploadID : string)
    (i : nat) : string :=
  uploadSuperfileURL +:+ "?access_token=" +:+ accessToken c
  +:+ "&method=upload&type=tmpfile&path=" +:+ remoteFilePath
  +:+ "&uploadid=" +:+ UploadID +:+ "&partseq=" +:+ fmt_d (Z.of_nat i).

(** [http.NewRequest] parses the URL it is given: the error of [url.Parse],
    or the URL that the request goes to. *)
Variable http_NewRequest_URL : string -> result string.

(** The loop [for i := 0; i < len(sliceMD5s); i++] over the indexes that
    remain; [uploadedBytes] is the running total. *)
Fixpoint upload_slices (c : Client) (remoteFilePath fileName : string)
    (bytes : list Byte.byte) (fileSize : Z) (UploadID : string)
    (indexes : list nat) (uploadedBytes : Z) (w : World)
  : outcome * World :=
  match indexes with
  | [] => (Nil, w)
  | i :: rest =>
      let offset := Z.of_nat i * sliceSize in
      let '(currentSlice, err) :=
        Seek_ReadFull bytes offset (Z.to_nat sliceSize) in
      match err with
      | io_error e =>
          (Err ("failed to read file slice " +:+ fmt_d (Z.of_nat i)
                +:+ ": " +:+ e), w)
      | _ =>
          match
            http_NewRequest_URL (sliceUploadURL c remoteFilePath UploadID i)
          with
          | Err e =>
              (Err ("failed to create slice upload request: " +:+ e), w)
          | Panic msg => (Panic msg, w)
          | Ok url =>
              let sliceUploadReq :=
                mkRequest "POST" url [] [("file", fileName)] currentSlice in
              let '(x, w) := Do sliceUploadReq w in
              match x with
              | DoError e =>
                  (Err ("slice upload request failed for part "
                        +:+ fmt_d (Z.of_nat i) +:+ ": " +:+ e), w)
              | ReadError _ e =>
                  (Err ("failed to read slice upload response body for part "
                        +:+ fmt_d (Z.of_nat i) +:+ ": " +:+ e), w)
              | Response StatusCode sliceUploadBody =>
                  if negb (StatusCode =? StatusOK) then
                    (Err ("slice upload API failed for part "
                          +:+ fmt_d (Z.of_nat i) +:+ " with status "
                          +:+ fmt_d StatusCode +:+ ": " +:+ sliceUploadBody),
                     w)
                  else
                    let uploadedBytes :=
                      wrap64
                        (uploadedBytes + Z.of_nat (length currentSlice)) in
                    upload_slices c remoteFilePath fileName bytes fileSize
                      UploadID rest uploadedBytes
                      (print (fmt_progress uploadedBytes fileSize) w)
              end
          end
      end
  end.

(** Step 5 of [UploadFile]: the create-file call that finalizes. *)
Definition create_file (c : Client) (remoteFilePath fileName : string)
    (fileSize : Z) (UploadID sliceMD5sJSON : string) (w : World)
  : outcome * World :=
  let createFileParams :=
    [("access_token", accessToken c); ("path", remoteFilePath);
     ("size", fmt_d fileSize); ("isdir", "0"); ("uploadid", UploadID);
     ("block_list", sliceMD5sJSON); ("rtype", "1")] in
  let '(x, w) :=
    Do (mkRequest "POST" uploadCreateFileUrl [] createFileParams []) w in
  match x with
  | DoError e => (Err ("create file request failed: " +:+ e), w)
  | ReadError _ e =>
      (Err ("failed to read create file response body: " +:+ e), w)
  | Response StatusCode createFileBody =>
      if negb (StatusCode =? StatusOK) then
        (Err ("create file API failed with status " +:+ fmt_d StatusCode
              +:+ ": " +:+ createFileBody), w)
      else
        match json_CreateFileResponse createFileBody with
        | Err e =>
            (Err ("failed to unmarshal create file response: " +:+ e), w)
        | Panic msg => (Panic msg, w)
        | Ok createFileResponse =>
            if negb (CreateFileResponse.Errno createFileResponse =? 0) then
              (Err ("create file API returned error code "
                    +:+ fmt_d (CreateFileResponse.Errno createFileResponse)
                    +:+ ": " +:+ createFileBody), w)
            else
              (Nil,
               PrintSuccess
                 ("File '" +:+ fileName
                  +:+ "' uploaded successfully to Baidu Pan as '"
                  +:+ CreateFileResponse.Path createFileResponse +:+ "'")
                 w)
        end
  end.

(** Steps 3 to 5 of [UploadFile], once the precreate response is parsed
    and its [errno] is zero. *)
Definition after_precreate (c : Client) (remoteFilePath fileName : string)
    (bytes : list Byte.byte) (fileSize : Z) (sliceMD5s : list string)
    (sliceMD5sJSON : string) (precreateResponse : PrecreateResponse.t)
    (w : World) : outcome * World :=
  if PrecreateResponse.ReturnType precreateResponse =? 2 then
    (Nil,
     PrintSuccess
       ("File '" +:+ remoteFilePath
        +:+ "' already exists on Baidu Pan and matches the local file. Skipping upload.")
       w)
  else if streq (PrecreateResponse.UploadID precreateResponse) "" then
    (Err "precreate API did not return uploadid", w)
  else
    let UploadID := PrecreateResponse.UploadID precreateResponse in
    let w := PrintSuccess "Starting slice upload..." w in
    let '(r, w) :=
      upload_slices c remoteFilePath fileName bytes fileSize UploadID
        (seq 0 (length sliceMD5s)) 0 w in
    match r with
    | Ok _ =>
        create_file c remoteFilePath fileName fileSize UploadID
          sliceMD5sJSON (PrintSuccess "All slices uploaded." w)
    | _ => (r, w)
    end.

(** Step 2 of [UploadFile]: the precreate request. *)
Definition precreate_request (c : Client) (remoteFilePath : string)
    (fileSize : Z) (sliceMD5sJSON : string) : Request :=
  let precreateParams :=
    [("access_token", accessToken c); ("path", remoteFilePath);
     ("size", fmt_d fileSize); ("isdir", "0"); ("autoinit", "1");
     ("rtype", "1"); ("block_list", sliceMD5sJSON)] in
  mkRequest "POST" uploadPrecreateURL [] precreateParams [].

Definition UploadFile (fuel : nat) (c : Client)
    (localFilePath remoteFilePath : string) (w : World)
  : option (outcome * World) :=
  if streq (accessToken c) "" then
    Some (Err "no access token, please authorize first", w)
  else
    match local_files w !! localFilePath with
    | None =>
        Some (Err ("failed to get local file info: stat " +:+ localFilePath
                   +:+ ": no such file or directory"), w)
    | Some (Directory _) =>
        Some (Err ("cannot upload directory, please specify a file: "
                   +:+ localFilePath), w)
    | Some (Regular fileName bytes) =>
        let fileSize := Z.of_nat (length bytes) in
        match EnsureRemoteDirExists (filepath_Dir remoteFilePath) with
        | Err e => Some (Err e, w)
        | Panic msg => Some (Panic msg, w)
        | Ok _ =>
            match CalculateSliceMD5 fuel localFilePath sliceSize w with
            | None => None
            | Some (Err e) =>
                Some (Err ("failed to calculate slice MD5s: " +:+ e), w)
            | Some (Panic msg) => Some (Panic msg, w)
            | Some (Ok sliceMD5s) =>
                let sliceMD5sJSON := json_Marshal_strings sliceMD5s in
                let w :=
                  PrintSuccess
                    ("Uploading " +:+ fileName +:+ " ("
                     +:+ byteCountToHumanReadable fileSize +:+ ") to "
                     +:+ remoteFilePath) w in
                let '(x, w) :=
                  Do (precreate_request c remoteFilePath fileSize
                        sliceMD5sJSON) w in
                match x with
                | DoError e =>
                    Some (Err ("precreate request failed: " +:+ e), w)
                | ReadError _ e =>
                    Some (Err ("failed to read precreate response body: "
                               +:+ e), w)
                | Response StatusCode precreateBody =>
                    if negb (StatusCode =? StatusOK) then
                      Some (Err ("precreate API failed with status "
                                 +:+ fmt_d StatusCode +:+ ": "
                                 +:+ precreateBody), w)
                    else
                      match json_PrecreateResponse precreateBody with
                      | Err e =>
                          Some (Err ("failed to unmarshal precreate response: "
                                     +:+ e), w)
                      | Panic msg => Some (Panic msg, w)
                      | Ok precreateResponse =>
                          if negb (PrecreateResponse.Errno precreateResponse
                                   =? 0) then
                            Some (Err ("precreate API returned error code "
                                       +:+ fmt_d (PrecreateResponse.Errno
                                                    precreateResponse)
                                       +:+ ": " +:+ precreateBody), w)
                          else
                            Some (after_precreate c remoteFilePath fileName
                                    bytes fileSize sliceMD5s sliceMD5sJSON
                                    precreateResponse w)
                      end
                end
            end
        end
    end.

(** ** Listing and walking (the Go source that follows src/README.md) *)

Definition list_request (c : Client) (dirPath : string) : Request :=
  let params :=
    [("method", "list"); ("access_token", accessToken c);
     ("dir", dirPath); ("folder", "0")] in
  mkRequest "GET" listFilesURL params [] [].

Definition ListFiles (c : Client) (dirPath : string) (w : World)
  : result (list FileInfo.t) * World :=
  if streq (accessToken c) "" then
    (Err "no access token, please authorize first", w)
  else
    let '(x, w) := Do (list_request c dirPath) w in
    match x with
    | DoError err => (Err err, w)
    | ReadError _ err => (Err err, w)
    | Response StatusCode body =>
        if negb (StatusCode =? StatusOK) then
          (Err ("list files request failed with status "
                +:+ fmt_d StatusCode +:+ ": " +:+ body), w)
        else
          match json_ListFilesResponse body with
          | Err err => (Err err, w)
          | Panic msg => (Panic msg, w)
          | Ok response =>
              if negb (ListFilesResponse.Errno response =? 0) then
                (Err ("API returned error code "
                      +:+ fmt_d (ListFilesResponse.Errno response)), w)
              else (Ok (ListFilesResponse.List response), w)
          end
    end.

(** The loop [for _, file := range files] of [WalkRecursive], over the
    recursive call [walk]: each entry is sent, and a directory is walked
    before the next entry. *)
Fixpoint walk_range
    (walk : string -> World -> option (outcome * list ChanOp * World))
    (files : list FileInfo.t) (w : World)
  : option (outcome * list ChanOp * World) :=
  match files with
  | [] => Some (Nil, [], w)
  | file :: rest =>
      if FileInfo.IsDir file =? 1 then
        let subPath := FileInfo.Path file in
        match walk subPath w with
        | None => None
        | Some (Ok _, ops, w) =>
            match walk_range walk rest w with
            | None => None
            | Some (r, ops', w) => Some (r, SendFile file :: ops ++ ops', w)
            end
        | Some (r, ops, w) => Some (r, SendFile file :: ops, w)
        end
      else
        match walk_range walk rest w with
        | None => None
        | Some (r, ops', w) => Some (r, SendFile file :: ops', w)
        end
  end.

(** [WalkRecursive]: the channel operations it performs, in order; the
    sends are in program order, a send that no one receives blocks
    ([fileChan] is unbuffered, [errChan] holds one error). The first
    component is [Nil] unless the goroutine panicked. *)
Fixpoint WalkRecursive (fuel : nat) (c : Client) (path : string) (w : World)
  : option (outcome * list ChanOp * World) :=
  match fuel with
  | O => None
  | S fuel' =>
      let '(r, w) := ListFiles c path w in
      match r with
      | Err err => Some (Nil, [SendErr err], w)
      | Panic msg => Some (Panic msg, [], w)
      | Ok files => walk_range (WalkRecursive fuel' c) files w
      end
  end.

(** [Walk]: the goroutine runs [WalkRecursive] and, by [defer], closes
    [fileChan] when it is over. *)
Definition Walk (fuel : nat) (c : Client) (rootPath : string) (w : World)
  : option (outcome * list ChanOp * World) :=
  match WalkRecursive fuel c rootPath w with
  | None => None
  | Some (r, ops, w) => Some (r, ops ++ [CloseFileChan], w)
  end.

(** ** strings, as the package uses it: every cutset and separator is "/" *)

(** [strings.TrimLeft(s, cutset)] for a cutset of one character. *)
Fixpoint strings_TrimLeft (s : string) (cut : ascii) : string :=
  match s with
  | EmptyString => ""
  | String ch rest =>
      if Ascii.eqb ch cut then strings_TrimLeft rest cut else s
  end.

(** [strings.TrimRight(s, cutset)] for a cutset of one character. *)
Fixpoint strings_TrimRight (s : string) (cut : ascii) : string :=
  match s with
  | EmptyString => ""
  | String ch rest =>
      match strings_TrimRight rest cut with
      | EmptyString => if Ascii.eqb ch cut then "" else String ch ""
      | trimmed => String ch trimmed
      end
  end.

(** [strings.Trim(s, cutset)] *)
Definition strings_Trim (s : string) (cut : ascii) : string :=
  strings_TrimLeft (strings_TrimRight s cut) cut.

(** [strings.Split(s, sep)] for a separator of one character: one part more
    than there are separators, so never an empty list. *)
Fixpoint strings_Split (s : string) (sep : ascii) : list string :=
  match s with
  | EmptyString => [""]
  | String ch rest =>
      if Ascii.eqb ch sep then "" :: strings_Split rest sep
      else
        match strings_Split rest sep with
        | part :: parts => String ch part :: parts
        | [] => [String ch ""]
        end
  end.

(** [strings.HasSuffix(s, suffix)] *)
Fixpoint strings_HasSuffix (s suffix : string) : bool :=
  streq s suffix
  || match s with
     | EmptyString => false
     | String _ rest => strings_HasSuffix rest suffix
     end.

(** [strings.Contains(s, substr)] for a substring of one character. *)
Fixpoint strings_Contains (s : string) (ch : ascii) : bool :=
  match s with
  | EmptyString => false
  | String c rest => Ascii.eqb c ch || strings_Contains rest ch
  end.

(** [strings.LastIndex(s, substr)] for a substring of one character; -1 when
    it does not occur. *)
Fixpoint strings_LastIndex (s : string) (ch : ascii) : Z :=
  match s with
  | EmptyString => -1
  | String c rest =>
      let i := strings_LastIndex rest ch in
      if 0 <=? i then i + 1 else if Ascii.eqb c ch then 0 else -1
  end.

(** ** Single-item wrappers and path helpers (src/pan/utils.go,
    src/pan/move.go, src/pan/rename.go) *)

(** [filepath.Base] and [filepath.Ext]; [filepath.Dir] is above. *)
Variable filepath_Base : string -> string.
Variable filepath_Ext : string -> string.

(** [parts[len(parts)-1]] of the path trimmed of its slashes. *)
Definition GetSourceFileName (path : string) : string :=
  let parts := strings_Split (strings_Trim path "/") "/" in
  if (length parts =? 0)%nat then ""
  else default "" (parts !! (length parts - 1)%nat).

Definition HasRefreshToken (c : Client) : bool :=
  negb (streq (refreshToken c) "").

Definition MoveFile (c : Client) (sourcePath destDir : string) (w : World)
  : outcome * World :=
  let sourcePath := strings_TrimRight sourcePath "/" in
  let destDir := strings_TrimRight destDir "/" in
  let moveRequests :=
    [MoveRequest.mk sourcePath destDir (GetSourceFileName sourcePath)] in
  MoveFiles c moveRequests w.

Definition RemoveFile (c : Client) (filePath : string) (w : World)
  : outcome * World :=
  RemoveFiles c [filePath] w.

Definition RenameFile (c : Client) (sourcePath newName : string) (w : World)
  : outcome * World :=
  RenameFiles c [RenameRequest.mk sourcePath newName] w.

Definition isDirectoryPath (path : string) : bool :=
  strings_HasSuffix path "/" || streq (filepath_Ext path) "".

Definition CopyFile (c : Client) (sourcePath destPath : string) (w : World)
  : outcome * World :=
  let sourcePath := strings_TrimRight sourcePath "/" in
  let destPath := strings_TrimRight destPath "/" in
  let destDir := filepath_Dir destPath in
  let newName := filepath_Base destPath in
  let '(destDir, newName) :=
    if strings_HasSuffix destPath "/" || isDirectoryPath destPath then
      (destPath, GetSourceFileName sourcePath)
    else (destDir, newName) in
  let copyRequests := [CopyRequest.mk sourcePath destDir newName] in
  CopyFiles c copyRequests w.

(** ** Authorize (src/pan/utils.go) *)

(** [performDeviceCodeAuth] runs the poll in a goroutine and waits for it or
    for the context in a [select]: it is a parameter here. *)
Variable performDeviceCodeAuth : Client -> World -> outcome * Client * World.

(** [HasValidToken]: [os.Stat] finds the token file. *)
Definition HasValidToken (c : Client) (w : World) : bool :=
  bool_decide (is_Some (token_files w !! tokenFile c)).

(** [os.Remove(c.tokenFile)], its error dropped. *)
Definition os_Remove (path : string) (w : World) : World :=
  set_token_files (delete path (token_files w)) w.

Definition Authorize (c : Client) (w : World) : outcome * Client * World :=
  if HasValidToken c w then
    let '(err, c) := LoadTokens c w in
    match err with
    | Ok _ =>
        if IsTokenExpired c (clock w) (clock w) then
          let w :=
            PrintSuccess
              "Access token is expired or will expire soon, attempting to refresh..."
              w in
          let '(refreshErr, c, w) := RefreshToken c w in
          match refreshErr with
          | Ok _ => (Nil, c, PrintSuccess "Token refreshed successfully!" w)
          | Panic msg => (Panic msg, c, w)
          | Err e =>
              let w := PrintError ("Token refresh failed: " +:+ e) w in
              let w :=
                PrintSuccess
                  "Removing expired token file and starting new authorization..."
                  w in
              performDeviceCodeAuth c (os_Remove (tokenFile c) w)
          end
        else
          (Nil, c, PrintSuccess "Using existing tokens from .bdfs_certs" w)
    | Panic msg => (Panic msg, c, w)
    | Err e =>
        performDeviceCodeAuth c
          (PrintError
             ("Could not load existing tokens, will re-authorize: " +:+ e) w)
    end
  else performDeviceCodeAuth c w.

(** ** GetFileInfo and CreateDir (the Go source that follows src/README.md) *)

(** The loop [for _, file := range files { if file.Path == filePath ... }]. *)
Fixpoint find_path (files : list FileInfo.t) (filePath : string)
  : option FileInfo.t :=
  match files with
  | [] => None
  | file :: rest =>
      if streq (FileInfo.Path file) filePath then Some file
      else find_path rest filePath
  end.

(** The directory that [GetFileInfo] lists. *)
Definition parent_dir (filePath : string) : string :=
  if strings_Contains filePath "/" then
    let lastSlash := strings_LastIndex filePath "/" in
    let dirPath := String.substring 0 (Z.to_nat lastSlash) filePath in
    if streq dirPath "" then "/" else dirPath
  else "/".

Definition GetFileInfo (c : Client) (filePath : string) (w : World)
  : result FileInfo.t * World :=
  if streq (accessToken c) "" then
    (Err "no access token, please authorize first", w)
  else
    let dirPath := parent_dir filePath in
    let '(r, w) := ListFiles c dirPath w in
    match r with
    | Err err => (Err err, w)
    | Panic msg => (Panic msg, w)
    | Ok files =>
        match find_path files filePath with
        | Some file => (Ok file, w)
        | None => (Err ("file not found: " +:+ filePath), w)
        end
    end.

Definition mkdir_request (c : Client) (remotePath : string) : Request :=
  let params :=
    [("method", "create"); ("access_token", accessToken c);
     ("path", remotePath); ("isdir", "1"); ("block_list", "[]")] in
  mkRequest "POST" uploadCreateFileUrl [] params [].

Definition CreateDir (c : Client) (remotePath : string) (w : World)
  : outcome * World :=
  if streq (accessToken c) "" then
    (Err "no access token, please authorize first", w)
  else if negb (String.prefix "/" remotePath) then
    (Err "remote directory path must be an absolute path starting with '/'",
     w)
  else
    let '(x, w) := Do (mkdir_request c remotePath) w in
    match x with
    | DoError e => (Err ("directory creation request failed: " +:+ e), w)
    | ReadError _ e =>
        (Err ("failed to read directory creation response: " +:+ e), w)
    | Response StatusCode body =>
        if negb (StatusCode =? StatusOK) then
          (Err ("directory creation API failed with status "
                +:+ fmt_d StatusCode +:+ ": " +:+ body), w)
        else
          match json_CreateFileResponse body with
          | Err e =>
              (Err ("failed to unmarshal directory creation response: "
                    +:+ e), w)
          | Panic msg => (Panic msg, w)
          | Ok response =>
              if negb (CreateFileResponse.Errno response =? 0) then
                (Err ("directory creation API returned error code "
                      +:+ fmt_d (CreateFileResponse.Errno response)
                      +:+ ". Response: " +:+ body), w)
              else
                (Nil,
                 PrintSuccess
                   ("Directory '" +:+ remotePath
                    +:+ "' created successfully in Baidu Pan.") w)
          end
    end.

(** ** Human-readable sizes (src/pan/move.go, src/pan/disk.go)

    [byteCountToHumanReadable] and [FormatBytes] choose the unit with the
    same loop; what they print with [%f] is not modelled. *)

(** [for n := b / unit; n >= unit; n /= unit { div *= unit; exp++ }] *)
Fixpoint unit_loop (fuel : nat) (n div : Z) (exp : nat)
  : option (Z * nat) :=
  match fuel with
  | O => None
  | S fuel' =>
      if n >=? 1024 then
        unit_loop fuel' (Z.quot n 1024) (wrap64 (div * 1024)) (S exp)
      else Some (div, exp)
  end.

(** What is printed: the bytes as they are, or the bytes over [div] with the
    unit letter ["KMGTPE"[exp]]. *)
Inductive Readable : Type :=
| Bytes (b : Z)
| Scaled (b div : Z) (letter : ascii).

Definition readable_size (fuel : nat) (b : Z) : option (result Readable) :=
  if b <? 1024 then Some (Ok (Bytes b))
  else
    match unit_loop fuel (Z.quot b 1024) 1024 0 with
    | None => None
    | Some (div, exp) =>
        match String.get exp "KMGTPE" with
        | None => Some (Panic index_out_of_range)
        | Some letter => Some (Ok (Scaled b div letter))
        end
    end.

(** ** CalculateMD5 (src/pan/utils.go)

    [io.Copy(hash, file)] feeds the whole content to the digest; the read of
    a directory fails. *)
Definition CalculateMD5 (filePath : string) (w : World) : result string :=
  match local_files w !! filePath with
  | None =>
      Err ("failed to open file " +:+ filePath +:+ ": open " +:+ filePath
           +:+ ": no such file or directory")
  | Some (Directory _) =>
      Err ("failed to calculate MD5 for file " +:+ filePath +:+ ": read "
           +:+ filePath +:+ ": is a directory")
  | Some (Regular _ bytes) => Ok (md5_hex bytes)
  end.

(** ** GetDetailedFileInfo and GetAndDisplayFileInfo (src/pan/info.go) *)

(** [json.Unmarshal] into the anonymous struct of [GetDetailedFileInfo],
    which has the [errno] and the [list] of a listing. *)
Variable json_metaResponse : string -> result ListFilesResponse.t.

Definition meta_request (c : Client) (filePath : string) : Request :=
  let params :=
    [("method", "meta"); ("access_token", accessToken c);
     ("path", filePath)] in
  mkRequest "GET" listFilesURL params [] [].

Definition GetDetailedFileInfo (c : Client) (filePath : string) (w : World)
  : result FileInfo.t * World :=
  if streq (accessToken c) "" then
    (Err "no access token, please authorize first", w)
  else
    let '(x, w) := Do (meta_request c filePath) w in
    match x with
    | DoError err => (Err err, w)
    | ReadError _ err => (Err err, w)
    | Response StatusCode body =>
        if negb (StatusCode =? StatusOK) then
          (Err ("get file meta request failed with status "
                +:+ fmt_d StatusCode +:+ ": " +:+ body), w)
        else
          match json_metaResponse body with
          | Err err => (Err err, w)
          | Panic msg => (Panic msg, w)
          | Ok metaResponse =>
              if negb (ListFilesResponse.Errno metaResponse =? 0) then
                (Err ("API returned error code "
                      +:+ fmt_d (ListFilesResponse.Errno metaResponse)), w)
              else
                match ListFilesResponse.List metaResponse with
                | [] => (Err ("file not found: " +:+ filePath), w)
                | first :: _ => (Ok first, w)
                end
          end
    end.

Definition GetAndDisplayFileInfo (c : Client) (filePath : string)
    (w : World) : result FileInfo.t * World :=
  let '(r, w) := GetDetailedFileInfo c filePath w in
  match r with
  | Ok fileInfo => (Ok fileInfo, w)
  | Panic msg => (Panic msg, w)
  | Err _ =>
      let '(r, w) := GetFileInfo c filePath w in
      match r with
      | Ok fileInfo => (Ok fileInfo, w)
      | Panic msg => (Panic msg, w)
      | Err err => (Err ("error getting file information: " +:+ err), w)
      end
  end.

(** ** Reference notions, in the words of the specification *)

(** The expiry instant of a token record: [created_at + expires_in]. *)
Definition deadline (c : Client) : Time :=
  tokenCreatedAt c + expiresIn c * Second.

(** A number of seconds that a [time.Duration] can hold. *)
Definition fits_Duration (seconds : Z) : Prop :=
  - 2 ^ 63 <= seconds * Second < 2 ^ 63.

(** The two error codes that mean: keep polling. *)
Definition keep_polling (code : string) : Prop :=
  code = "authorization_pending" \/ code = "slow_down".

(** The token record that a client holds in memory. *)
Definition token_record (c : Client) : string * string * Z * string * Time :=
  (accessToken c, refreshToken c, expiresIn c, uid c, tokenCreatedAt c).

(** The user never authorizes: whatever was sent before, the token
    endpoint answers the poll at once with status 400 and
    [authorization_pending]. *)
Definition pending_forever (c : Client) (deviceCode : string) : Prop :=
  forall before : list Request,
    exists body : string,
      server before (token_request (poll_params c deviceCode))
        = mkReply (Response StatusBadRequest body) 0
      /\ json_errorResp body = "authorization_pending".

(** The same, each answer taking some time. *)
Definition pending_forever_slowly (c : Client) (deviceCode : string) : Prop :=
  forall before : list Request,
    exists (body : string) (took : Duration),
      server before (token_request (poll_params c deviceCode))
        = mkReply (Response StatusBadRequest body) took
      /\ 0 <= took
      /\ json_errorResp body = "authorization_pending".

(** [w] after [n] more polls that took no time, [d] apart. *)
Definition after_polls (n : nat) (d : Duration) (req : Request) (w : World)
  : World :=
  mkWorld (clock w + Z.of_nat n * d) (sent w ++ replicate n req)
    (token_files w) (write_error w) (local_files w) (stdout w).

(** The bytes [[from, to)] of a file. *)
Definition byte_range (F : list Byte.byte) (from to : nat)
  : list Byte.byte :=
  take (to - from) (drop from F).

(** Slice [i] of a file cut every [s] bytes:
    bytes [[i*s, min((i+1)*s, size(F)))]. *)
Definition slice_of (F : list Byte.byte) (s i : nat) : list Byte.byte :=
  byte_range F (i * s) (((i + 1) * s) `min` length F).

(** [ceil(size / s)] *)
Definition slice_count (size s : nat) : nat := ((size + s - 1) / s)%nat.

(** The network answers [req], sent from [w], with status 200 and [body]. *)
Definition answers (w : World) (req : Request) (body : string) : Prop :=
  exchange (server (sent w) req) = Response StatusOK body.

(** The failures of a batch, item by item: entry [i] of the response is
    the result of request [i]. *)
Fixpoint failures {Req Info : Type} (errno : Info -> Z)
    (describe : Req -> Info -> string) (requests : list Req)
    (infos : list Info) : list string :=
  match requests, infos with
  | req :: requests, info :: infos =>
      (if negb (errno info =? 0) then [describe req info] else [])
      ++ failures errno describe requests infos
  | _, _ => []
  end.

(** The failures of a batch delete: the entries with an [errno]. *)
Definition failed_entries (entries : list DeleteEntry.t) : list string :=
  describe_delete
    <$> filter (fun entry => DeleteEntry.Errno entry <> 0) entries.

(** Success when nothing failed, else one error that lists the failures. *)
Definition aggregated (operation : string) (failed : list string)
  : outcome :=
  match failed with
  | [] => Nil
  | _ =>
      Err ("failed to " +:+ operation +:+ " some files: "
           +:+ strings_Join failed "; ")
  end.

(** JSON text (RFC 8259): a string is written between two double quotes,
    with the quote, the backslash and the control characters below U+0020
    escaped; an array is its elements between brackets, commas between. *)
Definition backslash : string := String "092"%char "".

Definition json_escape (ch : ascii) : string :=
  let code := Z.of_N (N_of_ascii ch) in
  if code =? 34 then backslash +:+ dquote
  else if code =? 92 then backslash +:+ backslash
  else if code =? 8 then backslash +:+ "b"
  else if code =? 12 then backslash +:+ "f"
  else if code =? 10 then backslash +:+ "n"
  else if code =? 13 then backslash +:+ "r"
  else if code =? 9 then backslash +:+ "t"
  else if code <? 32 then
    backslash +:+ "u00"
    +:+ String (hex_digit (code / 16)) (String (hex_digit (code `mod` 16)) "")
  else String ch "".

Fixpoint json_escape_string (s : string) : string :=
  match s with
  | EmptyString => ""
  | String ch rest => json_escape ch +:+ json_escape_string rest
  end.

Definition json_string (s : string) : string :=
  dquote +:+ json_escape_string s +:+ dquote.

Definition json_array (elems : list string) : string :=
  "[" +:+ strings_Join (json_string <$> elems) "," +:+ "]".

(** A character that JSON writes as it is. *)
Definition plain_char (ch : ascii) : Prop :=
  let code := Z.of_N (N_of_ascii ch) in
  code <> 34 /\ code <> 92 /\ 32 <= code.

Fixpoint plain (s : string) : Prop :=
  match s with
  | EmptyString => True
  | String ch rest => plain_char ch /\ plain rest
  end.

(** The words of the claim: no double quote, no backslash. *)
Fixpoint no_quote_no_backslash (s : string) : Prop :=
  match s with
  | EmptyString => True
  | String ch rest =>
      (N_of_ascii ch <> 34%N /\ N_of_ascii ch <> 92%N)
      /\ no_quote_no_backslash rest
  end.

(** The network gives [req], sent from [w], a good answer: status 200, a
    body that decodes to [resp], a top-level [errno] of zero. *)
Definition good_answer {Resp : Type} (decode : string -> result Resp)
    (errno : Resp -> Z) (w : World) (req : Request) (resp : Resp) : Prop :=
  exists body : string,
    answers w req body /\ decode body = Ok resp /\ errno resp = 0.

(** The elements of a list after the first, a comma before each. *)
Fixpoint after_first (elems : list string) : string :=
  match elems with
  | [] => ""
  | e :: rest => "," +:+ e +:+ after_first rest
  end.

(** A request that transfers a slice, which is the one that carries a file
    part, and one that finalizes an upload. *)
Definition is_slice_transfer (req : Request) : Prop :=
  exists fileName : string, Form req = [("file", fileName)].

Definition is_finalize (req : Request) : Prop :=
  URL req = uploadCreateFileUrl.

(** What [w'] has sent that [w] had not. *)
Definition sent_since (w w' : World) : list Request :=
  drop (length (sent w)) (sent w').

(** A remote tree: a file, a directory with the entries of its listing, or
    a directory whose listing fails. *)
#[local] Unset Elimination Schemes.
Inductive Remote : Type :=
| RFile (info : FileInfo.t)
| RDir (info : FileInfo.t) (children : list Remote)
| RBroken (info : FileInfo.t) (err : string).

Definition entry (t : Remote) : FileInfo.t :=
  match t with
  | RFile info | RDir info _ | RBroken info _ => info
  end.

(** Depth-first pre-order: the entry of a directory, then what is under
    it, child after child, each child with all that is under it before the
    next; a listing that fails gives one error where the children would
    be. *)
Fixpoint preorder (t : Remote) : list ChanOp :=
  match t with
  | RFile info => [SendFile info]
  | RDir info children =>
      SendFile info
      :: (fix under (ts : list Remote) : list ChanOp :=
            match ts with
            | [] => []
            | t :: ts => preorder t ++ under ts
            end) children
  | RBroken info err => [SendFile info; SendErr err]
  end.

Definition preorder_all (ts : list Remote) : list ChanOp :=
  concat (preorder <$> ts).

(** The number of nested listings under an entry. *)
Fixpoint height (t : Remote) : nat :=
  match t with
  | RFile _ => O
  | RDir _ children =>
      S ((fix highest (ts : list Remote) : nat :=
            match ts with
            | [] => O
            | t :: ts => (height t `max` highest ts)%nat
            end) children)
  | RBroken _ _ => 1%nat
  end.

Definition height_all (ts : list Remote) : nat :=
  foldr (fun t h => (height t `max` h)%nat) O ts.

(** [ListFiles] on [dirPath] gives [r], whatever was sent before. *)
Definition lists (c : Client) (dirPath : string)
    (r : result (list FileInfo.t)) : Prop :=
  forall w : World, fst (ListFiles c dirPath w) = r.

(** The network presents the tree [t] to the client. *)
Inductive serves (c : Client) : Remote -> Prop :=
| serves_file (info : FileInfo.t) :
    FileInfo.IsDir info <> 1 -> serves c (RFile info)
| serves_dir (info : FileInfo.t) (children : list Remote) :
    FileInfo.IsDir info = 1 ->
    lists c (FileInfo.Path info) (Ok (entry <$> children)) ->
    Forall (serves c) children ->
    serves c (RDir info children)
| serves_broken (info : FileInfo.t) (err : string) :
    FileInfo.IsDir info = 1 ->
    lists c (FileInfo.Path info) (Err err) ->
    serves c (RBroken info err).
#[local] Set Elimination Schemes.

(** The client once it has loaded the record [tf] of its token file. *)
Definition loaded (c : Client) (tf : TokenFile.t) : Client :=
  mkClient (clientID c) (clientSecret c) (TokenFile.AccessToken tf)
    (TokenFile.RefreshToken tf) (TokenFile.ExpiresIn tf) (TokenFile.UID tf)
    (tokenFile c) (TokenFile.CreatedAt tf).

(** The client once it holds the tokens of [tokenResp], saved at [now]. *)
Definition refreshed (c : Client) (tokenResp : TokenResponse.t) (now : Time)
  : Client :=
  mkClient (clientID c) (clientSecret c)
    (TokenResponse.AccessToken tokenResp)
    (TokenResponse.RefreshToken tokenResp)
    (TokenResponse.ExpiresIn tokenResp) (TokenResponse.UID tokenResp)
    (tokenFile c) now.

(** The record that [SaveTokens] writes for a client at [now]. *)
Definition saved_record (c : Client) (now : Time) : TokenFile.t :=
  TokenFile.mk (accessToken c) (refreshToken c) (expiresIn c) (uid c) now.

(** The token endpoint answers the refresh of [c], sent from [w], with a
    token. *)
Definition refresh_granted (c : Client) (w : World)
    (tokenResp : TokenResponse.t) : Prop :=
  exists body : string,
    exchange (server (sent w) (token_request (refresh_params c)))
      = Response StatusOK body
    /\ json_TokenResponse body = Ok tokenResp
    /\ TokenResponse.AccessToken tokenResp <> "".


(** The first [k] polls of a run that starts in [w] are answered at once with
    status 400 and [authorization_pending]. *)
Definition pending_first (k : nat) (c : Client) (deviceCode : string)
    (w : World) : Prop :=
  forall j : nat,
    (j < k)%nat ->
    exists body : string,
      server (sent w ++ replicate j (token_request (poll_params c deviceCode)))
        (token_request (poll_params c deviceCode))
      = mkReply (Response StatusBadRequest body) 0
      /\ json_errorResp body = "authorization_pending".

(** An exchange with the token endpoint that ends the poll. *)
Definition fatal (x : Exchange) : Prop :=
  match x with
  | DoError _ | ReadError _ _ => True
  | Response StatusCode body =>
      StatusCode <> StatusOK
      /\ ~ (StatusCode = StatusBadRequest
            /\ keep_polling (json_errorResp body))
  end.

(** The directories under an entry that a walk lists, in the order of the
    walk; a file is never listed. *)
Fixpoint listings (t : Remote) : list string :=
  match t with
  | RFile _ => []
  | RDir info children =>
      FileInfo.Path info
      :: (fix under (ts : list Remote) : list string :=
            match ts with
            | [] => []
            | t :: ts => listings t ++ under ts
            end) children
  | RBroken info _ => [FileInfo.Path info]
  end.

Definition listings_all (ts : list Remote) : list string :=
  concat (listings <$> ts).

(** The request that transfers slice [i] of a file to [url], and the one
    that finalizes the upload. *)
Definition slice_request (url fileName : string) (bytes : list Byte.byte)
    (i : nat) : Request :=
  mkRequest "POST" url [] [("file", fileName)]
    (slice_of bytes (Z.to_nat sliceSize) i).

(** [http.NewRequest] takes the URL that the upload writes for slice [i],
    and the request goes to [url i]. *)
Definition well_formed (c : Client) (remoteFilePath UploadID : string)
    (url : nat -> string) (i : nat) : Prop :=
  http_NewRequest_URL (sliceUploadURL c remoteFilePath UploadID i)
  = Ok (url i).

Definition create_request (c : Client) (remoteFilePath : string)
    (fileSize : Z) (UploadID block_list : string) : Request :=
  mkRequest "POST" uploadCreateFileUrl []
    [("access_token", accessToken c); ("path", remoteFilePath);
     ("size", fmt_d fileSize); ("isdir", "0"); ("uploadid", UploadID);
     ("block_list", block_list); ("rtype", "1")] [].

(** The digests of the 4 MiB slices of a file, as the upload declares
    them. *)
Definition block_list_of (bytes : list Byte.byte) : string :=
  json_Marshal_strings
    ((fun i => md5_hex (slice_of bytes (Z.to_nat sliceSize) i))
       <$> seq 0 (slice_count (length bytes) (Z.to_nat sliceSize))).

(** The network takes the request whenever it is sent: status 200. *)
Definition accepted (req : Request) : Prop :=
  forall history : list Request,
    exists body : string,
      exchange (server history req) = Response StatusOK body.

(** The network refuses the request whenever it is sent: no response, or a
    status that is not 200. *)
Definition refused (req : Request) : Prop :=
  forall history : list Request,
    match exchange (server history req) with
    | DoError _ | ReadError _ _ => True
    | Response StatusCode _ => StatusCode <> StatusOK
    end.

(** The network finalizes whenever it is asked to: status 200 and an
    [errno] of zero. *)
Definition finalized (req : Request) : Prop :=
  forall history : list Request,
    exists (body : string) (created : CreateFileResponse.t),
      exchange (server history req) = Response StatusOK body
      /\ json_CreateFileResponse body = Ok created
      /\ CreateFileResponse.Errno created = 0.

(** The error of every operation that finds no access token. *)
Definition no_token : string := "no access token, please authorize first".

(** From [w] to [w'] at most the request [req] was sent, and the token
    files and the local files are as they were. *)
Definition at_most_one (req : Request) (w w' : World) : Prop :=
  (sent w' = sent w \/ sent w' = sent w ++ [req])
  /\ token_files w' = token_files w
  /\ local_files w' = local_files w
  /\ write_error w' = write_error w.

(** * Properties *)

(** ** Token expiry *)

Lemma wrap64_fits (x : Z) : - 2 ^ 63 <= x < 2 ^ 63 -> wrap64 x = x.
Proof.
  intros Hx. unfold wrap64.
  rewrite Z.mod_small by lia. lia.
Qed.

(** At the 48-hour boundary itself the token still counts as valid. *)
Lemma IsTokenExpired_boundary (c : Client) (now : Time) :
  fits_Duration (expiresIn c) ->
  tokenCreatedAt c <> 0 -> expiresIn c <> 0 ->
  deadline c = now + 48 * Hour ->
  IsTokenExpired c now now = false.
Proof.
  unfold fits_Duration, deadline, IsTokenExpired, Time_IsZero, Time_Before,
    Time_Add, Duration_mul.
  intros Hfit Hc He Hd. rewrite wrap64_fits by exact Hfit.
  destruct (Z.eqb_spec (tokenCreatedAt c) 0) as [|_]; [contradiction|].
  destruct (Z.eqb_spec (expiresIn c) 0) as [|_]; [contradiction|].
  cbn [orb]. apply orb_false_intro; apply Z.ltb_ge; unfold Hour, Second in *; lia.
Qed.

(** C3, with the bound that [time.Duration] puts on [expires_in]:
    [IsTokenExpired] depends on the record and the clock only; it is true
    when [created_at] or [expires_in] is zero; and for a record whose
    [expires_in] seconds fit a [time.Duration] it is true when
    [created_at + expires_in] is in the past, true when that deadline is
    within the next 48 hours, and false when it is more than 48 hours
    ahead. For such a record it is true exactly when the deadline is before
    the clock or before the clock plus 48 hours, so that a deadline at 48
    hours to the nanosecond counts as valid. The clock is read twice,
    [now1] then [now2]. *)
Theorem IsTokenExpired_by_deadline (c : Client) (now1 now2 : Time) :
  now1 <= now2 ->
  (tokenCreatedAt c = 0 \/ expiresIn c = 0 ->
   IsTokenExpired c now1 now2 = true)
  /\ (fits_Duration (expiresIn c) ->
      (deadline c < now2 -> IsTokenExpired c now1 now2 = true)
      /\ (deadline c < now1 + 48 * Hour ->
          IsTokenExpired c now1 now2 = true)
      /\ (tokenCreatedAt c <> 0 -> expiresIn c <> 0 ->
          now2 + 48 * Hour < deadline c ->
          IsTokenExpired c now1 now2 = false)
      /\ (tokenCreatedAt c <> 0 -> expiresIn c <> 0 ->
          (IsTokenExpired c now1 now2 = true
           <-> deadline c < now2 \/ deadline c < now1 + 48 * Hour)))
  /\ (forall c2 : Client,
      tokenCreatedAt c2 = tokenCreatedAt c -> expiresIn c2 = expiresIn c ->
      IsTokenExpired c2 now1 now2 = IsTokenExpired c now1 now2).
Proof.
  intros Hnow. split; [|split].
  - unfold IsTokenExpired, Time_IsZero. intros [->| ->].
    + reflexivity.
    + rewrite orb_true_r. reflexivity.
  - unfold fits_Duration, deadline, IsTokenExpired, Time_IsZero, Time_Before,
      Time_Add, Duration_mul.
    intros Hfit. rewrite wrap64_fits by exact Hfit.
    destruct (Z.eqb_spec (tokenCreatedAt c) 0) as [Hc|Hc];
      destruct (Z.eqb_spec (expiresIn c) 0) as [He|He]; cbn [orb];
      repeat split; intros; try reflexivity; try contradiction;
      try discriminate.
    + apply orb_true_intro. left. apply Z.ltb_lt. lia.
    + apply orb_true_intro. right. apply Z.ltb_lt. lia.
    + apply orb_false_intro; apply Z.ltb_ge; unfold Hour, Second in *; lia.
    + match goal with
      | H : _ || _ = true |- _ =>
          apply orb_true_iff in H as [H|H]; apply Z.ltb_lt in H
      end; [left | right]; lia.
    + match goal with
      | H : _ \/ _ |- _ => destruct H as [H|H]
      end; apply orb_true_intro; [left | right]; apply Z.ltb_lt; lia.
  - intros c2 Hc He. unfold IsTokenExpired. rewrite Hc, He. reflexivity.
Qed.

(** ** The token endpoint *)

(** C4, with the status that the code asks for: a response of the token
    endpoint with HTTP status 400 whose error field is
    [authorization_pending] or [slow_down] is not a failure,
    [requestToken] returns the empty token and the poll goes on; every
    other response with a status that is not 200 is returned as an
    error. *)
Theorem requestToken_keep_polling (params : Values) (w : World)
    (StatusCode : Z) (body : string) :
  exchange (server (sent w) (token_request params))
    = Response StatusCode body ->
  (StatusCode = StatusBadRequest -> keep_polling (json_errorResp body) ->
   fst (requestToken params w) = Ok TokenResponse.zero)
  /\ (StatusCode <> StatusOK ->
      ~ (StatusCode = StatusBadRequest
         /\ keep_polling (json_errorResp body)) ->
      exists msg, fst (requestToken params w) = Err msg).
Proof.
  intros Hx. unfold requestToken, Do. rewrite Hx. split.
  - intros -> [Hk|Hk]; rewrite Hk; reflexivity.
  - intros Hok Hnot.
    destruct (Z.eqb_spec StatusCode StatusOK) as [|_]; [contradiction|].
    cbn [negb].
    destruct (Z.eqb_spec StatusCode StatusBadRequest) as [Hbad|_];
      [|eexists; reflexivity].
    unfold streq. repeat case_bool_decide; try (eexists; reflexivity);
      exfalso; apply Hnot; unfold keep_polling; auto.
Qed.

(** ** Refresh *)

(** What [SaveTokens] does for a client that holds an access token. *)
Lemma SaveTokens_writes (c : Client) (w : World) :
  accessToken c <> "" ->
  SaveTokens c w =
    let c' :=
      mkClient (clientID c) (clientSecret c) (accessToken c)
        (refreshToken c) (expiresIn c) (uid c) (tokenFile c) (clock w) in
    match write_error w with
    | Some err => (Err err, c', w)
    | None =>
        (Nil, c',
         set_token_files
           (<[tokenFile c :=
                TokenFile.mk (accessToken c) (refreshToken c) (expiresIn c)
                  (uid c) (clock w)]> (token_files w)) w)
    end.
Proof.
  intros Hne. unfold SaveTokens, WriteTokenFile, streq.
  rewrite bool_decide_eq_false_2 by exact Hne.
  cbn. destruct (write_error w); reflexivity.
Qed.

(** C6, the write of the token file apart: when [RefreshToken] returns an
    error that is not the error of writing the token file, the client is
    as it was (access token, refresh token, expiry, uid and creation
    time); when it succeeds, the token endpoint has answered 200 with a
    token, and the record in memory and the record on disk both hold
    it. *)
Theorem RefreshToken_record (c : Client) (w : World) :
  let '(r, c', w') := RefreshToken c w in
  (forall msg, r = Err msg -> write_error w <> Some msg -> c' = c)
  /\ (forall msg, r = Panic msg -> c' = c)
  /\ (r = Nil ->
      exists body tokenResp,
        exchange (server (sent w) (token_request (refresh_params c)))
          = Response StatusOK body
        /\ json_TokenResponse body = Ok tokenResp
        /\ token_record c'
           = (TokenResponse.AccessToken tokenResp,
              TokenResponse.RefreshToken tokenResp,
              TokenResponse.ExpiresIn tokenResp,
              TokenResponse.UID tokenResp, clock w')
        /\ token_files w' !! tokenFile c
           = Some (TokenFile.mk (TokenResponse.AccessToken tokenResp)
                     (TokenResponse.RefreshToken tokenResp)
                     (TokenResponse.ExpiresIn tokenResp)
                     (TokenResponse.UID tokenResp) (clock w'))).
Proof.
  unfold RefreshToken, Do.
  destruct (streq (refreshToken c) "");
    [repeat split; intros; try reflexivity; discriminate|].
  destruct (exchange (server (sent w) (token_request (refresh_params c))))
    as [err|status err|StatusCode body] eqn:Hx;
    try (repeat split; intros; try reflexivity; discriminate).
  destruct (Z.eqb_spec StatusCode StatusOK) as [->|Hne]; cbn [negb];
    [|repeat split; intros; try reflexivity; discriminate].
  destruct (json_TokenResponse body) as [tokenResp|err|msg] eqn:Hj;
    try (repeat split; intros; try reflexivity; discriminate).
  unfold streq. case_bool_decide as Hempty;
    [repeat split; intros; try reflexivity; discriminate|].
  rewrite SaveTokens_writes by exact Hempty. cbn.
  destruct (write_error w) as [err|] eqn:Hw.
  - repeat split; intros; try discriminate.
    exfalso. congruence.
  - repeat split; intros; try discriminate.
    exists body, tokenResp. repeat split; try assumption.
    cbn. apply lookup_insert_eq.
Qed.

(** ** The poll loop *)

Lemma after_no_poll (d : Duration) (req : Request) (w : World) :
  after_polls 0 d req w = w.
Proof.
  destruct w. unfold after_polls. cbn. f_equal; [lia | apply app_nil_r].
Qed.

Lemma requestToken_pending (c : Client) (deviceCode : string) (w : World) :
  pending_forever c deviceCode ->
  requestToken (poll_params c deviceCode) w
  = (Ok TokenResponse.zero,
     set_clock (clock w + 0)
       (log_request (token_request (poll_params c deviceCode)) w)).
Proof.
  intros Hp. destruct (Hp (sent w)) as (body & Hs & He).
  unfold requestToken, Do. rewrite Hs. cbn. rewrite He. reflexivity.
Qed.

(** While the user does not authorize and the network is instant, the
    loop polls every [d] nanoseconds, [n] times if the [n]-th poll is the
    last one that is not after the timeout, and gives up. *)
Lemma poll_loop_pending (c : Client) (deviceCode : string) (interval : Z)
    (timeout : Time) (n : nat) :
  pending_forever c deviceCode ->
  let d := Z.max (Duration_mul interval Second) 0 in
  0 < d ->
  forall (fuel : nat) (w : World),
    (n < fuel)%nat ->
    (n <> O -> clock w + (Z.of_nat n - 1) * d <= timeout) ->
    timeout < clock w + Z.of_nat n * d ->
    poll_loop fuel c (poll_params c deviceCode) interval timeout w
    = Some (Err "device code has expired", c,
            after_polls n d (token_request (poll_params c deviceCode)) w).
Proof.
  intros Hp d Hd. induction n as [|n IH]; intros fuel w Hfuel Hle Hgt.
  - destruct fuel as [|fuel]; [lia|]. cbn [poll_loop].
    unfold Time_After. rewrite (proj2 (Z.gtb_gt _ _)) by lia.
    rewrite after_no_poll. reflexivity.
  - destruct fuel as [|fuel]; [lia|]. cbn [poll_loop].
    unfold Time_After.
    destruct (Z.gtb_spec (clock w) timeout) as [Hafter|_]; [nia|].
    rewrite requestToken_pending by exact Hp.
    cbn [TokenResponse.AccessToken TokenResponse.zero].
    unfold streq at 1. rewrite bool_decide_eq_true_2 by reflexivity.
    cbn [negb]. fold d. rewrite IH.
    + f_equal. f_equal. unfold after_polls, Sleep, set_clock, log_request.
      cbn. fold d. f_equal; [lia|].
      rewrite <- app_assoc. reflexivity.
    + lia.
    + unfold Sleep, set_clock, log_request. cbn. fold d. intros _. nia.
    + unfold Sleep, set_clock, log_request. cbn. fold d. nia.
Qed.

(** With answers that take time the polls can only be fewer. *)
Lemma poll_loop_pending_bound (c : Client) (deviceCode : string)
    (interval : Z) (timeout : Time) (n : nat) :
  pending_forever_slowly c deviceCode ->
  let d := Z.max (Duration_mul interval Second) 0 in
  forall (fuel : nat) (w : World),
    (n < fuel)%nat ->
    timeout < clock w + Z.of_nat n * d ->
    exists (polls : nat) (w' : World),
      (polls <= n)%nat
      /\ poll_loop fuel c (poll_params c deviceCode) interval timeout w
         = Some (Err "device code has expired", c, w')
      /\ sent w'
         = sent w ++ replicate polls
                       (token_request (poll_params c deviceCode))
      /\ timeout < clock w'.
Proof.
  intros Hp d. induction n as [|n IH]; intros fuel w Hfuel Hgt.
  - destruct fuel as [|fuel]; [lia|]. exists O, w. cbn [poll_loop].
    unfold Time_After. rewrite (proj2 (Z.gtb_gt _ _)) by lia.
    split; [lia|]. split; [reflexivity|].
    split; [rewrite app_nil_r; reflexivity | lia].
  - destruct fuel as [|fuel]; [lia|]. cbn [poll_loop]. unfold Time_After.
    destruct (Z.gtb_spec (clock w) timeout) as [Hafter|Hnot].
    + exists O, w. split; [lia|]. split; [reflexivity|].
      split; [rewrite app_nil_r; reflexivity | lia].
    + destruct (Hp (sent w)) as (body & took & Hs & Htook & He).
      unfold requestToken, Do. rewrite Hs. cbn. rewrite He. cbn.
      unfold streq at 1. rewrite bool_decide_eq_true_2 by reflexivity.
      cbn [negb]. fold d.
      edestruct (IH fuel) as (polls & w' & Hpolls & Hrun & Hsent & Hclock);
        [lia| |].
      2:{ exists (S polls), w'. split; [lia|]. split; [exact Hrun|].
          split; [|exact Hclock].
          rewrite Hsent. cbn. rewrite <- app_assoc. reflexivity. }
      cbn. fold d. nia.
Qed.

(** Were the advertised interval and expiry to reach the loop, a session
    of 5 and 10 seconds would see at most three polls. *)
Lemma poll_with_advertised (session : DeviceCodeResponse.t) (c : Client)
    (w : World) (fuel : nat) :
  DeviceCodeResponse.Interval session = 5 ->
  DeviceCodeResponse.ExpiresIn session = 10 ->
  pending_forever_slowly c (DeviceCodeResponse.DeviceCode session) ->
  (3 < fuel)%nat ->
  exists (polls : nat) (w' : World),
    (polls <= 3)%nat
    /\ poll_with session fuel c (DeviceCodeResponse.DeviceCode session) w
       = Some (Err "device code has expired", c, w')
    /\ length (sent w') = (length (sent w) + polls)%nat
    /\ clock w + 10 * Second < clock w'.
Proof.
  intros Hi He Hp Hfuel. unfold poll_with. rewrite Hi, He. cbn [Z.eqb].
  destruct (poll_loop_pending_bound c (DeviceCodeResponse.DeviceCode session)
              5 (Time_Add (clock w) (Duration_mul 10 Second)) 3 Hp fuel w)
    as (polls & w' & Hpolls & Hrun & Hsent & Hclock); [lia| |].
  - vm_compute Z.max. unfold Time_Add. vm_compute Duration_mul. lia.
  - exists polls, w'. split; [exact Hpolls|]. split; [exact Hrun|]. split.
    + rewrite Hsent, length_app, length_replicate. reflexivity.
    + unfold Time_Add in Hclock. vm_compute Duration_mul in Hclock.
      unfold Second. lia.
Qed.

(** C1 on the code: a session advertised with an interval of 5 seconds and
    an expiry of 10 seconds, in which every poll is answered
    [authorization_pending], is polled 361 times, every 5 seconds for 1800
    seconds, and [PollForToken] gives up 1805 seconds after it started:
    [GetDeviceCodeForPoll] hands the loop its own constants. *)
Theorem PollForToken_polls_for_half_an_hour (session : DeviceCodeResponse.t)
    (c : Client) (w : World) (fuel : nat) :
  DeviceCodeResponse.Interval session = 5 ->
  DeviceCodeResponse.ExpiresIn session = 10 ->
  pending_forever c (DeviceCodeResponse.DeviceCode session) ->
  (361 < fuel)%nat ->
  exists w' : World,
    PollForToken fuel c (DeviceCodeResponse.DeviceCode session) w
    = Some (Err "device code has expired", c, w')
    /\ sent w'
       = sent w ++ replicate 361
           (token_request
              (poll_params c (DeviceCodeResponse.DeviceCode session)))
    /\ clock w' = clock w + 1805 * Second.
Proof.
  intros _ _ Hp Hfuel. unfold PollForToken, GetDeviceCodeForPoll, poll_with.
  cbn [DeviceCodeResponse.Interval DeviceCodeResponse.ExpiresIn Z.eqb].
  eexists. split; [|split].
  - apply (poll_loop_pending c _ 5 _ 361 Hp).
    + vm_compute. reflexivity.
    + exact Hfuel.
    + intros _. unfold Time_Add. vm_compute Duration_mul. vm_compute Z.max.
      lia.
    + unfold Time_Add. vm_compute Duration_mul. vm_compute Z.max. lia.
  - reflexivity.
  - cbn. vm_compute Z.max. unfold Second. lia.
Qed.

(** ** Slices *)

Lemma slice_count_0 (size s : nat) :
  (0 < s)%nat -> slice_count size s = O -> size = O.
Proof.
  unfold slice_count. intros HS H0.
  apply Nat.div_small_iff in H0; lia.
Qed.

Lemma slice_count_full (size s : nat) :
  (0 < s <= size)%nat ->
  slice_count size s = S (slice_count (size - s) s).
Proof.
  unfold slice_count. intros HS.
  replace (size + s - 1)%nat with ((size - s + s - 1) + 1 * s)%nat by lia.
  rewrite Nat.div_add by lia. lia.
Qed.

Lemma slice_count_last (size s : nat) :
  (0 < size <= s)%nat -> slice_count size s = 1%nat.
Proof.
  unfold slice_count. intros HS.
  replace (size + s - 1)%nat with ((size - 1) + 1 * s)%nat by lia.
  rewrite Nat.div_add by lia. rewrite Nat.div_small by lia. reflexivity.
Qed.

Lemma slice_count_covers (size s : nat) :
  (0 < s)%nat ->
  (size <= slice_count size s * s)%nat
  /\ (slice_count size s <> O -> (slice_count size s - 1) * s < size)%nat.
Proof.
  unfold slice_count. intros HS.
  pose proof (Nat.div_mod_eq (size + s - 1) s) as Hdm.
  pose proof (Nat.mod_upper_bound (size + s - 1) s ltac:(lia)) as Hm.
  split; [nia|]. intros Hne. nia.
Qed.

Lemma take_min_length {A : Type} (n : nat) (l : list A) :
  take (n `min` length l) l = take n l.
Proof.
  destruct (Nat.le_ge_cases n (length l)) as [Hle|Hge].
  - rewrite Nat.min_l by exact Hle. reflexivity.
  - rewrite Nat.min_r by exact Hge. rewrite !take_ge by lia. reflexivity.
Qed.

(** Within the file, slice [i] is what a read of [s] bytes at [i*s] gets. *)
Lemma slice_of_read (F : list Byte.byte) (s i : nat) :
  (i * s <= length F)%nat -> slice_of F s i = take s (drop (i * s) F).
Proof.
  intros Hi. unfold slice_of, byte_range.
  rewrite <- (take_min_length s (drop (i * s) F)), length_drop.
  f_equal. lia.
Qed.

(** The cut of the buffer to [maxRW]. *)
Lemma capped_small (s : nat) : Z.of_nat s <= maxRW -> capped s = s.
Proof.
  intros Hs. unfold capped.
  destruct (Z.gtb_spec (Z.of_nat s) maxRW) as [Hgt|_]; [lia | reflexivity].
Qed.

Lemma capped_big (s : nat) :
  maxRW < Z.of_nat s -> capped s = Z.to_nat maxRW.
Proof.
  intros Hs. unfold capped.
  destruct (Z.gtb_spec (Z.of_nat s) maxRW) as [_|Hle]; [reflexivity | lia].
Qed.

Lemma capped_pos (s : nat) : (0 < s)%nat -> (0 < capped s)%nat.
Proof.
  intros Hs. unfold capped.
  destruct (Z.gtb_spec (Z.of_nat s) maxRW) as [_|_]; [|exact Hs].
  unfold maxRW. lia.
Qed.

(** A read at the end of the file, and a read before it. *)
Lemma File_Read_end (F : list Byte.byte) (off s : nat) :
  (0 < s)%nat -> (length F <= off)%nat ->
  File_Read (mkOpenFile F off) s = (O, EOF, [], mkOpenFile F off).
Proof.
  intros Hs Hoff. unfold File_Read. cbn [content offset].
  rewrite length_drop.
  destruct (Nat.eqb_spec s 0) as [|_]; [lia|].
  destruct (Nat.eqb_spec (capped s `min` (length F - off)) 0) as [_|];
    [|lia].
  reflexivity.
Qed.

Lemma File_Read_some (F : list Byte.byte) (off s : nat) :
  (0 < s)%nat -> (off < length F)%nat ->
  let n := (capped s `min` (length F - off))%nat in
  File_Read (mkOpenFile F off) s
  = (n, no_error, take (capped s) (drop off F), mkOpenFile F (off + n)).
Proof.
  intros Hs Hoff n. pose proof (capped_pos s Hs) as Hp.
  unfold File_Read. cbn [content offset].
  rewrite length_drop. fold n.
  destruct (Nat.eqb_spec s 0) as [|_]; [lia|].
  destruct (Nat.eqb_spec n 0) as [|_]; [lia|].
  do 2 f_equal. unfold n. rewrite <- (length_drop F off).
  apply take_min_length.
Qed.

(** The loop, started at offset [off] with [k] reads to go: each read gets
    [p] bytes, the length of the buffer cut to [maxRW]. *)
Lemma slice_loop_run (F : list Byte.byte) (s : nat) :
  (0 < s)%nat ->
  forall (k fuel off : nat) (md5List : list string),
    (k < fuel)%nat ->
    k = slice_count (length F - off) (capped s) ->
    slice_loop fuel (mkOpenFile F off) s md5List
    = Some (Ok (md5List
                ++ ((fun i =>
                       md5_hex (take (capped s) (drop (off + i * capped s) F)))
                      <$> seq 0 k))).
Proof.
  intros HS. pose proof (capped_pos s HS) as Hp.
  set (p := capped s) in *.
  induction k as [|k IH]; intros fuel off md5List Hfuel Hk.
  - destruct fuel as [|fuel]; [lia|].
    symmetry in Hk. apply slice_count_0 in Hk; [|exact Hp].
    cbn [slice_loop]. rewrite File_Read_end by lia.
    cbn. rewrite app_nil_r. reflexivity.
  - destruct fuel as [|fuel]; [lia|].
    assert (Hrest : (0 < length F - off)%nat).
    { destruct (length F - off)%nat eqn:Hr; [|lia].
      unfold slice_count in Hk. rewrite Nat.div_small in Hk by lia.
      discriminate. }
    cbn [slice_loop]. rewrite File_Read_some by lia. fold p.
    destruct (Nat.eqb_spec (p `min` (length F - off)) 0) as [|_]; [lia|].
    assert (Htake : take (p `min` (length F - off)) (take p (drop off F))
                    = take p (drop off F)).
    { rewrite take_take.
      replace ((p `min` (length F - off)) `min` p)%nat
        with (p `min` length (drop off F))%nat
        by (rewrite length_drop; lia).
      apply take_min_length. }
    rewrite Htake. clear Htake.
    destruct (Nat.le_gt_cases p (length F - off)) as [Hfull|Hshort].
    + rewrite Nat.min_l by exact Hfull.
      rewrite (IH fuel (off + p)%nat); [|lia|].
      2:{ rewrite slice_count_full in Hk by lia.
          replace (length F - (off + p))%nat with (length F - off - p)%nat
            by lia. lia. }
      rewrite <- app_assoc. cbn [seq fmap list_fmap app].
      rewrite Nat.add_0_r. do 4 f_equal.
      rewrite <- fmap_S_seq, <- list_fmap_compose.
      apply list_fmap_ext. intros _ i _. cbn. do 3 f_equal. lia.
    + rewrite Nat.min_r by lia.
      rewrite slice_count_last in Hk by lia.
      injection Hk as ->.
      rewrite (IH fuel (off + (length F - off))%nat); [|lia|].
      2:{ replace (length F - (off + (length F - off)))%nat with O by lia.
          unfold slice_count. rewrite Nat.div_small by lia. reflexivity. }
      rewrite <- app_assoc. cbn. rewrite Nat.add_0_r. reflexivity.
Qed.

(** Reads of [s] bytes at [0], [s], [2S], ... put end to end. *)
Lemma reads_cover (s k : nat) :
  forall F : list Byte.byte,
    (length F <= k * s)%nat ->
    concat ((fun i => take s (drop (i * s) F)) <$> seq 0 k) = F.
Proof.
  induction k as [|k IH]; intros F Hlen.
  - destruct F; [reflexivity | cbn in Hlen; lia].
  - cbn [seq fmap list_fmap concat]. cbn [Nat.mul drop].
    rewrite <- fmap_S_seq, <- list_fmap_compose.
    transitivity (take s F ++ drop s F); [|apply take_drop]. f_equal.
    etransitivity; [|apply (IH (drop s F)); rewrite length_drop; lia].
    f_equal. apply list_fmap_ext. intros _ i _. cbn.
    rewrite drop_drop. reflexivity.
Qed.

(** What [CalculateSliceMD5] returns for a regular file and a slice size
    that [make] can give: the digests of the pieces that the reads return,
    of the slice size cut to [maxRW]. *)
Lemma CalculateSliceMD5_reads (w : World) (filePath name : string)
    (F : list Byte.byte) (sz : Z) (fuel : nat) :
  local_files w !! filePath = Some (Regular name F) ->
  0 < sz <= maxAlloc ->
  (slice_count (length F) (capped (Z.to_nat sz)) < fuel)%nat ->
  CalculateSliceMD5 fuel filePath sz w
  = Some (Ok ((fun i => md5_hex (slice_of F (capped (Z.to_nat sz)) i))
                <$> seq 0 (slice_count (length F)
                             (capped (Z.to_nat sz))))).
Proof.
  intros Hfile HS Hfuel.
  assert (Hs : (0 < Z.to_nat sz)%nat) by lia.
  pose proof (capped_pos _ Hs) as Hp.
  unfold CalculateSliceMD5. rewrite Hfile.
  destruct (Z.ltb_spec sz 0) as [|_]; [lia|].
  destruct (Z.ltb_spec maxAlloc sz) as [|_]; [lia|]. cbn [orb].
  rewrite (slice_loop_run F (Z.to_nat sz) Hs
             (slice_count (length F) (capped (Z.to_nat sz))))
    by (rewrite ?Nat.sub_0_r; lia || reflexivity).
  revert Hp Hfuel. generalize (capped (Z.to_nat sz)). intros p Hp Hfuel.
  destruct (slice_count_covers (length F) p Hp) as [Hcover Hlast].
  assert (Hin : forall i, (i < slice_count (length F) p)%nat ->
                          (i * p < length F)%nat) by nia.
  cbn [app]. do 2 f_equal.
  apply list_fmap_ext. intros j i Hi. cbn.
  apply lookup_seq in Hi as [-> Hi]. cbn [Nat.add].
  rewrite slice_of_read by (specialize (Hin j Hi); lia). reflexivity.
Qed.

(** Up to [maxRW] a read fills the buffer: the pieces are the slices. *)
Lemma CalculateSliceMD5_regular (w : World) (filePath name : string)
    (F : list Byte.byte) (sz : Z) (fuel : nat) :
  local_files w !! filePath = Some (Regular name F) ->
  0 < sz <= maxRW ->
  (length F < fuel)%nat ->
  CalculateSliceMD5 fuel filePath sz w
  = Some (Ok ((fun i => md5_hex (slice_of F (Z.to_nat sz) i))
                <$> seq 0 (slice_count (length F) (Z.to_nat sz)))).
Proof.
  intros Hfile HS Hfuel.
  rewrite <- (capped_small (Z.to_nat sz)) by lia.
  apply (CalculateSliceMD5_reads w filePath name F sz fuel Hfile).
  - unfold maxRW, maxAlloc in *. lia.
  - assert (Hp : (0 < capped (Z.to_nat sz))%nat) by (apply capped_pos; lia).
    revert Hp. generalize (capped (Z.to_nat sz)). intros p Hp.
    destruct (slice_count_covers (length F) p Hp) as [_ Hlast].
    destruct (slice_count (length F) p); [lia|]. specialize (Hlast ltac:(lia)).
    nia.
Qed.

(** C2, up to the size of one read: for a regular file of bytes [F] and a
    slice size [sz] from 1 to [maxRW], 1 GiB, [CalculateSliceMD5] returns
    [ceil(size(F)/sz)] hashes, hash [i] being the MD5 of the bytes
    [[i*sz, min((i+1)*sz, size(F)))]; the slices put end to end are the
    file, every slice but the last has [sz] bytes and none is empty; and any
    other run on the same bytes returns the same list. *)
Theorem CalculateSliceMD5_slices (w : World) (filePath name : string)
    (F : list Byte.byte) (sz : Z) (fuel : nat) :
  local_files w !! filePath = Some (Regular name F) ->
  0 < sz <= maxRW ->
  (length F < fuel)%nat ->
  exists md5List : list string,
    CalculateSliceMD5 fuel filePath sz w = Some (Ok md5List)
    /\ length md5List = slice_count (length F) (Z.to_nat sz)
    /\ (forall i, (i < length md5List)%nat ->
        md5List !! i = Some (md5_hex (slice_of F (Z.to_nat sz) i)))
    /\ concat (slice_of F (Z.to_nat sz) <$> seq 0 (length md5List)) = F
    /\ (forall i, (i + 1 < length md5List)%nat ->
        length (slice_of F (Z.to_nat sz) i) = Z.to_nat sz)
    /\ (forall i, (i < length md5List)%nat ->
        (0 < length (slice_of F (Z.to_nat sz) i) <= Z.to_nat sz)%nat)
    /\ (forall (w2 : World) (filePath2 name2 : string),
        local_files w2 !! filePath2 = Some (Regular name2 F) ->
        CalculateSliceMD5 fuel filePath2 sz w2
        = CalculateSliceMD5 fuel filePath sz w).
Proof.
  intros Hfile HS Hfuel.
  set (s := Z.to_nat sz). assert (Hs : (0 < s)%nat) by lia.
  set (k := slice_count (length F) s).
  destruct (slice_count_covers (length F) s Hs) as [Hcover Hlast].
  fold k in Hcover, Hlast.
  assert (Hk : (k <= length F)%nat) by (destruct k; nia).
  assert (Hin : forall i, (i < k)%nat -> (i * s < length F)%nat) by nia.
  assert (Hrun : forall (w2 : World) (filePath2 name2 : string),
             local_files w2 !! filePath2 = Some (Regular name2 F) ->
             CalculateSliceMD5 fuel filePath2 sz w2
             = Some (Ok ((fun i => md5_hex (slice_of F s i)) <$> seq 0 k))).
  { intros w2 filePath2 name2 Hfile2.
    apply (CalculateSliceMD5_regular w2 filePath2 name2); assumption. }
  eexists. split; [exact (Hrun w filePath name Hfile)|].
  rewrite length_fmap, length_seq. fold k.
  split; [reflexivity|]. split; [|split; [|split; [|split]]].
  - intros i Hi. rewrite list_lookup_fmap, lookup_seq_lt by exact Hi.
    reflexivity.
  - rewrite <- (reads_cover s k F Hcover) at 2. f_equal.
    apply list_fmap_ext. intros j i Hi. apply lookup_seq in Hi as [-> Hi].
    cbn [Nat.add]. apply slice_of_read. specialize (Hin j Hi). lia.
  - intros i Hi. rewrite slice_of_read by (specialize (Hin i ltac:(lia)); lia).
    rewrite length_take, length_drop. nia.
  - intros i Hi. specialize (Hin i Hi).
    rewrite slice_of_read by lia.
    rewrite length_take, length_drop. lia.
  - intros w2 filePath2 name2 Hfile2.
    rewrite (Hrun w2 filePath2 name2 Hfile2), (Hrun w filePath name Hfile).
    reflexivity.
Qed.

(** Above [maxRW] a read does not fill the buffer: a file of [maxRW] bytes
    and one more is hashed in two pieces, whatever the slice size above
    that. *)
Lemma CalculateSliceMD5_two_reads (w : World) (filePath name : string)
    (F : list Byte.byte) (sz : Z) :
  local_files w !! filePath = Some (Regular name F) ->
  length F = S (Z.to_nat maxRW) ->
  Z.of_nat (length F) <= sz <= maxAlloc ->
  exists md5List : list string,
    CalculateSliceMD5 3 filePath sz w = Some (Ok md5List)
    /\ length md5List = 2%nat
    /\ slice_count (length F) (Z.to_nat sz) = 1%nat.
Proof.
  intros Hfile Hlen Hsz.
  assert (Hcap : capped (Z.to_nat sz) = Z.to_nat maxRW).
  { apply capped_big. lia. }
  assert (Hp : (0 < Z.to_nat maxRW)%nat) by (unfold maxRW; lia).
  assert (Hone : slice_count (length F) (Z.to_nat sz) = 1%nat).
  { apply slice_count_last. lia. }
  revert Hcap Hlen Hp Hone. generalize (Z.to_nat maxRW). intros p Hcap Hlen Hp Hone.
  assert (Htwo : slice_count (length F) p = 2%nat).
  { rewrite Hlen, slice_count_full by lia.
    replace (S p - p)%nat with 1%nat by lia.
    rewrite slice_count_last by lia. reflexivity. }
  eexists. split; [|split; [|exact Hone]].
  - apply (CalculateSliceMD5_reads w filePath name F sz 3 Hfile); [lia|].
    rewrite Hcap, Htwo. lia.
  - rewrite length_fmap, length_seq, Hcap. exact Htwo.
Qed.


(** ** Batch operations *)

Lemma string_app_cons (ch : ascii) (s t : string) :
  String ch s +:+ t = String ch (s +:+ t).
Proof. reflexivity. Qed.

Lemma string_app_nil_r (s : string) : s +:+ "" = s.
Proof.
  induction s as [|ch s IH]; [reflexivity|].
  rewrite string_app_cons, IH. reflexivity.
Qed.

Lemma string_app_assoc (s1 s2 s3 : string) :
  (s1 +:+ s2) +:+ s3 = s1 +:+ (s2 +:+ s3).
Proof.
  induction s1 as [|ch s1 IH]; [reflexivity|].
  rewrite !string_app_cons, IH. reflexivity.
Qed.

Lemma streq_false (a b : string) : a <> b -> streq a b = false.
Proof. intros H. unfold streq. apply bool_decide_eq_false_2, H. Qed.

Lemma length_eqb_0 {A : Type} (l : list A) :
  l <> [] -> (length l =? 0)%nat = false.
Proof. destruct l; [congruence | reflexivity]. Qed.

Section RangeFailed.

Context {Req Info : Type} (errno : Info -> Z)
  (describe : Req -> Info -> string).

(** When the response is no longer than the request list, every index of
    the loop is in bounds and the loop collects the failures. *)
Lemma range_failed_in_bounds (requests : list Req) (infos : list Info) :
  forall (i : nat) (failed : list string),
    (i + length infos <= length requests)%nat ->
    range_failed errno describe requests i infos failed
    = Some (failed ++ failures errno describe (drop i requests) infos).
Proof.
  induction infos as [|info infos IH]; intros i failed Hlen.
  - cbn. destruct (drop i requests); rewrite app_nil_r; reflexivity.
  - cbn [length] in Hlen.
    destruct (lookup_lt_is_Some_2 requests i ltac:(lia)) as [req Hreq].
    rewrite (drop_S _ _ _ Hreq). cbn [range_failed failures].
    rewrite Hreq. destruct (negb (errno info =? 0)).
    + rewrite IH by lia. rewrite <- app_assoc. reflexivity.
    + rewrite IH by lia. reflexivity.
Qed.

(** A failing entry beyond the request list makes the loop panic. *)
Lemma range_failed_out_of_range (requests : list Req) (infos : list Info) :
  forall (i j : nat) (info : Info) (failed : list string),
    infos !! j = Some info ->
    errno info <> 0 ->
    (length requests <= i + j)%nat ->
    range_failed errno describe requests i infos failed = None.
Proof.
  induction infos as [|info0 infos IH]; intros i j info failed Hj He Hlen;
    [discriminate|].
  cbn [range_failed]. destruct j as [|j].
  - injection Hj as ->. rewrite (proj2 (Z.eqb_neq _ _) He). cbn [negb].
    rewrite lookup_ge_None_2 by lia. reflexivity.
  - cbn in Hj. destruct (negb (errno info0 =? 0)).
    + destruct (requests !! i); [|reflexivity].
      apply (IH (S i) j info); [exact Hj | exact He | lia].
    + apply (IH (S i) j info); [exact Hj | exact He | lia].
Qed.

Lemma failures_none (requests : list Req) (infos : list Info) :
  Forall (fun info => errno info = 0) infos ->
  failures errno describe requests infos = [].
Proof.
  intros Hall. revert requests.
  induction Hall as [|info infos H0 _ IH]; intros [|req requests];
    try reflexivity.
  cbn. rewrite H0. cbn. apply IH.
Qed.

End RangeFailed.

Lemma print_copied_in_bounds (copyRequests : list CopyRequest.t)
    (infos : list CopyInfo.t) :
  forall (i : nat) (w : World),
    (i + length infos <= length copyRequests)%nat ->
    fst (print_copied copyRequests i infos w) = Nil
    /\ sent (snd (print_copied copyRequests i infos w)) = sent w.
Proof.
  induction infos as [|info infos IH]; intros i w Hlen; [split; reflexivity|].
  cbn [length] in Hlen.
  destruct (lookup_lt_is_Some_2 copyRequests i ltac:(lia)) as [req Hreq].
  cbn [print_copied]. rewrite Hreq.
  destruct (IH (S i) (PrintSuccess
               ("File '" +:+ CopyRequest.Path req
                +:+ "' copied successfully to '" +:+ CopyRequest.Dest req
                +:+ "/" +:+ CopyRequest.NewName req +:+ "'") w)
              ltac:(lia)) as [H1 H2].
  split; [exact H1 | exact H2].
Qed.

Lemma print_copied_out_of_range (copyRequests : list CopyRequest.t)
    (infos : list CopyInfo.t) :
  forall (i : nat) (w : World),
    (i <= length copyRequests < i + length infos)%nat ->
    fst (print_copied copyRequests i infos w) = Panic index_out_of_range.
Proof.
  induction infos as [|info infos IH]; intros i w Hlen;
    [cbn in Hlen; lia|].
  cbn [print_copied length] in *.
  destruct (copyRequests !! i) as [req|] eqn:Hreq; [|reflexivity].
  apply IH. apply lookup_lt_Some in Hreq. lia.
Qed.

Lemma failed_deletes_filter (entries : list DeleteEntry.t) :
  forall failedFiles : list string,
    failed_deletes entries failedFiles
    = failedFiles ++ failed_entries entries.
Proof.
  unfold failed_entries.
  induction entries as [|entry entries IH]; intros failedFiles.
  - cbn. rewrite app_nil_r. reflexivity.
  - cbn [failed_deletes]. rewrite filter_cons.
    destruct (Z.eqb_spec (DeleteEntry.Errno entry) 0) as [H0|H0]; cbn [negb].
    + rewrite decide_False by (intros Hne; apply Hne, H0). apply IH.
    + rewrite decide_True by exact H0.
      rewrite IH, <- app_assoc. reflexivity.
Qed.

(** The four operations once the top-level answer is known to be good. *)
Lemma MoveFiles_answered (c : Client) (w : World) (body : string)
    (moveRequests : list MoveRequest.t) (resp : MoveResponse.t) :
  accessToken c <> "" -> moveRequests <> [] ->
  answers w (move_request c moveRequests) body ->
  json_MoveResponse body = Ok resp ->
  MoveResponse.Errno resp = 0 ->
  fst (MoveFiles c moveRequests w)
  = match range_failed MoveInfo.Errno describe_move moveRequests 0
            (MoveResponse.Info resp) [] with
    | None => Panic index_out_of_range
    | Some failedMoves => aggregated "move" failedMoves
    end.
Proof.
  intros Htok Hne Hans Hjson Herrno. unfold MoveFiles, Do.
  rewrite streq_false, length_eqb_0 by assumption.
  rewrite Hans. cbn. rewrite Hjson, Herrno. cbn.
  destruct (range_failed _ _ _ _ _) as [[|failure failed]|]; reflexivity.
Qed.

Lemma RenameFiles_answered (c : Client) (w : World) (body : string)
    (renameRequests : list RenameRequest.t) (resp : RenameResponse.t) :
  accessToken c <> "" -> renameRequests <> [] ->
  answers w (rename_request c renameRequests) body ->
  json_RenameResponse body = Ok resp ->
  RenameResponse.Errno resp = 0 ->
  fst (RenameFiles c renameRequests w)
  = match range_failed RenameInfo.Errno describe_rename renameRequests 0
            (RenameResponse.Info resp) [] with
    | None => Panic index_out_of_range
    | Some failedRenames => aggregated "rename" failedRenames
    end.
Proof.
  intros Htok Hne Hans Hjson Herrno. unfold RenameFiles, Do.
  rewrite streq_false, length_eqb_0 by assumption.
  rewrite Hans. cbn. rewrite Hjson, Herrno. cbn.
  destruct (range_failed _ _ _ _ _) as [[|failure failed]|]; reflexivity.
Qed.

Lemma CopyFiles_answered (c : Client) (w : World) (body : string)
    (copyRequests : list CopyRequest.t) (resp : CopyResponse.t) :
  accessToken c <> "" -> copyRequests <> [] ->
  answers w (copy_request c copyRequests) body ->
  json_CopyResponse body = Ok resp ->
  CopyResponse.Errno resp = 0 ->
  fst (CopyFiles c copyRequests w)
  = match range_failed CopyInfo.Errno describe_copy copyRequests 0
            (CopyResponse.Info resp) [] with
    | None => Panic index_out_of_range
    | Some [] =>
        fst (print_copied copyRequests 0 (CopyResponse.Info resp)
               (snd (Do (copy_request c copyRequests) w)))
    | Some failedCopies => aggregated "copy" failedCopies
    end.
Proof.
  intros Htok Hne Hans Hjson Herrno. unfold CopyFiles, Do.
  rewrite streq_false, length_eqb_0 by assumption.
  rewrite Hans. cbn. rewrite Hjson, Herrno. cbn.
  destruct (range_failed _ _ _ _ _) as [[|failure failed]|]; reflexivity.
Qed.

Lemma RemoveFiles_answered (c : Client) (w : World) (body : string)
    (filePaths : list string) (resp : DeleteResponse.t) :
  accessToken c <> "" -> filePaths <> [] ->
  answers w (delete_request c filePaths) body ->
  json_DeleteResponse body = Ok resp ->
  DeleteResponse.Errno resp = 0 ->
  fst (RemoveFiles c filePaths w)
  = aggregated "delete" (failed_entries (DeleteResponse.List resp)).
Proof.
  intros Htok Hne Hans Hjson Herrno. unfold RemoveFiles, Do.
  rewrite streq_false, length_eqb_0 by assumption.
  rewrite Hans. cbn. rewrite Hjson, Herrno. cbn.
  rewrite failed_deletes_filter. cbn [app].
  destruct (failed_entries _); reflexivity.
Qed.

(** C7, for answers that are no longer than the batch: in a batch
    operation (rename, move, copy, delete) whose top-level [errno] is zero,
    the per-item failures are collected and reported in one error, one
    entry for each failed item, in order; for a rename of three items of
    which only the second has an [errno], the error lists the second item
    and nothing else; with no per-item [errno] the operation succeeds. For
    rename, move and copy the entries of the response are the results of
    the requests, by position, and there are no more of them than
    requests. *)
Theorem batch_failures_aggregated (c : Client) (w : World) :
  accessToken c <> "" ->
  (forall (requests : list RenameRequest.t) (resp : RenameResponse.t),
      requests <> [] ->
      good_answer json_RenameResponse RenameResponse.Errno w
        (rename_request c requests) resp ->
      (length (RenameResponse.Info resp) <= length requests)%nat ->
      fst (RenameFiles c requests w)
      = aggregated "rename"
          (failures RenameInfo.Errno
             (fun req info =>
                RenameRequest.Path req +:+ " -> "
                +:+ RenameRequest.NewName req +:+ " (error code: "
                +:+ fmt_d (RenameInfo.Errno info) +:+ ")")
             requests (RenameResponse.Info resp))
      /\ (Forall (fun info => RenameInfo.Errno info = 0)
            (RenameResponse.Info resp) ->
          fst (RenameFiles c requests w) = Nil)
      /\ (forall r1 r2 r3 i1 i2 i3,
          requests = [r1; r2; r3] ->
          RenameResponse.Info resp = [i1; i2; i3] ->
          RenameInfo.Errno i1 = 0 -> RenameInfo.Errno i2 <> 0 ->
          RenameInfo.Errno i3 = 0 ->
          fst (RenameFiles c requests w)
          = Err ("failed to rename some files: " +:+ RenameRequest.Path r2
                 +:+ " -> " +:+ RenameRequest.NewName r2
                 +:+ " (error code: " +:+ fmt_d (RenameInfo.Errno i2)
                 +:+ ")")))
  /\ (forall (requests : list MoveRequest.t) (resp : MoveResponse.t),
      requests <> [] ->
      good_answer json_MoveResponse MoveResponse.Errno w
        (move_request c requests) resp ->
      (length (MoveResponse.Info resp) <= length requests)%nat ->
      fst (MoveFiles c requests w)
      = aggregated "move"
          (failures MoveInfo.Errno
             (fun req info =>
                MoveRequest.Path req +:+ " -> " +:+ MoveRequest.Dest req
                +:+ "/" +:+ MoveRequest.NewName req +:+ " (error code: "
                +:+ fmt_d (MoveInfo.Errno info) +:+ ")")
             requests (MoveResponse.Info resp))
      /\ (Forall (fun info => MoveInfo.Errno info = 0)
            (MoveResponse.Info resp) ->
          fst (MoveFiles c requests w) = Nil))
  /\ (forall (requests : list CopyRequest.t) (resp : CopyResponse.t),
      requests <> [] ->
      good_answer json_CopyResponse CopyResponse.Errno w
        (copy_request c requests) resp ->
      (length (CopyResponse.Info resp) <= length requests)%nat ->
      fst (CopyFiles c requests w)
      = aggregated "copy"
          (failures CopyInfo.Errno
             (fun req info =>
                CopyRequest.Path req +:+ " -> " +:+ CopyRequest.Dest req
                +:+ "/" +:+ CopyRequest.NewName req +:+ " (error code: "
                +:+ fmt_d (CopyInfo.Errno info) +:+ ")")
             requests (CopyResponse.Info resp))
      /\ (Forall (fun info => CopyInfo.Errno info = 0)
            (CopyResponse.Info resp) ->
          fst (CopyFiles c requests w) = Nil))
  /\ (forall (filePaths : list string) (resp : DeleteResponse.t),
      filePaths <> [] ->
      good_answer json_DeleteResponse DeleteResponse.Errno w
        (delete_request c filePaths) resp ->
      fst (RemoveFiles c filePaths w)
      = aggregated "delete"
          ((fun entry =>
              DeleteEntry.Path entry +:+ " (error code: "
              +:+ fmt_d (DeleteEntry.Errno entry) +:+ ")")
             <$> filter (fun entry => DeleteEntry.Errno entry <> 0)
                   (DeleteResponse.List resp))
      /\ (Forall (fun entry => DeleteEntry.Errno entry = 0)
            (DeleteResponse.List resp) ->
          fst (RemoveFiles c filePaths w) = Nil)).
Proof.
  intros Htok. fold describe_rename describe_move describe_copy.
  split; [|split; [|split]].
  - intros requests resp Hne (body & Hans & Hjson & Herrno) Hlen.
    rewrite (RenameFiles_answered c w body requests resp) by assumption.
    rewrite range_failed_in_bounds by (cbn; lia). rewrite drop_0; cbn [app].
    split; [reflexivity|]. split.
    + intros Hall. rewrite failures_none by exact Hall. reflexivity.
    + intros r1 r2 r3 i1 i2 i3 -> -> H1 H2 H3. cbn [failures].
      rewrite H1, H3, (proj2 (Z.eqb_neq _ _) H2). cbn.
      unfold describe_rename. reflexivity.
  - intros requests resp Hne (body & Hans & Hjson & Herrno) Hlen.
    rewrite (MoveFiles_answered c w body requests resp) by assumption.
    rewrite range_failed_in_bounds by (cbn; lia). rewrite drop_0; cbn [app].
    split; [reflexivity|].
    intros Hall. rewrite failures_none by exact Hall. reflexivity.
  - intros requests resp Hne (body & Hans & Hjson & Herrno) Hlen.
    rewrite (CopyFiles_answered c w body requests resp) by assumption.
    rewrite range_failed_in_bounds by (cbn; lia). rewrite drop_0; cbn [app].
    destruct (failures CopyInfo.Errno describe_copy requests
                (CopyResponse.Info resp)) as [|failure failed] eqn:Hf.
    + destruct (print_copied_in_bounds requests (CopyResponse.Info resp) 0
                  (snd (Do (copy_request c requests) w)) ltac:(cbn; lia))
        as [Hprinted _].
      rewrite Hprinted. split; reflexivity.
    + split; [reflexivity|].
      intros Hall. rewrite failures_none in Hf by exact Hall. discriminate.
  - intros filePaths resp Hne (body & Hans & Hjson & Herrno).
    rewrite (RemoveFiles_answered c w body filePaths resp) by assumption.
    unfold failed_entries, describe_delete.
    split; [reflexivity|].
    intros Hall.
    replace (filter (fun entry => DeleteEntry.Errno entry <> 0)
               (DeleteResponse.List resp)) with (@nil DeleteEntry.t);
      [reflexivity|].
    symmetry. induction Hall as [|entry entries H0 _ IH]; [reflexivity|].
    rewrite filter_cons, decide_False by (intros Hne'; apply Hne', H0).
    exact IH.
Qed.

(** C9: in [MoveFiles], [CopyFiles] and [RenameFiles] the request list is
    indexed by the position of an entry in [Info]. For a parsed response
    whose [Info] is no longer than the request list every index is in
    bounds and the operation does not panic; the precondition cannot be
    dropped: a failing entry beyond the request list makes each of the
    three panic, and so does, in [CopyFiles], any longer [Info] without
    failures. *)
Theorem batch_index_in_bounds (c : Client) (w : World) :
  accessToken c <> "" ->
  (forall (requests : list MoveRequest.t) (resp : MoveResponse.t),
      requests <> [] ->
      good_answer json_MoveResponse MoveResponse.Errno w
        (move_request c requests) resp ->
      ((length (MoveResponse.Info resp) <= length requests)%nat ->
       (forall i info, MoveResponse.Info resp !! i = Some info ->
                       is_Some (requests !! i))
       /\ is_Some (range_failed MoveInfo.Errno describe_move requests 0
                     (MoveResponse.Info resp) [])
       /\ forall msg, fst (MoveFiles c requests w) <> Panic msg)
      /\ (forall i info,
             MoveResponse.Info resp !! i = Some info ->
             MoveInfo.Errno info <> 0 -> (length requests <= i)%nat ->
             fst (MoveFiles c requests w) = Panic index_out_of_range))
  /\ (forall (requests : list CopyRequest.t) (resp : CopyResponse.t),
      requests <> [] ->
      good_answer json_CopyResponse CopyResponse.Errno w
        (copy_request c requests) resp ->
      ((length (CopyResponse.Info resp) <= length requests)%nat ->
       (forall i info, CopyResponse.Info resp !! i = Some info ->
                       is_Some (requests !! i))
       /\ is_Some (range_failed CopyInfo.Errno describe_copy requests 0
                     (CopyResponse.Info resp) [])
       /\ forall msg, fst (CopyFiles c requests w) <> Panic msg)
      /\ (forall i info,
             CopyResponse.Info resp !! i = Some info ->
             CopyInfo.Errno info <> 0 -> (length requests <= i)%nat ->
             fst (CopyFiles c requests w) = Panic index_out_of_range)
      /\ ((length requests < length (CopyResponse.Info resp))%nat ->
          Forall (fun info => CopyInfo.Errno info = 0)
            (CopyResponse.Info resp) ->
          fst (CopyFiles c requests w) = Panic index_out_of_range))
  /\ (forall (requests : list RenameRequest.t) (resp : RenameResponse.t),
      requests <> [] ->
      good_answer json_RenameResponse RenameResponse.Errno w
        (rename_request c requests) resp ->
      ((length (RenameResponse.Info resp) <= length requests)%nat ->
       (forall i info, RenameResponse.Info resp !! i = Some info ->
                       is_Some (requests !! i))
       /\ is_Some (range_failed RenameInfo.Errno describe_rename requests 0
                     (RenameResponse.Info resp) [])
       /\ forall msg, fst (RenameFiles c requests w) <> Panic msg)
      /\ (forall i info,
             RenameResponse.Info resp !! i = Some info ->
             RenameInfo.Errno info <> 0 -> (length requests <= i)%nat ->
             fst (RenameFiles c requests w) = Panic index_out_of_range)).
Proof.
  intros Htok. split; [|split].
  - intros requests resp Hne (body & Hans & Hjson & Herrno).
    rewrite (MoveFiles_answered c w body requests resp) by assumption.
    split.
    + intros Hlen. rewrite range_failed_in_bounds by (cbn; lia).
      split; [|split].
      * intros i info Hi. apply lookup_lt_is_Some_2.
        apply lookup_lt_Some in Hi. lia.
      * eexists. reflexivity.
      * intros msg. destruct (_ ++ _); discriminate.
    + intros i info Hi He Hlen.
      rewrite (range_failed_out_of_range _ _ _ _ 0 i info) by assumption.
      reflexivity.
  - intros requests resp Hne (body & Hans & Hjson & Herrno).
    rewrite (CopyFiles_answered c w body requests resp) by assumption.
    split; [|split].
    + intros Hlen. rewrite range_failed_in_bounds by (cbn; lia).
      split; [|split].
      * intros i info Hi. apply lookup_lt_is_Some_2.
        apply lookup_lt_Some in Hi. lia.
      * eexists. reflexivity.
      * intros msg. rewrite drop_0; cbn [app].
        destruct (failures _ _ _ _); [|discriminate].
        destruct (print_copied_in_bounds requests (CopyResponse.Info resp) 0
                    (snd (Do (copy_request c requests) w))
                    ltac:(cbn; lia)) as [Hprinted _].
        rewrite Hprinted. discriminate.
    + intros i info Hi He Hlen.
      rewrite (range_failed_out_of_range _ _ _ _ 0 i info) by assumption.
      reflexivity.
    + intros Hlen Hall.
      assert (Hnone : range_failed CopyInfo.Errno describe_copy requests 0
                        (CopyResponse.Info resp) [] = Some []).
      { clear -Hall. generalize 0%nat.
        induction Hall as [|info infos H0 _ IH]; intros i; [reflexivity|].
        cbn [range_failed]. rewrite H0. cbn. apply IH. }
      rewrite Hnone. apply print_copied_out_of_range. cbn. lia.
  - intros requests resp Hne (body & Hans & Hjson & Herrno).
    rewrite (RenameFiles_answered c w body requests resp) by assumption.
    split.
    + intros Hlen. rewrite range_failed_in_bounds by (cbn; lia).
      split; [|split].
      * intros i info Hi. apply lookup_lt_is_Some_2.
        apply lookup_lt_Some in Hi. lia.
      * eexists. reflexivity.
      * intros msg. destruct (_ ++ _); discriminate.
    + intros i info Hi He Hlen.
      rewrite (range_failed_out_of_range _ _ _ _ 0 i info) by assumption.
      reflexivity.
Qed.

(** ** The file list of a delete *)

Lemma json_escape_plain (ch : ascii) :
  plain_char ch -> json_escape ch = String ch "".
Proof.
  unfold plain_char, json_escape. cbv zeta. intros (H34 & H92 & H32).
  repeat (match goal with
          | |- context [?a =? ?b] =>
              destruct (Z.eqb_spec a b) as [?|_]; [lia|]
          end).
  rewrite (proj2 (Z.ltb_ge _ _)) by lia. reflexivity.
Qed.

Lemma json_string_plain (s : string) :
  plain s -> json_string s = dquote +:+ s +:+ dquote.
Proof.
  intros Hs. unfold json_string. do 2 f_equal.
  induction s as [|ch s IH]; [reflexivity|].
  destruct Hs as [Hch Hs]. cbn [json_escape_string].
  rewrite json_escape_plain, IH by assumption. reflexivity.
Qed.

Lemma strings_Join_cons (e : string) (rest : list string) :
  strings_Join (e :: rest) "," = e +:+ after_first rest.
Proof.
  revert e. induction rest as [|e' rest IH]; intros e.
  - cbn. rewrite string_app_nil_r. reflexivity.
  - change (strings_Join (e :: e' :: rest) ",")
      with (e +:+ "," +:+ strings_Join (e' :: rest) ",").
    rewrite IH. reflexivity.
Qed.

Lemma quote_paths_after_first (filePaths : list string) :
  forall (i : nat) (fileListJSON : string),
    quote_paths (S i) filePaths fileListJSON
    = fileListJSON
      +:+ after_first ((fun path => dquote +:+ path +:+ dquote)
                         <$> filePaths).
Proof.
  induction filePaths as [|path rest IH]; intros i acc.
  - cbn. rewrite string_app_nil_r. reflexivity.
  - cbn [quote_paths Nat.ltb Nat.leb]. rewrite IH. cbn [fmap list_fmap after_first].
    rewrite !string_app_assoc. reflexivity.
Qed.

Lemma fileListJSON_plain (filePaths : list string) :
  Forall plain filePaths -> fileListJSON filePaths = json_array filePaths.
Proof.
  intros Hplain. unfold fileListJSON, json_array.
  destruct Hplain as [|path rest Hpath Hrest]; [reflexivity|].
  cbn [quote_paths Nat.ltb Nat.leb fmap list_fmap].
  rewrite quote_paths_after_first, strings_Join_cons.
  rewrite json_string_plain by exact Hpath.
  rewrite !string_app_assoc. do 5 f_equal.
  induction Hrest as [|path' rest' Hpath' _ IH]; [reflexivity|].
  cbn [fmap list_fmap after_first].
  rewrite json_string_plain by exact Hpath'.
  cbn [fmap list_fmap] in IH. rewrite IH. reflexivity.
Qed.

(** C10, with the control characters excluded too: for a non-empty list
    of paths none of which holds a double quote, a backslash or a
    character below U+0020, the [filelist] field that [RemoveFiles] builds
    by concatenation, and sends, is the JSON text of the array of the
    paths. *)
Theorem RemoveFiles_filelist_is_json (c : Client) (w : World)
    (filePaths : list string) :
  accessToken c <> "" ->
  filePaths <> [] ->
  Forall plain filePaths ->
  fileListJSON filePaths = json_array filePaths
  /\ sent (snd (RemoveFiles c filePaths w))
     = sent w
       ++ [mkRequest "POST" filemanagerURL (filemanager_params c "delete")
             [("filelist", json_array filePaths)] []].
Proof.
  intros Htok Hne Hplain. split; [apply fileListJSON_plain, Hplain|].
  unfold RemoveFiles, Do.
  rewrite streq_false, length_eqb_0 by assumption.
  rewrite <- (fileListJSON_plain filePaths Hplain).
  destruct (exchange _) as [err|status err|StatusCode responseBody];
    try reflexivity.
  destruct (negb (StatusCode =? StatusOK)); [reflexivity|].
  destruct (json_DeleteResponse responseBody) as [resp|err|msg];
    try reflexivity.
  destruct (negb (DeleteResponse.Errno resp =? 0)); [reflexivity|].
  cbv zeta. destruct (0 <? length _)%nat; reflexivity.
Qed.

(** ** Upload *)

(** C5: when the precreate response to the digests that the upload declares
    says that the content is already there ([return_type = 2]),
    [UploadFile] returns success and has sent the precreate request and
    nothing else: no slice transfer, no create request. *)
Theorem UploadFile_already_present (c : Client) (w : World)
    (localFilePath remoteFilePath fileName : string)
    (bytes : list Byte.byte) (resp : PrecreateResponse.t) (fuel : nat) :
  accessToken c <> "" ->
  local_files w !! localFilePath = Some (Regular fileName bytes) ->
  String.prefix "/" (filepath_Dir remoteFilePath) = true ->
  (length bytes < fuel)%nat ->
  good_answer json_PrecreateResponse PrecreateResponse.Errno w
    (precreate_request c remoteFilePath (Z.of_nat (length bytes))
       (block_list_of bytes)) resp ->
  PrecreateResponse.ReturnType resp = 2 ->
  exists w' : World,
    UploadFile fuel c localFilePath remoteFilePath w = Some (Nil, w')
    /\ sent_since w w'
       = [precreate_request c remoteFilePath (Z.of_nat (length bytes))
            (block_list_of bytes)]
    /\ Forall (fun req => ~ is_slice_transfer req /\ ~ is_finalize req)
         (sent_since w w').
Proof.
  intros Htok Hfile Hdir Hfuel (body & Hans & Hjson & Herrno) Htype.
  unfold UploadFile. rewrite streq_false by exact Htok.
  rewrite Hfile. unfold EnsureRemoteDirExists. rewrite Hdir. cbn [negb].
  rewrite (CalculateSliceMD5_regular w localFilePath fileName bytes)
    by (try assumption; unfold sliceSize, maxRW; lia).
  fold (block_list_of bytes).
  unfold Do, PrintSuccess at 1. cbn [sent print].
  unfold answers in Hans. rewrite Hans. cbn.
  rewrite Hjson, Herrno. cbn. unfold after_precreate. rewrite Htype. cbn.
  eexists. split; [reflexivity|].
  unfold sent_since. cbn. rewrite drop_app_length.
  split; [reflexivity|].
  repeat constructor; unfold is_slice_transfer, is_finalize; cbn;
    [intros [fileName' Hform] | ]; discriminate.
Qed.

(** ** Walk *)

Lemma height_all_cons (t : Remote) (ts : list Remote) :
  height_all (t :: ts) = (height t `max` height_all ts)%nat.
Proof. reflexivity. Qed.

Lemma height_dir (info : FileInfo.t) (children : list Remote) :
  height (RDir info children) = S (height_all children).
Proof. reflexivity. Qed.

Lemma preorder_dir (info : FileInfo.t) (children : list Remote) :
  preorder (RDir info children) = SendFile info :: preorder_all children.
Proof.
  cbn [preorder]. f_equal. unfold preorder_all.
  induction children as [|t ts IH]; [reflexivity|].
  cbn [fmap list_fmap concat]. rewrite IH. reflexivity.
Qed.

Lemma preorder_all_cons_dir (info : FileInfo.t)
    (children ts : list Remote) :
  preorder_all (RDir info children :: ts)
  = SendFile info :: preorder_all children ++ preorder_all ts.
Proof.
  unfold preorder_all at 1. cbn [fmap list_fmap concat].
  rewrite preorder_dir. reflexivity.
Qed.

Lemma ListFiles_lists (c : Client) (dirPath : string)
    (r : result (list FileInfo.t)) (w : World) :
  lists c dirPath r -> exists w', ListFiles c dirPath w = (r, w').
Proof.
  intros Hl. specialize (Hl w).
  destruct (ListFiles c dirPath w) as [r' w']. cbn in Hl. subst r'.
  exists w'. reflexivity.
Qed.

Lemma WalkRecursive_S (fuel : nat) (c : Client) (path : string)
    (w : World) :
  WalkRecursive (S fuel) c path w
  = let '(r, w) := ListFiles c path w in
    match r with
    | Err err => Some (Nil, [SendErr err], w)
    | Panic msg => Some (Panic msg, [], w)
    | Ok files => walk_range (WalkRecursive fuel c) files w
    end.
Proof. reflexivity. Qed.

(** With fuel for the deepest listing, the loop over the entries of a
    listing sends the trees under them in pre-order. *)
Lemma walk_range_preorder (c : Client) (n : nat) :
  forall (fuel : nat) (ts : list Remote),
    (n <= fuel)%nat ->
    (height_all ts <= n)%nat ->
    Forall (serves c) ts ->
    forall w : World,
      exists w' : World,
        walk_range (WalkRecursive fuel c) (entry <$> ts) w
        = Some (Nil, preorder_all ts, w').
Proof.
  induction n as [|n IHn]; intros fuel ts Hfuel Hheight Hserves;
    induction Hserves as [|t ts Ht Hts IHts]; intros w;
    try (exists w; reflexivity);
    rewrite height_all_cons in Hheight;
    (assert (Hrest : (height_all ts <= height_all ts)%nat) by lia);
    cbn [fmap list_fmap walk_range];
    destruct Ht as [info Hfile|info children Hdir Hlist Hchildren
                   |info err Hdir Hlist];
    cbn [entry].
  - destruct (Z.eqb_spec (FileInfo.IsDir info) 1) as [|_]; [contradiction|].
    destruct (IHts ltac:(lia) w) as [w' Hw']. cbn [fmap] in Hw'.
    rewrite Hw'. exists w'. reflexivity.
  - rewrite height_dir in Hheight. lia.
  - cbn [height] in Hheight. lia.
  - destruct (Z.eqb_spec (FileInfo.IsDir info) 1) as [|_]; [contradiction|].
    destruct (IHts ltac:(lia) w) as [w' Hw']. cbn [fmap] in Hw'.
    rewrite Hw'. exists w'. reflexivity.
  - rewrite Hdir. cbn [Z.eqb Pos.eqb].
    rewrite height_dir in Hheight.
    destruct fuel as [|fuel]; [lia|]. rewrite WalkRecursive_S.
    destruct (ListFiles_lists c _ _ w Hlist) as [w1 Hw1]. rewrite Hw1.
    destruct (IHn fuel children ltac:(lia) ltac:(lia) Hchildren w1)
      as [w2 Hw2].
    rewrite Hw2.
    destruct (IHts ltac:(lia) w2) as [w3 Hw3]. cbn [fmap] in Hw3.
    rewrite Hw3. exists w3. rewrite preorder_all_cons_dir. reflexivity.
  - rewrite Hdir. cbn [Z.eqb Pos.eqb].
    destruct fuel as [|fuel]; [lia|]. rewrite WalkRecursive_S.
    destruct (ListFiles_lists c _ _ w Hlist) as [w1 Hw1]. rewrite Hw1.
    destruct (IHts ltac:(lia) w1) as [w2 Hw2]. cbn [fmap] in Hw2.
    rewrite Hw2. exists w2. reflexivity.
Qed.

(** C8: for a tree served under a root path, the goroutine of [Walk]
    sends the entries in depth-first pre-order and closes the entry
    channel last. A directory's entry comes before what is under it and
    all of that before the next sibling; a listing that fails, at any
    depth, sends one error and ends that branch alone: what was sent stays
    sent and the siblings follow. *)
Theorem Walk_preorder (c : Client) (rootPath : string) (fuel : nat)
    (w : World) :
  (forall children : list Remote,
      lists c rootPath (Ok (entry <$> children)) ->
      Forall (serves c) children ->
      (height_all children < fuel)%nat ->
      exists w' : World,
        Walk fuel c rootPath w
        = Some (Nil, preorder_all children ++ [CloseFileChan], w'))
  /\ (forall err : string,
      lists c rootPath (Err err) ->
      (0 < fuel)%nat ->
      exists w' : World,
        Walk fuel c rootPath w = Some (Nil, [SendErr err; CloseFileChan], w'))
  /\ (forall info ts,
      preorder_all (RFile info :: ts) = SendFile info :: preorder_all ts)
  /\ (forall info children ts,
      preorder_all (RDir info children :: ts)
      = SendFile info :: preorder_all children ++ preorder_all ts)
  /\ (forall info err ts,
      preorder_all (RBroken info err :: ts)
      = SendFile info :: SendErr err :: preorder_all ts).
Proof.
  split; [|split; [|split; [|split]]].
  - intros children Hlist Hserves Hfuel. unfold Walk.
    destruct fuel as [|fuel]; [lia|]. rewrite WalkRecursive_S.
    destruct (ListFiles_lists c _ _ w Hlist) as [w1 Hw1]. rewrite Hw1.
    destruct (walk_range_preorder c (height_all children) fuel children
                ltac:(lia) ltac:(lia) Hserves w1) as [w2 Hw2].
    rewrite Hw2. exists w2. reflexivity.
  - intros err Hlist Hfuel. unfold Walk.
    destruct fuel as [|fuel]; [lia|]. rewrite WalkRecursive_S.
    destruct (ListFiles_lists c _ _ w Hlist) as [w1 Hw1]. rewrite Hw1.
    exists w1. reflexivity.
  - reflexivity.
  - apply preorder_all_cons_dir.
  - reflexivity.
Qed.

(** * Further properties *)

(** ** The token file *)

Lemma print_sent (line : string) (w : World) : sent (print line w) = sent w.
Proof. reflexivity. Qed.

(** X1: a record that [SaveTokens] has written is the record that
    [LoadTokens] reads back, for any client with the same token file: the
    four token fields of the saver and the instant of the save. *)
Theorem SaveTokens_then_LoadTokens (c c0 c' : Client) (w w' : World) :
  SaveTokens c w = (Nil, c', w') ->
  tokenFile c0 = tokenFile c ->
  LoadTokens c0 w' = (Nil, loaded c0 (saved_record c (clock w)))
  /\ token_record (loaded c0 (saved_record c (clock w))) = token_record c'
  /\ token_record c'
     = (accessToken c, refreshToken c, expiresIn c, uid c, clock w).
Proof.
  intros Hsave Hpath. unfold SaveTokens, WriteTokenFile in Hsave.
  destruct (streq (accessToken c) ""); [discriminate|].
  cbn in Hsave. destruct (write_error w); [discriminate|].
  injection Hsave as <- <-. split; [|split; reflexivity].
  unfold LoadTokens, loaded, saved_record. cbn. rewrite Hpath.
  rewrite lookup_insert_eq. reflexivity.
Qed.

(** X2: [SaveTokens] writes to one file only: whether it succeeds or
    fails, every other token file is as it was, and no request is sent.
    Without an access token nothing is written at all; when it succeeds, the
    record in the client's token file has a non-empty access token. *)
Theorem SaveTokens_one_file (c c' : Client) (w w' : World) (r : outcome) :
  SaveTokens c w = (r, c', w') ->
  (forall path, path <> tokenFile c ->
                token_files w' !! path = token_files w !! path)
  /\ (accessToken c = "" -> r = Err "no access token to save" /\ w' = w)
  /\ (r = Nil ->
      exists tf, token_files w' !! tokenFile c = Some tf
                 /\ TokenFile.AccessToken tf <> "")
  /\ sent w' = sent w
  /\ local_files w' = local_files w.
Proof.
  intros Hsave. unfold SaveTokens, WriteTokenFile, streq in Hsave.
  case_bool_decide as Hempty.
  - injection Hsave as <- <- <-. repeat split; intros; try reflexivity.
    discriminate.
  - cbn in Hsave. destruct (write_error w).
    + injection Hsave as <- <- <-.
      repeat split; intros; try reflexivity; try contradiction.
      discriminate.
    + injection Hsave as <- <- <-.
      split; [|split; [intros; contradiction|split; [|split; reflexivity]]].
      * intros path Hpath. cbn. apply lookup_insert_ne. congruence.
      * intros _. eexists. cbn. rewrite lookup_insert_eq.
        split; [reflexivity|]. exact Hempty.
Qed.

(** ** Expiry *)

(** X3: expiry is monotone in the clock: a token that [IsTokenExpired]
    reports as expired is reported as expired at every later time. *)
Theorem IsTokenExpired_monotone (c : Client) (now1 now2 later1 later2 : Time) :
  now1 <= later1 ->
  now2 <= later2 ->
  IsTokenExpired c now1 now2 = true ->
  IsTokenExpired c later1 later2 = true.
Proof.
  unfold IsTokenExpired, Time_Before, Time_Add. intros H1 H2.
  destruct (Time_IsZero (tokenCreatedAt c) || (expiresIn c =? 0));
    [reflexivity|].
  intros Hexp. apply orb_true_iff in Hexp. apply orb_true_iff.
  destruct Hexp as [Hexp|Hexp]; apply Z.ltb_lt in Hexp;
    [left | right]; apply Z.ltb_lt; lia.
Qed.

(** What a refresh does when the token endpoint grants it. *)
Lemma RefreshToken_granted (c : Client) (w : World)
    (tokenResp : TokenResponse.t) :
  refreshToken c <> "" ->
  refresh_granted c w tokenResp ->
  RefreshToken c w
  = let w1 := snd (Do (token_request (refresh_params c)) w) in
    let c1 := refreshed c tokenResp (clock w1) in
    match write_error w with
    | Some err => (Err err, c1, w1)
    | None =>
        (Nil, c1,
         set_token_files
           (<[tokenFile c := saved_record c1 (clock w1)]> (token_files w))
           w1)
    end.
Proof.
  intros Hrefresh (body & Hx & Hjson & Haccess). unfold RefreshToken, Do.
  rewrite streq_false by exact Hrefresh. rewrite Hx. cbn.
  rewrite Hjson. rewrite streq_false by exact Haccess.
  rewrite SaveTokens_writes by exact Haccess. cbn.
  destruct (write_error w); reflexivity.
Qed.

(** A refresh that succeeds has stamped the client with the clock. *)
Lemma RefreshToken_stamp (c c' : Client) (w w' : World) :
  RefreshToken c w = (Nil, c', w') -> tokenCreatedAt c' = clock w'.
Proof.
  unfold RefreshToken, Do.
  destruct (streq (refreshToken c) ""); [discriminate|].
  destruct (exchange _) as [err|status err|StatusCode body];
    try discriminate.
  destruct (negb (StatusCode =? StatusOK)); [discriminate|].
  destruct (json_TokenResponse body) as [tokenResp|err|msg];
    try discriminate.
  unfold streq. case_bool_decide as Hempty; [discriminate|].
  rewrite SaveTokens_writes by exact Hempty. cbn.
  destruct (write_error w); [discriminate|].
  intros H. injection H as <- <-. reflexivity.
Qed.

(** X4: after a refresh that succeeded, the new token counts as valid
    exactly until 48 hours before [expires_in] seconds have passed since the
    refresh: a token granted for less than 48 hours is expired as soon as it
    is saved. *)
Theorem RefreshToken_then_IsTokenExpired (c c' : Client) (w w' : World)
    (now : Time) :
  RefreshToken c w = (Nil, c', w') ->
  clock w' <> 0 ->
  expiresIn c' <> 0 ->
  fits_Duration (expiresIn c') ->
  clock w' <= now ->
  (IsTokenExpired c' now now = false
   <-> now + 48 * Hour <= clock w' + expiresIn c' * Second)
  /\ (expiresIn c' < 172800 -> IsTokenExpired c' now now = true).
Proof.
  intros Hrun Hclock Hexp Hfit Hnow.
  apply RefreshToken_stamp in Hrun.
  unfold IsTokenExpired, Time_IsZero, Time_Before, Time_Add, Duration_mul.
  unfold fits_Duration in Hfit. rewrite wrap64_fits by exact Hfit.
  rewrite Hrun.
  destruct (Z.eqb_spec (clock w') 0) as [|_]; [contradiction|].
  destruct (Z.eqb_spec (expiresIn c') 0) as [|_]; [contradiction|].
  cbn [orb]. unfold Hour, Second in *. split.
  - rewrite orb_false_iff, !Z.ltb_ge. lia.
  - intros Hshort. apply orb_true_iff. right. apply Z.ltb_lt. lia.
Qed.

(** ** Authorize *)

(** A record with a creation time and an expiry that fits is valid as long
    as its deadline is at least 48 hours ahead. *)
Lemma IsTokenExpired_valid (c : Client) (now : Time) :
  tokenCreatedAt c <> 0 -> expiresIn c <> 0 ->
  fits_Duration (expiresIn c) ->
  now + 48 * Hour <= deadline c ->
  IsTokenExpired c now now = false.
Proof.
  unfold fits_Duration, deadline, IsTokenExpired, Time_IsZero, Time_Before,
    Time_Add, Duration_mul.
  intros Hc He Hfit Hd. rewrite wrap64_fits by exact Hfit.
  destruct (Z.eqb_spec (tokenCreatedAt c) 0) as [|_]; [contradiction|].
  destruct (Z.eqb_spec (expiresIn c) 0) as [|_]; [contradiction|].
  cbn [orb]. apply orb_false_intro; apply Z.ltb_ge; unfold Hour, Second in *; lia.
Qed.

Lemma Authorize_loads (c : Client) (w : World) (tf : TokenFile.t) :
  token_files w !! tokenFile c = Some tf ->
  HasValidToken c w = true /\ LoadTokens c w = (Nil, loaded c tf).
Proof.
  intros Hfile. unfold HasValidToken, LoadTokens. rewrite Hfile.
  split; [|reflexivity]. apply bool_decide_eq_true_2. eexists. reflexivity.
Qed.

(** X5: with a token file whose token is good for more than 48 hours,
    [Authorize] returns nil holding the record of the file; it sends
    nothing, leaves the token files as they are and does not start a device
    authorization. *)
Theorem Authorize_valid_token (c : Client) (w : World) (tf : TokenFile.t) :
  token_files w !! tokenFile c = Some tf ->
  TokenFile.CreatedAt tf <> 0 ->
  TokenFile.ExpiresIn tf <> 0 ->
  fits_Duration (TokenFile.ExpiresIn tf) ->
  clock w + 48 * Hour
    <= TokenFile.CreatedAt tf + TokenFile.ExpiresIn tf * Second ->
  exists w' : World,
    Authorize c w = (Nil, loaded c tf, w')
    /\ sent w' = sent w
    /\ token_files w' = token_files w.
Proof.
  intros Hfile Hc He Hfit Hd.
  destruct (Authorize_loads c w tf Hfile) as [Hhas Hload].
  unfold Authorize. rewrite Hhas, Hload.
  rewrite IsTokenExpired_valid by assumption.
  eexists. split; [reflexivity|]. split; reflexivity.
Qed.

(** X6: with a token file whose token is expired or expires within 48
    hours, a refresh token in it, a token endpoint that grants the refresh
    and a disk that can be written, [Authorize] returns nil after one
    request, the refresh; the client and the token file hold the new tokens,
    stamped with the time of the save. *)
Theorem Authorize_refreshes (c : Client) (w : World) (tf : TokenFile.t)
    (tokenResp : TokenResponse.t) :
  token_files w !! tokenFile c = Some tf ->
  IsTokenExpired (loaded c tf) (clock w) (clock w) = true ->
  TokenFile.RefreshToken tf <> "" ->
  refresh_granted (loaded c tf) w tokenResp ->
  write_error w = None ->
  exists w' : World,
    Authorize c w = (Nil, refreshed c tokenResp (clock w'), w')
    /\ sent w' = sent w ++ [token_request (refresh_params (loaded c tf))]
    /\ token_files w' !! tokenFile c
       = Some (saved_record (refreshed c tokenResp (clock w')) (clock w')).
Proof.
  intros Hfile Hexpired Hrefresh Hgranted Hwrite.
  destruct (Authorize_loads c w tf Hfile) as [Hhas Hload].
  unfold Authorize. rewrite Hhas, Hload, Hexpired.
  rewrite (RefreshToken_granted _ _ tokenResp) by assumption.
  cbn [write_error PrintSuccess print]. rewrite Hwrite.
  lazymatch goal with
  | |- exists w' : World, (_, _, ?W) = _ /\ _ => exists W
  end.
  split; [reflexivity|]. split; [reflexivity|].
  cbn. apply lookup_insert_eq.
Qed.


(** ** The poll, when it ends before the device code expires *)

(** [k] polls answered pending, then the loop is where it would be had it
    started [k] intervals later. *)
Lemma poll_loop_after_pending (c : Client) (deviceCode : string)
    (interval : Z) (timeout : Time) (k : nat) :
  let d := Z.max (Duration_mul interval Second) 0 in
  forall (fuel : nat) (w : World),
    pending_first k c deviceCode w ->
    (k <> O -> clock w + (Z.of_nat k - 1) * d <= timeout) ->
    poll_loop (k + fuel) c (poll_params c deviceCode) interval timeout w
    = poll_loop fuel c (poll_params c deviceCode) interval timeout
        (after_polls k d (token_request (poll_params c deviceCode)) w).
Proof.
  intros d. induction k as [|k IH]; intros fuel w Hp Hle.
  - rewrite after_no_poll. reflexivity.
  - assert (Hd : 0 <= d) by (unfold d; lia).
    cbn [Nat.add poll_loop]. unfold Time_After.
    destruct (Z.gtb_spec (clock w) timeout) as [Hafter|_];
      [specialize (Hle ltac:(lia)); nia|].
    destruct (Hp O ltac:(lia)) as (body & Hs & He).
    cbn [replicate] in Hs. rewrite app_nil_r in Hs.
    unfold requestToken, Do. rewrite Hs. cbn. rewrite He. cbn.
    unfold streq at 1. rewrite bool_decide_eq_true_2 by reflexivity.
    cbn [negb]. fold d. rewrite IH.
    + f_equal. unfold after_polls, Sleep, set_clock, log_request.
      cbn. fold d. f_equal; [lia|].
      rewrite <- app_assoc. reflexivity.
    + intros j Hj. destruct (Hp (S j) ltac:(lia)) as (body' & Hs' & He').
      exists body'. split; [|exact He'].
      unfold Sleep, set_clock, log_request. cbn [sent].
      rewrite <- app_assoc. exact Hs'.
    + unfold Sleep, set_clock, log_request. cbn. fold d. intros Hk.
      specialize (Hle ltac:(lia)). nia.
Qed.

(** [PollForToken], the first [k] polls pending: it is the loop, one poll
    from its end. *)
Lemma PollForToken_after_pending (c : Client) (deviceCode : string)
    (w : World) (k fuel : nat) :
  pending_first k c deviceCode w ->
  (k <= 360)%nat ->
  PollForToken (k + S fuel) c deviceCode w
  = let w1 :=
      after_polls k (5 * Second) (token_request (poll_params c deviceCode))
        w in
    let '(r, w2) := requestToken (poll_params c deviceCode) w1 in
    match r with
    | Err err => Some (Err err, c, w2)
    | Panic msg => Some (Panic msg, c, w2)
    | Ok tokenResp =>
        if negb (streq (TokenResponse.AccessToken tokenResp) "") then
          Some (Ok tokenResp,
                refreshed c tokenResp (tokenCreatedAt c), w2)
        else
          poll_loop fuel c (poll_params c deviceCode) 5
            (Time_Add (clock w) (Duration_mul 1800 Second))
            (Sleep (Duration_mul 5 Second) w2)
    end.
Proof.
  intros Hp Hk. unfold PollForToken, GetDeviceCodeForPoll, poll_with.
  cbn [DeviceCodeResponse.Interval DeviceCodeResponse.ExpiresIn Z.eqb].
  rewrite (poll_loop_after_pending c deviceCode 5 _ k (S fuel) w Hp).
  2:{ intros _. unfold Time_Add. vm_compute Duration_mul.
      vm_compute Z.max. lia. }
  change (Z.max (Duration_mul 5 Second) 0) with (5 * Second).
  cbn [poll_loop]. unfold Time_After.
  destruct (Z.gtb_spec
              (clock (after_polls k (5 * Second)
                        (token_request (poll_params c deviceCode)) w))
              (Time_Add (clock w) (Duration_mul 1800 Second))) as [Hafter|_].
  { exfalso. revert Hafter. cbn [after_polls clock]. unfold Time_Add.
    vm_compute Duration_mul. unfold Second. lia. }
  reflexivity.
Qed.

Lemma sent_one_more (l : list Request) (k : nat) (req : Request) :
  (l ++ replicate k req) ++ [req] = l ++ replicate (S k) req.
Proof.
  rewrite <- app_assoc. f_equal. symmetry. apply replicate_cons_app.
Qed.

(** X8: when the user authorizes after [k] polls answered pending, so that
    poll [k + 1] is answered 200 with a token, [PollForToken] returns that
    token after [k + 1] requests sent 5 seconds apart; the client holds the
    four fields of the token, its creation time is as it was and nothing is
    written to disk. *)
Theorem PollForToken_token (c : Client) (deviceCode : string) (w : World)
    (k fuel : nat) (tokenResp : TokenResponse.t) (body : string)
    (took : Duration) :
  pending_first k c deviceCode w ->
  (k <= 360)%nat ->
  (k < fuel)%nat ->
  server (sent w ++ replicate k (token_request (poll_params c deviceCode)))
    (token_request (poll_params c deviceCode))
  = mkReply (Response StatusOK body) took ->
  json_TokenResponse body = Ok tokenResp ->
  TokenResponse.AccessToken tokenResp <> "" ->
  exists w' : World,
    PollForToken fuel c deviceCode w
    = Some (Ok tokenResp, refreshed c tokenResp (tokenCreatedAt c), w')
    /\ sent w'
       = sent w
         ++ replicate (S k) (token_request (poll_params c deviceCode))
    /\ clock w' = clock w + Z.of_nat k * (5 * Second) + took
    /\ token_files w' = token_files w.
Proof.
  intros Hp Hk Hfuel Hs Hjson Haccess.
  replace fuel with (k + S (fuel - S k))%nat by lia.
  rewrite PollForToken_after_pending by assumption.
  unfold requestToken, Do. cbn [after_polls sent]. rewrite Hs. cbn.
  rewrite Hjson. rewrite streq_false by exact Haccess. cbn [negb].
  eexists. split; [reflexivity|]. cbn. split; [|split; reflexivity].
  apply sent_one_more.
Qed.

(** X9: when poll [k + 1] fails, by a transport error or by a status that
    is neither 200 nor a 400 with [authorization_pending] or [slow_down],
    [PollForToken] returns an error after [k + 1] requests and stops
    polling; the client is as it was. *)
Theorem PollForToken_fatal (c : Client) (deviceCode : string) (w : World)
    (k fuel : nat) (x : Exchange) (took : Duration) :
  pending_first k c deviceCode w ->
  (k <= 360)%nat ->
  (k < fuel)%nat ->
  server (sent w ++ replicate k (token_request (poll_params c deviceCode)))
    (token_request (poll_params c deviceCode))
  = mkReply x took ->
  fatal x ->
  exists (msg : string) (w' : World),
    PollForToken fuel c deviceCode w = Some (Err msg, c, w')
    /\ sent w'
       = sent w
         ++ replicate (S k) (token_request (poll_params c deviceCode)).
Proof.
  intros Hp Hk Hfuel Hs Hfatal.
  replace fuel with (k + S (fuel - S k))%nat by lia.
  rewrite PollForToken_after_pending by assumption.
  assert (Hsent : forall w1 : World,
             sent w1
             = (sent w ++ replicate k (token_request (poll_params c deviceCode)))
               ++ [token_request (poll_params c deviceCode)] ->
             sent w1
             = sent w
               ++ replicate (S k) (token_request (poll_params c deviceCode))).
  { intros w1 ->. apply sent_one_more. }
  unfold requestToken, Do. cbn [after_polls sent]. rewrite Hs.
  cbn [exchange elapsed].
  destruct x as [err|status err|StatusCode body]; cbn [fatal] in Hfatal.
  - eexists _, _. split; [reflexivity|]. apply Hsent. reflexivity.
  - eexists _, _. split; [reflexivity|]. apply Hsent. reflexivity.
  - destruct Hfatal as [Hok Hnot].
    destruct (Z.eqb_spec StatusCode StatusOK) as [|_]; [contradiction|].
    cbn [negb].
    destruct (Z.eqb_spec StatusCode StatusBadRequest) as [Hbad|_].
    + unfold streq. repeat case_bool_decide;
        try (exfalso; apply Hnot; unfold keep_polling; auto; fail);
        eexists _, _; (split; [reflexivity|]); apply Hsent; reflexivity.
    + eexists _, _. split; [reflexivity|]. apply Hsent. reflexivity.
Qed.

(** ** Paths: trimming, splitting, the last component *)

Lemma string_app_nil_l (s : string) : "" +:+ s = s.
Proof. reflexivity. Qed.

Lemma strings_TrimRight_snoc (s : string) (cut : ascii) :
  strings_TrimRight (s +:+ String cut "") cut = strings_TrimRight s cut.
Proof.
  induction s as [|ch s IH].
  - rewrite string_app_nil_l. cbn. rewrite Ascii.eqb_refl. reflexivity.
  - rewrite string_app_cons. cbn [strings_TrimRight]. rewrite IH.
    reflexivity.
Qed.

(** What [strings.TrimRight] returns does not end with the character cut. *)
Lemma strings_TrimRight_HasSuffix (s : string) (cut : ascii) :
  strings_HasSuffix (strings_TrimRight s cut) (String cut "") = false.
Proof.
  induction s as [|ch s IH]; [reflexivity|].
  cbn [strings_TrimRight].
  destruct (strings_TrimRight s cut) as [|ch' t] eqn:Ht.
  - destruct (Ascii.eqb_spec ch cut) as [|Hne]; [reflexivity|].
    cbn. unfold streq. rewrite bool_decide_eq_false_2; [reflexivity|].
    intros [= Heq]. contradiction.
  - change (strings_HasSuffix (String ch (String ch' t)) (String cut ""))
      with (streq (String ch (String ch' t)) (String cut "")
            || strings_HasSuffix (String ch' t) (String cut "")).
    rewrite IH. unfold streq. rewrite bool_decide_eq_false_2 by discriminate.
    reflexivity.
Qed.

(** A string free of a character is left alone by the trims and is one
    part for [strings.Split]. *)
Lemma strings_TrimRight_free (s : string) (cut : ascii) :
  strings_Contains s cut = false -> strings_TrimRight s cut = s.
Proof.
  induction s as [|ch s IH]; [reflexivity|].
  cbn [strings_Contains strings_TrimRight]. intros Hfree.
  apply orb_false_elim in Hfree as [Hch Hs]. rewrite (IH Hs), Hch.
  destruct s; reflexivity.
Qed.

Lemma strings_TrimLeft_free (s : string) (cut : ascii) :
  strings_Contains s cut = false -> strings_TrimLeft s cut = s.
Proof.
  destruct s as [|ch s]; [reflexivity|].
  cbn [strings_Contains strings_TrimLeft]. intros Hfree.
  apply orb_false_elim in Hfree as [-> _]. reflexivity.
Qed.

Lemma strings_Split_free (s : string) (sep : ascii) :
  strings_Contains s sep = false -> strings_Split s sep = [s].
Proof.
  induction s as [|ch s IH]; [reflexivity|].
  cbn [strings_Contains strings_Split]. intros Hfree.
  apply orb_false_elim in Hfree as [-> Hs]. rewrite (IH Hs). reflexivity.
Qed.

Lemma strings_Split_cons (s : string) (sep : ascii) :
  exists part parts, strings_Split s sep = part :: parts.
Proof.
  induction s as [|ch s (part & parts & IH)]; [eexists _, _; reflexivity|].
  cbn [strings_Split]. rewrite IH.
  destruct (Ascii.eqb ch sep); eexists _, _; reflexivity.
Qed.

(** [strings.Split] cuts at every separator. *)
Lemma strings_Split_app (a b : string) (sep : ascii) :
  strings_Split (a +:+ String sep b) sep
  = strings_Split a sep ++ strings_Split b sep.
Proof.
  induction a as [|ch a IH].
  - rewrite string_app_nil_l. cbn. rewrite Ascii.eqb_refl. reflexivity.
  - rewrite string_app_cons. cbn [strings_Split]. rewrite IH.
    destruct (Ascii.eqb ch sep); [reflexivity|].
    destruct (strings_Split_cons a sep) as (part & parts & ->).
    reflexivity.
Qed.

Lemma strings_Split_parts_free (s : string) (sep : ascii) :
  Forall (fun part => strings_Contains part sep = false)
    (strings_Split s sep).
Proof.
  induction s as [|ch s IH]; [repeat constructor|].
  cbn [strings_Split].
  destruct (Ascii.eqb ch sep) eqn:Hch; [constructor; [reflexivity|exact IH]|].
  destruct (strings_Split s sep) as [|part parts]; [repeat constructor|].
  - cbn. rewrite Hch. reflexivity.
  - inversion IH as [|? ? Hpart Hparts]; subst. constructor; [|exact Hparts].
    cbn. rewrite Hch, Hpart. reflexivity.
Qed.

(** [parts[len(parts)-1]] is the last part. *)
Lemma GetSourceFileName_last (path : string) :
  Some (GetSourceFileName path)
  = last (strings_Split (strings_Trim path "/") "/").
Proof.
  unfold GetSourceFileName.
  destruct (strings_Split_cons (strings_Trim path "/") "/")
    as (part & parts & ->).
  cbn [length Nat.eqb]. rewrite last_lookup. cbn [length Nat.pred].
  replace (S (length parts) - 1)%nat with (length parts) by lia.
  destruct ((part :: parts) !! length parts) eqn:Hl; [reflexivity|].
  apply lookup_ge_None_1 in Hl. cbn in Hl. lia.
Qed.

Lemma strings_TrimRight_app (a b : string) (cut : ascii) :
  strings_TrimRight b cut <> "" ->
  strings_TrimRight (a +:+ b) cut = a +:+ strings_TrimRight b cut.
Proof.
  intros Hb. induction a as [|ch a IH]; [reflexivity|].
  rewrite !string_app_cons. cbn [strings_TrimRight]. rewrite IH.
  destruct (a +:+ strings_TrimRight b cut) eqn:Happ; [|reflexivity].
  destruct a; [|discriminate]. contradiction.
Qed.

(** Trimmed of its slashes, a path that ends with the component [name] is
    that component, or something, a slash and that component. *)
Lemma strings_Trim_component (dir name : string) :
  name <> "" -> strings_Contains name "/" = false ->
  strings_Trim (dir +:+ "/" +:+ name) "/" = name
  \/ exists before : string,
       strings_Trim (dir +:+ "/" +:+ name) "/" = before +:+ "/" +:+ name.
Proof.
  intros Hname Hfree. unfold strings_Trim.
  assert (Hkept : strings_TrimRight (String "/" name) "/" = String "/" name).
  { cbn [strings_TrimRight]. rewrite strings_TrimRight_free by exact Hfree.
    destruct name; [contradiction | reflexivity]. }
  change ("/" +:+ name) with (String "/" name).
  rewrite strings_TrimRight_app; rewrite Hkept; [|discriminate].
  induction dir as [|ch dir IH].
  - left. rewrite string_app_nil_l.
    cbn [strings_TrimLeft Ascii.eqb Bool.eqb].
    apply strings_TrimLeft_free. exact Hfree.
  - rewrite string_app_cons. cbn [strings_TrimLeft].
    destruct (Ascii.eqb ch "/"); [exact IH|].
    right. exists (String ch dir). reflexivity.
Qed.

Lemma GetSourceFileName_component (dir name : string) :
  name <> "" ->
  strings_Contains name "/" = false ->
  GetSourceFileName (dir +:+ "/" +:+ name) = name.
Proof.
  intros Hname Hfree.
  assert (Hlast : Some (GetSourceFileName (dir +:+ "/" +:+ name))
                  = Some name); [|congruence].
  rewrite GetSourceFileName_last.
  destruct (strings_Trim_component dir name Hname Hfree)
    as [->|[before ->]].
  - rewrite strings_Split_free by exact Hfree. reflexivity.
  - change ("/" +:+ name) with (String "/" name).
    rewrite strings_Split_app, (strings_Split_free name) by exact Hfree.
    apply last_snoc.
Qed.

(** X10: the name that [GetSourceFileName] extracts from a path that ends
    with a component [name], after a slash, is [name], with or without a
    slash at the end of the path. *)
Theorem GetSourceFileName_last_component (dir name : string) :
  name <> "" ->
  strings_Contains name "/" = false ->
  GetSourceFileName (dir +:+ "/" +:+ name) = name
  /\ GetSourceFileName (dir +:+ "/" +:+ name +:+ "/") = name
  /\ GetSourceFileName name = name.
Proof.
  intros Hname Hfree.
  pose proof (GetSourceFileName_component dir name Hname Hfree) as Hfirst.
  split; [exact Hfirst|]. split.
  - rewrite <- Hfirst at 2. unfold GetSourceFileName, strings_Trim.
    replace (dir +:+ "/" +:+ name +:+ "/")
      with ((dir +:+ "/" +:+ name) +:+ "/")
      by (rewrite <- !string_app_assoc; reflexivity).
    rewrite strings_TrimRight_snoc. reflexivity.
  - unfold GetSourceFileName, strings_Trim.
    rewrite strings_TrimRight_free, strings_TrimLeft_free,
      strings_Split_free by exact Hfree.
    reflexivity.
Qed.

(** X11: the name that [GetSourceFileName] extracts has no slash in it,
    whatever the path; for a path of slashes alone, the root among them, it
    is empty. *)
Theorem GetSourceFileName_no_slash (path : string) :
  strings_Contains (GetSourceFileName path) "/" = false
  /\ (strings_Trim path "/" = "" -> GetSourceFileName path = "").
Proof.
  split.
  - pose proof (GetSourceFileName_last path) as Hlast.
    pose proof (strings_Split_parts_free (strings_Trim path "/") "/")
      as Hfree.
    symmetry in Hlast. apply last_Some_elem_of in Hlast.
    rewrite Forall_forall in Hfree. exact (Hfree _ Hlast).
  - intros Hroot. unfold GetSourceFileName. rewrite Hroot. reflexivity.
Qed.

(** X12: slashes at the end of the source and of the destination make no
    difference to [MoveFile] and to [CopyFile]. *)
Theorem MoveFile_trailing_slash (c : Client) (sourcePath dest : string)
    (w : World) :
  MoveFile c (sourcePath +:+ "/") (dest +:+ "/") w
  = MoveFile c sourcePath dest w
  /\ CopyFile c (sourcePath +:+ "/") (dest +:+ "/") w
     = CopyFile c sourcePath dest w.
Proof.
  unfold MoveFile, CopyFile. rewrite !strings_TrimRight_snoc.
  split; reflexivity.
Qed.

(** X13: [CopyFile] takes the destination for a directory, and keeps the
    name of the source, exactly when the destination trimmed of its slashes
    has no extension: the slash that the destination was written with is
    gone before the test for it. Otherwise the last component of the
    destination is the new name. *)
Theorem CopyFile_directory_by_extension (c : Client)
    (sourcePath destPath : string) (w : World) :
  let source := strings_TrimRight sourcePath "/" in
  let dest := strings_TrimRight destPath "/" in
  CopyFile c sourcePath destPath w
  = if streq (filepath_Ext dest) "" then
      CopyFiles c [CopyRequest.mk source dest (GetSourceFileName source)] w
    else
      CopyFiles c
        [CopyRequest.mk source (filepath_Dir dest) (filepath_Base dest)] w.
Proof.
  intros source dest. unfold CopyFile, isDirectoryPath. fold source dest.
  unfold dest at 1 2. rewrite strings_TrimRight_HasSuffix. cbn [orb].
  fold dest. destruct (streq (filepath_Ext dest) ""); reflexivity.
Qed.

(** ** Listing: the requests of a walk, the lookup of one file *)

Lemma listings_dir (info : FileInfo.t) (children : list Remote) :
  listings (RDir info children) = FileInfo.Path info :: listings_all children.
Proof.
  cbn [listings]. f_equal. unfold listings_all.
  induction children as [|t ts IH]; [reflexivity|].
  cbn [fmap list_fmap concat]. rewrite IH. reflexivity.
Qed.

Lemma listings_all_cons (t : Remote) (ts : list Remote) :
  listings_all (t :: ts) = listings t ++ listings_all ts.
Proof. reflexivity. Qed.

(** With an access token, [ListFiles] sends its one request whatever comes
    back, and leaves the token files alone. *)
Lemma ListFiles_sent (c : Client) (dirPath : string) (w : World) :
  accessToken c <> "" ->
  exists (r : result (list FileInfo.t)) (w' : World),
    ListFiles c dirPath w = (r, w')
    /\ sent w' = sent w ++ [list_request c dirPath]
    /\ token_files w' = token_files w.
Proof.
  intros Htok. unfold ListFiles, Do. rewrite streq_false by exact Htok.
  destruct (exchange _) as [err|status err|StatusCode body].
  - eexists _, _. split; [reflexivity|]. split; reflexivity.
  - eexists _, _. split; [reflexivity|]. split; reflexivity.
  - destruct (negb _).
    + eexists _, _. split; [reflexivity|]. split; reflexivity.
    + destruct (json_ListFilesResponse body) as [response|err|msg].
      * destruct (negb _);
          eexists _, _; (split; [reflexivity|]); split; reflexivity.
      * eexists _, _. split; [reflexivity|]. split; reflexivity.
      * eexists _, _. split; [reflexivity|]. split; reflexivity.
Qed.

Lemma ListFiles_lists_sent (c : Client) (dirPath : string)
    (r : result (list FileInfo.t)) (w : World) :
  accessToken c <> "" ->
  lists c dirPath r ->
  exists w' : World,
    ListFiles c dirPath w = (r, w')
    /\ sent w' = sent w ++ [list_request c dirPath]
    /\ token_files w' = token_files w.
Proof.
  intros Htok Hl. specialize (Hl w).
  destruct (ListFiles_sent c dirPath w Htok) as (r' & w' & Hrun & Hsent & Hfiles).
  rewrite Hrun in Hl. cbn in Hl. subst r'.
  exists w'. split; [exact Hrun|]. split; assumption.
Qed.

(** The loop over the entries of a listing sends one list request for each
    directory under them, in the order of the walk. *)
Lemma walk_range_requests (c : Client) (n : nat) :
  accessToken c <> "" ->
  forall (fuel : nat) (ts : list Remote),
    (n <= fuel)%nat ->
    (height_all ts <= n)%nat ->
    Forall (serves c) ts ->
    forall w : World,
      exists w' : World,
        walk_range (WalkRecursive fuel c) (entry <$> ts) w
        = Some (Nil, preorder_all ts, w')
        /\ sent w' = sent w ++ (list_request c <$> listings_all ts)
        /\ token_files w' = token_files w.
Proof.
  intros Htok.
  induction n as [|n IHn]; intros fuel ts Hfuel Hheight Hserves;
    induction Hserves as [|t ts Ht Hts IHts]; intros w;
    try (exists w; split; [reflexivity|];
         split; [cbn; rewrite app_nil_r; reflexivity | reflexivity]);
    rewrite height_all_cons in Hheight;
    cbn [fmap list_fmap walk_range];
    destruct Ht as [info Hfile|info children Hdir Hlist Hchildren
                   |info err Hdir Hlist];
    cbn [entry].
  - destruct (Z.eqb_spec (FileInfo.IsDir info) 1) as [|_]; [contradiction|].
    destruct (IHts ltac:(lia) w) as (w' & Hw' & Hsent & Hfiles).
    cbn [fmap] in Hw'. rewrite Hw'. exists w'.
    split; [reflexivity|]. split; assumption.
  - rewrite height_dir in Hheight. lia.
  - cbn [height] in Hheight. lia.
  - destruct (Z.eqb_spec (FileInfo.IsDir info) 1) as [|_]; [contradiction|].
    destruct (IHts ltac:(lia) w) as (w' & Hw' & Hsent & Hfiles).
    cbn [fmap] in Hw'. rewrite Hw'. exists w'.
    split; [reflexivity|]. split; assumption.
  - rewrite Hdir. cbn [Z.eqb Pos.eqb].
    rewrite height_dir in Hheight.
    destruct fuel as [|fuel]; [lia|]. rewrite WalkRecursive_S.
    destruct (ListFiles_lists_sent c _ _ w Htok Hlist)
      as (w1 & Hw1 & Hsent1 & Hfiles1).
    rewrite Hw1.
    destruct (IHn fuel children ltac:(lia) ltac:(lia) Hchildren w1)
      as (w2 & Hw2 & Hsent2 & Hfiles2).
    rewrite Hw2.
    destruct (IHts ltac:(lia) w2) as (w3 & Hw3 & Hsent3 & Hfiles3).
    cbn [fmap] in Hw3. rewrite Hw3. exists w3.
    split; [rewrite preorder_all_cons_dir; reflexivity|].
    split; [|congruence].
    rewrite Hsent3, Hsent2, Hsent1, listings_all_cons, listings_dir.
    rewrite !fmap_app, fmap_cons, <- !app_assoc. reflexivity.
  - rewrite Hdir. cbn [Z.eqb Pos.eqb].
    destruct fuel as [|fuel]; [lia|]. rewrite WalkRecursive_S.
    destruct (ListFiles_lists_sent c _ _ w Htok Hlist)
      as (w1 & Hw1 & Hsent1 & Hfiles1).
    rewrite Hw1.
    destruct (IHts ltac:(lia) w1) as (w2 & Hw2 & Hsent2 & Hfiles2).
    cbn [fmap] in Hw2. rewrite Hw2. exists w2.
    split; [reflexivity|]. split; [|congruence].
    rewrite Hsent2, Hsent1, listings_all_cons. cbn [listings].
    rewrite fmap_app, <- !app_assoc. reflexivity.
Qed.

(** X14: for a tree served under a root path, [Walk] sends one list request
    for the root and one for each directory entry, in the order of the walk,
    and no other request: a file is never listed, and a directory whose
    listing fails is listed once. The token files are left as they are. *)
Theorem Walk_requests (c : Client) (rootPath : string) (fuel : nat)
    (w : World) (children : list Remote) :
  accessToken c <> "" ->
  lists c rootPath (Ok (entry <$> children)) ->
  Forall (serves c) children ->
  (height_all children < fuel)%nat ->
  exists (ops : list ChanOp) (w' : World),
    Walk fuel c rootPath w = Some (Nil, ops, w')
    /\ sent w'
       = sent w ++ (list_request c <$> rootPath :: listings_all children)
    /\ token_files w' = token_files w.
Proof.
  intros Htok Hlist Hserves Hfuel. unfold Walk.
  destruct fuel as [|fuel]; [lia|]. rewrite WalkRecursive_S.
  destruct (ListFiles_lists_sent c _ _ w Htok Hlist)
    as (w1 & Hw1 & Hsent1 & Hfiles1).
  rewrite Hw1.
  destruct (walk_range_requests c (height_all children) Htok fuel children
              ltac:(lia) ltac:(lia) Hserves w1)
    as (w2 & Hw2 & Hsent2 & Hfiles2).
  rewrite Hw2. eexists _, w2. split; [reflexivity|]. split; [|congruence].
  rewrite Hsent2, Hsent1, fmap_cons, <- app_assoc. reflexivity.
Qed.

(** *** GetFileInfo *)

Lemma strings_Contains_app (a b : string) (ch : ascii) :
  strings_Contains (a +:+ String ch b) ch = true.
Proof.
  induction a as [|c0 a IH].
  - rewrite string_app_nil_l. cbn. rewrite Ascii.eqb_refl. reflexivity.
  - rewrite string_app_cons. cbn [strings_Contains]. rewrite IH.
    apply orb_true_r.
Qed.

Lemma strings_LastIndex_free (s : string) (ch : ascii) :
  strings_Contains s ch = false -> strings_LastIndex s ch = -1.
Proof.
  induction s as [|c0 s IH]; [reflexivity|].
  cbn [strings_Contains strings_LastIndex]. intros Hfree.
  apply orb_false_elim in Hfree as [-> Hs]. rewrite (IH Hs). reflexivity.
Qed.

(** The last occurrence is after the part that is followed by the character
    and by no other occurrence. *)
Lemma strings_LastIndex_app (a b : string) (ch : ascii) :
  strings_Contains b ch = false ->
  strings_LastIndex (a +:+ String ch b) ch = Z.of_nat (String.length a).
Proof.
  intros Hfree. induction a as [|c0 a IH].
  - rewrite string_app_nil_l. cbn [strings_LastIndex].
    rewrite strings_LastIndex_free by exact Hfree.
    cbn [Z.leb Z.compare]. rewrite Ascii.eqb_refl. reflexivity.
  - rewrite string_app_cons. cbn [strings_LastIndex String.length].
    rewrite IH. destruct (Z.leb_spec 0 (Z.of_nat (String.length a))); lia.
Qed.

Lemma substring_prefix (a b : string) :
  String.substring 0 (String.length a) (a +:+ b) = a.
Proof.
  induction a as [|c0 a IH].
  - rewrite string_app_nil_l. destruct b; reflexivity.
  - rewrite string_app_cons. cbn [String.length String.substring].
    rewrite IH. reflexivity.
Qed.

(** The directory that is listed for [dir/name] is [dir], the root for
    [/name]; for a name with no slash it is the root too. *)
Lemma parent_dir_component (dir name : string) :
  strings_Contains name "/" = false ->
  parent_dir (dir +:+ "/" +:+ name) = (if streq dir "" then "/" else dir)
  /\ parent_dir name = "/".
Proof.
  intros Hfree. unfold parent_dir. split.
  - change ("/" +:+ name) with (String "/" name).
    rewrite strings_Contains_app, strings_LastIndex_app by exact Hfree.
    rewrite Nat2Z.id, substring_prefix. reflexivity.
  - rewrite Hfree. reflexivity.
Qed.

Lemma find_path_Some (files : list FileInfo.t) (filePath : string)
    (file : FileInfo.t) :
  find_path files filePath = Some file ->
  FileInfo.Path file = filePath /\ file ∈ files.
Proof.
  induction files as [|f files IH]; [discriminate|].
  cbn [find_path]. unfold streq. case_bool_decide as Hp.
  - intros [= <-]. split; [exact Hp | constructor].
  - intros Hfound. destruct (IH Hfound) as [Hpath Hin].
    split; [exact Hpath | constructor; exact Hin].
Qed.

Lemma find_path_None (files : list FileInfo.t) (filePath : string) :
  find_path files filePath = None ->
  Forall (fun file => FileInfo.Path file <> filePath) files.
Proof.
  induction files as [|f files IH]; [constructor|].
  cbn [find_path]. unfold streq. case_bool_decide as Hp; [discriminate|].
  intros Hnone. constructor; [exact Hp | exact (IH Hnone)].
Qed.

(** X15: [GetFileInfo] on [dir/name] lists [dir], the root when [dir] is
    empty, with one request and whatever comes back. What it returns is an
    entry of that listing whose path is the path asked for; when the listing
    succeeds with no such entry, the error is [file not found]. *)
Theorem GetFileInfo_lists_parent (c : Client) (dir name : string)
    (w : World) :
  accessToken c <> "" ->
  strings_Contains name "/" = false ->
  let filePath := dir +:+ "/" +:+ name in
  let dirPath := if streq dir "" then "/" else dir in
  exists (r : result FileInfo.t) (w' : World),
    GetFileInfo c filePath w = (r, w')
    /\ w' = snd (ListFiles c dirPath w)
    /\ sent w' = sent w ++ [list_request c dirPath]
    /\ (forall file : FileInfo.t,
          r = Ok file ->
          FileInfo.Path file = filePath
          /\ exists files : list FileInfo.t,
               fst (ListFiles c dirPath w) = Ok files /\ file ∈ files)
    /\ (forall files : list FileInfo.t,
          fst (ListFiles c dirPath w) = Ok files ->
          Forall (fun file => FileInfo.Path file <> filePath) files ->
          r = Err ("file not found: " +:+ filePath)).
Proof.
  intros Htok Hfree filePath dirPath. unfold GetFileInfo.
  rewrite streq_false by exact Htok.
  destruct (parent_dir_component dir name Hfree) as [Hparent _].
  fold filePath in Hparent. rewrite Hparent. fold dirPath.
  destruct (ListFiles_sent c dirPath w Htok) as (r & w' & Hrun & Hsent & _).
  rewrite Hrun. cbn [fst snd].
  destruct r as [files|err|msg].
  - destruct (find_path files filePath) as [file|] eqn:Hfind.
    + eexists _, w'. split; [reflexivity|]. split; [reflexivity|].
      split; [exact Hsent|]. split.
      * intros file' [= <-]. destruct (find_path_Some _ _ _ Hfind).
        split; [assumption|]. exists files. split; [reflexivity|assumption].
      * intros files' [= <-] Hnone. exfalso.
        destruct (find_path_Some _ _ _ Hfind) as [Hpath Hin].
        rewrite Forall_forall in Hnone. exact (Hnone _ Hin Hpath).
    + eexists _, w'. split; [reflexivity|]. split; [reflexivity|].
      split; [exact Hsent|]. split; [discriminate|]. reflexivity.
  - eexists _, w'. split; [reflexivity|]. split; [reflexivity|].
    split; [exact Hsent|]. split; discriminate.
  - eexists _, w'. split; [reflexivity|]. split; [reflexivity|].
    split; [exact Hsent|]. split; discriminate.
Qed.

(** ** Upload: the slices that are transferred *)

(** What [Seek] and [ReadFull] get for slice [i] is the slice, and no error
    that ends the upload. *)
Lemma Seek_ReadFull_slice (bytes : list Byte.byte) (i : nat) :
  exists err : ReadErr,
    Seek_ReadFull bytes (Z.of_nat i * sliceSize) (Z.to_nat sliceSize)
    = (slice_of bytes (Z.to_nat sliceSize) i, err)
    /\ forall e : string, err <> io_error e.
Proof.
  unfold Seek_ReadFull.
  assert (Hoff : Z.to_nat (Z.of_nat i * sliceSize)
                 = (i * Z.to_nat sliceSize)%nat).
  { rewrite Z2Nat.inj_mul, Nat2Z.id; [reflexivity|lia|].
    unfold sliceSize. lia. }
  rewrite Hoff. set (s := Z.to_nat sliceSize).
  assert (Hslice : take s (drop (i * s) bytes) = slice_of bytes s i).
  { destruct (Nat.le_gt_cases (i * s) (length bytes)) as [Hle|Hgt].
    - symmetry. apply slice_of_read. exact Hle.
    - unfold slice_of, byte_range. rewrite drop_ge by lia.
      rewrite !take_nil. reflexivity. }
  rewrite Hslice.
  destruct (_ =? s)%nat; [|destruct (_ =? 0)%nat];
    eexists; (split; [reflexivity | discriminate]).
Qed.

(** The loop over the slices whose transfer the network takes: one request
    each, in order, and on to the next step. *)
Lemma upload_slices_accepted (c : Client)
    (remoteFilePath fileName UploadID : string) (bytes : list Byte.byte)
    (fileSize : Z) (url : nat -> string) (indexes : list nat) :
  Forall (fun i =>
            well_formed c remoteFilePath UploadID url i
            /\ accepted (slice_request (url i) fileName bytes i)) indexes ->
  forall (uploadedBytes : Z) (w : World),
    exists w' : World,
      upload_slices c remoteFilePath fileName bytes fileSize UploadID
        indexes uploadedBytes w = (Nil, w')
      /\ sent w'
         = sent w
           ++ ((fun i => slice_request (url i) fileName bytes i)
                 <$> indexes).
Proof.
  induction 1 as [|i indexes [Hurl Hi] _ IH]; intros uploadedBytes w.
  - exists w. split; [reflexivity|]. cbn. rewrite app_nil_r. reflexivity.
  - cbn [upload_slices].
    destruct (Seek_ReadFull_slice bytes i) as (err & -> & Herr).
    unfold well_formed in Hurl. rewrite Hurl.
    destruct (Hi (sent w)) as [body Hbody].
    unfold slice_request in Hbody. unfold Do.
    destruct err as [| | |e]; [| | |exfalso; exact (Herr e eq_refl)];
      rewrite Hbody; cbn [negb Z.eqb StatusOK Pos.eqb];
      match goal with
      | |- context [upload_slices _ _ _ _ _ _ indexes ?u ?w1] =>
          destruct (IH u w1) as (w' & -> & Hsent)
      end;
      exists w'; (split; [reflexivity|]);
      rewrite Hsent; cbn [sent print set_clock log_request fmap list_fmap];
      rewrite <- app_assoc; reflexivity.
Qed.

(** The loop stops at the first slice whose transfer the network refuses:
    an error, and no request after that one. *)
Lemma upload_slices_refused (c : Client)
    (remoteFilePath fileName UploadID : string) (bytes : list Byte.byte)
    (fileSize : Z) (url : nat -> string) (before : list nat) (j : nat)
    (rest : list nat) :
  Forall (fun i =>
            well_formed c remoteFilePath UploadID url i
            /\ accepted (slice_request (url i) fileName bytes i)) before ->
  well_formed c remoteFilePath UploadID url j ->
  refused (slice_request (url j) fileName bytes j) ->
  forall (uploadedBytes : Z) (w : World),
    exists (msg : string) (w' : World),
      upload_slices c remoteFilePath fileName bytes fileSize UploadID
        (before ++ j :: rest) uploadedBytes w = (Err msg, w')
      /\ sent w'
         = sent w
           ++ ((fun i => slice_request (url i) fileName bytes i)
                 <$> before ++ [j]).
Proof.
  intros Hbefore Hurlj Hj. induction Hbefore as [|i before [Hurl Hi] _ IH];
    intros uploadedBytes w.
  - cbn [app upload_slices].
    destruct (Seek_ReadFull_slice bytes j) as (err & -> & Herr).
    unfold well_formed in Hurlj. rewrite Hurlj.
    specialize (Hj (sent w)). unfold slice_request in Hj. unfold Do.
    destruct err as [| | |e]; [| | |exfalso; exact (Herr e eq_refl)];
      destruct (exchange _) as [e|status e|StatusCode body];
      try (destruct (Z.eqb_spec StatusCode StatusOK) as [|_];
           [contradiction|]; cbn [negb]);
      eexists _, _; (split; [reflexivity|]); reflexivity.
  - cbn [app upload_slices].
    destruct (Seek_ReadFull_slice bytes i) as (err & -> & Herr).
    unfold well_formed in Hurl. rewrite Hurl.
    destruct (Hi (sent w)) as [body Hbody].
    unfold slice_request in Hbody. unfold Do.
    destruct err as [| | |e]; [| | |exfalso; exact (Herr e eq_refl)];
      rewrite Hbody; cbn [negb Z.eqb StatusOK Pos.eqb];
      match goal with
      | |- context [upload_slices _ _ _ _ _ _ _ ?u ?w1] =>
          destruct (IH u w1) as (msg & w' & -> & Hsent)
      end;
      exists msg, w'; (split; [reflexivity|]);
      rewrite Hsent; cbn [sent print set_clock log_request fmap list_fmap];
      rewrite <- app_assoc; reflexivity.
Qed.

(** The loop stops before the first slice whose URL [http.NewRequest] does
    not take: an error, and that slice is not sent. *)
Lemma upload_slices_malformed (c : Client)
    (remoteFilePath fileName UploadID : string) (bytes : list Byte.byte)
    (fileSize : Z) (url : nat -> string) (before : list nat) (j : nat)
    (rest : list nat) (err : string) :
  Forall (fun i =>
            well_formed c remoteFilePath UploadID url i
            /\ accepted (slice_request (url i) fileName bytes i)) before ->
  http_NewRequest_URL (sliceUploadURL c remoteFilePath UploadID j)
  = Err err ->
  forall (uploadedBytes : Z) (w : World),
    exists w' : World,
      upload_slices c remoteFilePath fileName bytes fileSize UploadID
        (before ++ j :: rest) uploadedBytes w
      = (Err ("failed to create slice upload request: " +:+ err), w')
      /\ sent w'
         = sent w
           ++ ((fun i => slice_request (url i) fileName bytes i)
                 <$> before).
Proof.
  intros Hbefore Hurlj. induction Hbefore as [|i before [Hurl Hi] _ IH];
    intros uploadedBytes w.
  - cbn [app upload_slices].
    destruct (Seek_ReadFull_slice bytes j) as (e & -> & Herr).
    rewrite Hurlj.
    destruct e as [| | |e]; [| | |exfalso; exact (Herr e eq_refl)];
      exists w; (split; [reflexivity|]); cbn; rewrite app_nil_r;
      reflexivity.
  - cbn [app upload_slices].
    destruct (Seek_ReadFull_slice bytes i) as (e & -> & Herr).
    unfold well_formed in Hurl. rewrite Hurl.
    destruct (Hi (sent w)) as [body Hbody].
    unfold slice_request in Hbody. unfold Do.
    destruct e as [| | |e]; [| | |exfalso; exact (Herr e eq_refl)];
      rewrite Hbody; cbn [negb Z.eqb StatusOK Pos.eqb];
      match goal with
      | |- context [upload_slices _ _ _ _ _ _ _ ?u ?w1] =>
          destruct (IH u w1) as (w' & -> & Hsent)
      end;
      exists w'; (split; [reflexivity|]);
      rewrite Hsent; cbn [sent print set_clock log_request fmap list_fmap];
      rewrite <- app_assoc; reflexivity.
Qed.

(** [UploadFile] up to the slices: the digests are declared in the
    precreate request, and the answer opens an upload session. *)
Lemma UploadFile_precreated (c : Client) (w : World)
    (localFilePath remoteFilePath fileName : string)
    (bytes : list Byte.byte) (resp : PrecreateResponse.t) (fuel : nat) :
  accessToken c <> "" ->
  local_files w !! localFilePath = Some (Regular fileName bytes) ->
  String.prefix "/" (filepath_Dir remoteFilePath) = true ->
  (length bytes < fuel)%nat ->
  good_answer json_PrecreateResponse PrecreateResponse.Errno w
    (precreate_request c remoteFilePath (Z.of_nat (length bytes))
       (block_list_of bytes)) resp ->
  PrecreateResponse.ReturnType resp <> 2 ->
  PrecreateResponse.UploadID resp <> "" ->
  exists w1 : World,
    sent w1
    = sent w
      ++ [precreate_request c remoteFilePath (Z.of_nat (length bytes))
            (block_list_of bytes)]
    /\ UploadFile fuel c localFilePath remoteFilePath w
       = Some
           (let '(r, w2) :=
              upload_slices c remoteFilePath fileName bytes
                (Z.of_nat (length bytes)) (PrecreateResponse.UploadID resp)
                (seq 0 (slice_count (length bytes) (Z.to_nat sliceSize)))
                0 w1 in
            match r with
            | Ok _ =>
                create_file c remoteFilePath fileName
                  (Z.of_nat (length bytes)) (PrecreateResponse.UploadID resp)
                  (block_list_of bytes)
                  (PrintSuccess "All slices uploaded." w2)
            | _ => (r, w2)
            end).
Proof.
  intros Htok Hfile Hdir Hfuel (body & Hans & Hjson & Herrno) Htype Hid.
  unfold UploadFile. rewrite streq_false by exact Htok.
  rewrite Hfile. unfold EnsureRemoteDirExists. rewrite Hdir. cbn [negb].
  rewrite (CalculateSliceMD5_regular w localFilePath fileName bytes)
    by (try assumption; unfold sliceSize, maxRW; lia).
  fold (block_list_of bytes).
  unfold Do, PrintSuccess at 1. cbn [sent print].
  unfold answers in Hans. rewrite Hans. cbn [negb Z.eqb StatusOK Pos.eqb].
  rewrite Hjson, Herrno. cbn [negb Z.eqb]. unfold after_precreate.
  destruct (Z.eqb_spec (PrecreateResponse.ReturnType resp) 2) as [|_];
    [contradiction|].
  rewrite streq_false by exact Hid. rewrite length_fmap, length_seq.
  eexists. split; [|reflexivity]. reflexivity.
Qed.

(** X16: when the precreate answer opens an upload session, the slice URLs
    are well formed and the network takes every slice and finalizes,
    [UploadFile] returns nil after the precreate request, one transfer for
    each 4 MiB slice in order, and the create request with the digests
    declared in the precreate request; the slices transferred, end to end,
    are the file. *)
Theorem UploadFile_transfers_the_file (c : Client) (w : World)
    (localFilePath remoteFilePath fileName : string)
    (bytes : list Byte.byte) (resp : PrecreateResponse.t) (fuel : nat)
    (url : nat -> string) :
  let fileSize := Z.of_nat (length bytes) in
  let UploadID := PrecreateResponse.UploadID resp in
  let indexes := seq 0 (slice_count (length bytes) (Z.to_nat sliceSize)) in
  let slices :=
    (fun i => slice_request (url i) fileName bytes i) <$> indexes in
  accessToken c <> "" ->
  local_files w !! localFilePath = Some (Regular fileName bytes) ->
  String.prefix "/" (filepath_Dir remoteFilePath) = true ->
  (length bytes < fuel)%nat ->
  good_answer json_PrecreateResponse PrecreateResponse.Errno w
    (precreate_request c remoteFilePath fileSize (block_list_of bytes))
    resp ->
  PrecreateResponse.ReturnType resp <> 2 ->
  UploadID <> "" ->
  Forall (well_formed c remoteFilePath UploadID url) indexes ->
  Forall accepted slices ->
  finalized
    (create_request c remoteFilePath fileSize UploadID
       (block_list_of bytes)) ->
  exists w' : World,
    UploadFile fuel c localFilePath remoteFilePath w = Some (Nil, w')
    /\ sent_since w w'
       = precreate_request c remoteFilePath fileSize (block_list_of bytes)
         :: slices
         ++ [create_request c remoteFilePath fileSize UploadID
               (block_list_of bytes)]
    /\ concat (File <$> slices) = bytes.
Proof.
  intros fileSize UploadID indexes slices Htok Hfile Hdir Hfuel Hpre Htype
    Hid Hurls Hslices Hfinal.
  destruct (UploadFile_precreated c w localFilePath remoteFilePath fileName
              bytes resp fuel Htok Hfile Hdir Hfuel Hpre Htype Hid)
    as (w1 & Hsent1 & ->).
  fold fileSize UploadID indexes.
  unfold slices in Hslices. rewrite Forall_fmap in Hslices.
  assert (Hboth : Forall (fun i =>
                      well_formed c remoteFilePath UploadID url i
                      /\ accepted (slice_request (url i) fileName bytes i))
                    indexes).
  { rewrite Forall_forall in Hurls, Hslices. apply Forall_forall.
    intros i Hi. split; [exact (Hurls i Hi) | exact (Hslices i Hi)]. }
  destruct (upload_slices_accepted c remoteFilePath fileName UploadID bytes
              fileSize url indexes Hboth 0 w1) as (w2 & -> & Hsent2).
  fold slices in Hsent2.
  unfold create_file, Do. cbn [sent PrintSuccess print].
  destruct (Hfinal (sent w2)) as (body & created & Hx & Hjson & Herrno).
  unfold create_request in Hx. rewrite Hx.
  cbn [negb Z.eqb StatusOK Pos.eqb]. rewrite Hjson, Herrno. cbn [negb Z.eqb].
  eexists. split; [reflexivity|]. split.
  - unfold sent_since. cbn [sent PrintSuccess print set_clock log_request].
    rewrite Hsent2, Hsent1, <- !app_assoc, drop_app_length. reflexivity.
  - unfold slices, indexes. rewrite <- list_fmap_compose.
    unfold compose, slice_request. cbn [File].
    assert (Hs : (0 < Z.to_nat sliceSize)%nat) by (unfold sliceSize; lia).
    revert Hs. generalize (Z.to_nat sliceSize). intros s Hs.
    destruct (slice_count_covers (length bytes) s Hs) as [Hcover Hlast].
    etransitivity; [|exact (reads_cover s _ bytes Hcover)].
    apply (f_equal (@concat Byte.byte)), list_fmap_ext. intros k i Hi.
    apply lookup_seq in Hi as [-> Hi]. apply slice_of_read.
    cbn [Nat.add]. specialize (Hlast ltac:(lia)). nia.
Qed.

(** X17: when the network refuses the transfer of slice [j], the slices
    before it taken and the slice URLs up to it well formed, [UploadFile]
    returns an error after the precreate request and the transfers of slices
    0 to [j]: no later slice is sent and the create request is not sent.
    When
    it is the URL of slice [j] that [http.NewRequest] does not take, slice
    [j] is not sent either. *)
Theorem UploadFile_slice_refused (c : Client) (w : World)
    (localFilePath remoteFilePath fileName : string)
    (bytes : list Byte.byte) (resp : PrecreateResponse.t) (fuel j : nat)
    (url : nat -> string) :
  let fileSize := Z.of_nat (length bytes) in
  let UploadID := PrecreateResponse.UploadID resp in
  let transfer := fun i => slice_request (url i) fileName bytes i in
  accessToken c <> "" ->
  local_files w !! localFilePath = Some (Regular fileName bytes) ->
  String.prefix "/" (filepath_Dir remoteFilePath) = true ->
  (length bytes < fuel)%nat ->
  good_answer json_PrecreateResponse PrecreateResponse.Errno w
    (precreate_request c remoteFilePath fileSize (block_list_of bytes))
    resp ->
  PrecreateResponse.ReturnType resp <> 2 ->
  UploadID <> "" ->
  (j < slice_count (length bytes) (Z.to_nat sliceSize))%nat ->
  Forall
    (fun i =>
       well_formed c remoteFilePath UploadID url i /\ accepted (transfer i))
    (seq 0 j) ->
  (well_formed c remoteFilePath UploadID url j /\ refused (transfer j) ->
   exists (msg : string) (w' : World),
     UploadFile fuel c localFilePath remoteFilePath w = Some (Err msg, w')
     /\ sent_since w w'
        = precreate_request c remoteFilePath fileSize (block_list_of bytes)
          :: (transfer <$> seq 0 (S j))
     /\ create_request c remoteFilePath fileSize UploadID
          (block_list_of bytes) ∉ sent_since w w')
  /\ (forall err : string,
      http_NewRequest_URL (sliceUploadURL c remoteFilePath UploadID j)
      = Err err ->
      exists w' : World,
        UploadFile fuel c localFilePath remoteFilePath w
        = Some (Err ("failed to create slice upload request: " +:+ err), w')
        /\ sent_since w w'
           = precreate_request c remoteFilePath fileSize
               (block_list_of bytes)
             :: (transfer <$> seq 0 j)).
Proof.
  intros fileSize UploadID transfer Htok Hfile Hdir Hfuel Hpre Htype Hid Hj
    Hbefore.
  destruct (UploadFile_precreated c w localFilePath remoteFilePath fileName
              bytes resp fuel Htok Hfile Hdir Hfuel Hpre Htype Hid)
    as (w1 & Hsent1 & ->).
  fold fileSize UploadID.
  revert Hj. generalize (slice_count (length bytes) (Z.to_nat sliceSize)).
  intros k Hj. replace k with (j + S (k - S j))%nat by lia.
  rewrite seq_app. change (0 + j)%nat with j. cbn [seq].
  split.
  - intros [Hurl Hrefused].
    destruct (upload_slices_refused c remoteFilePath fileName UploadID bytes
                fileSize url (seq 0 j) j (seq (S j) (k - S j))
                Hbefore Hurl Hrefused 0 w1) as (msg & w2 & -> & Hsent2).
    exists msg, w2. split; [reflexivity|].
    assert (Hsince : sent_since w w2
                     = precreate_request c remoteFilePath fileSize
                         (block_list_of bytes)
                       :: (transfer <$> seq 0 (S j))).
    { unfold sent_since.
      rewrite Hsent2, Hsent1, <- !app_assoc, drop_app_length.
      rewrite seq_S. reflexivity. }
    split; [exact Hsince|]. rewrite Hsince. intros Hin.
    apply elem_of_cons in Hin as [Heq|Hin].
    + apply (f_equal URL) in Heq. vm_compute in Heq. discriminate.
    + apply list_elem_of_fmap in Hin as (i & Heq & _).
      apply (f_equal Form) in Heq. cbn in Heq. discriminate.
  - intros err Hurl.
    destruct (upload_slices_malformed c remoteFilePath fileName UploadID
                bytes fileSize url (seq 0 j) j (seq (S j) (k - S j)) err
                Hbefore Hurl 0 w1) as (w2 & -> & Hsent2).
    exists w2. split; [reflexivity|].
    unfold sent_since.
    rewrite Hsent2, Hsent1, <- !app_assoc, drop_app_length. reflexivity.
Qed.

(** ** Digests: one slice, no slice *)

(** X18: a file that is not empty, that one read returns whole (up to
    [maxRW], 1 GiB) and that fits in one slice, of a size that [make] can
    give, has one slice digest, the digest that [CalculateMD5] gives for the
    file. *)
Theorem CalculateSliceMD5_one_slice (w : World) (filePath name : string)
    (F : list Byte.byte) (sz : Z) (fuel : nat) :
  local_files w !! filePath = Some (Regular name F) ->
  (0 < length F)%nat ->
  Z.of_nat (length F) <= maxRW ->
  Z.of_nat (length F) <= sz <= maxAlloc ->
  (1 < fuel)%nat ->
  exists digest : string,
    CalculateMD5 filePath w = Ok digest
    /\ CalculateSliceMD5 fuel filePath sz w = Some (Ok [digest]).
Proof.
  intros Hfile Hsome Hread Hfits Hfuel. exists (md5_hex F).
  unfold CalculateMD5. rewrite Hfile. split; [reflexivity|].
  assert (Hp : (length F <= capped (Z.to_nat sz))%nat).
  { destruct (Z.le_gt_cases (Z.of_nat (Z.to_nat sz)) maxRW) as [Hle|Hgt].
    - rewrite capped_small by exact Hle. lia.
    - rewrite capped_big by lia. lia. }
  assert (Hone : slice_count (length F) (capped (Z.to_nat sz)) = 1%nat)
    by (apply slice_count_last; lia).
  rewrite (CalculateSliceMD5_reads w filePath name F sz fuel Hfile)
    by (rewrite ?Hone; lia).
  rewrite Hone. revert Hp. generalize (capped (Z.to_nat sz)). intros p Hp.
  cbn [seq fmap list_fmap].
  rewrite slice_of_read by (cbn; lia). cbn [Nat.mul drop].
  rewrite drop_0, take_ge by lia. reflexivity.
Qed.

(** X19: for a slice size that [make] can give, [CalculateSliceMD5] gives no
    digest, and no error, for an empty file, for a directory, and with a
    slice size of zero for any file: the first read returns no byte, which
    the loop takes for the end. For a size that [make] cannot give, below
    zero or above [maxAlloc], it panics, whatever the file. *)
Theorem CalculateSliceMD5_no_slice (w : World) (filePath : string)
    (file : LocalFile) (sz : Z) (fuel : nat) :
  local_files w !! filePath = Some file ->
  (0 < fuel)%nat ->
  (0 <= sz <= maxAlloc ->
   sz = 0
   \/ (exists name, file = Regular name [])
   \/ (exists name, file = Directory name) ->
   CalculateSliceMD5 fuel filePath sz w = Some (Ok []))
  /\ (sz < 0 \/ maxAlloc < sz ->
      CalculateSliceMD5 fuel filePath sz w
      = Some (Panic "makeslice: len out of range")).
Proof.
  intros Hfile Hfuel. unfold CalculateSliceMD5. rewrite Hfile. split.
  - intros Hsz Hcase.
    destruct (Z.ltb_spec sz 0) as [|_]; [lia|].
    destruct (Z.ltb_spec maxAlloc sz) as [|_]; [lia|]. cbn [orb].
    destruct fuel as [|fuel]; [lia|].
    destruct Hcase as [->|[[name ->]|[name ->]]].
    + destruct file as [name F|name]; [|reflexivity]. reflexivity.
    + cbn [slice_loop]. unfold File_Read. cbn [content offset drop length].
      rewrite Nat.min_0_r. destruct (Z.to_nat sz =? 0)%nat; reflexivity.
    + reflexivity.
  - intros [Hneg|Hbig].
    + destruct (Z.ltb_spec sz 0) as [_|]; [reflexivity | lia].
    + destruct (Z.ltb_spec maxAlloc sz) as [_|]; [|lia].
      rewrite orb_true_r. reflexivity.
Qed.

(** ** Human-readable sizes *)

Lemma unit_loop_run (b : Z) :
  b < 2 ^ 63 ->
  forall (fuel : nat) (n div : Z) (exp : nat),
    1 <= n < 1024 ^ Z.of_nat fuel ->
    div = 1024 ^ (Z.of_nat exp + 1) ->
    div * n <= b < div * (n + 1) ->
    exists (div' : Z) (exp' : nat),
      unit_loop fuel n div exp = Some (div', exp')
      /\ div' = 1024 ^ (Z.of_nat exp' + 1)
      /\ div' <= b < 1024 * div'.
Proof.
  intros Hb. induction fuel as [|fuel IH]; intros n div exp Hn Hdiv Hinv.
  - cbn in Hn. lia.
  - assert (Hpos : 0 < div) by (subst div; apply Z.pow_pos_nonneg; lia).
    cbn [unit_loop]. destruct (Z.geb_spec n 1024) as [Hge|Hlt].
    + rewrite Z.quot_div_nonneg by lia.
      rewrite wrap64_fits by nia.
      pose proof (Z.div_mod n 1024 ltac:(lia)) as Hdm.
      pose proof (Z.mod_pos_bound n 1024 ltac:(lia)) as Hm.
      apply IH.
      * split; [lia|].
        apply Z.div_lt_upper_bound; [lia|].
        rewrite Nat2Z.inj_succ, Z.pow_succ_r in Hn by lia. lia.
      * subst div. rewrite Nat2Z.inj_succ.
        replace (Z.succ (Z.of_nat exp) + 1) with (Z.succ (Z.of_nat exp + 1))
          by lia.
        rewrite Z.pow_succ_r by lia. lia.
      * nia.
    + exists div, exp. split; [reflexivity|]. split; [exact Hdiv|]. nia.
Qed.

(** X20: for every size of 1024 bytes or more that an int64 holds, the
    unit loop of [byteCountToHumanReadable] and [FormatBytes] ends on a unit
    among K, M, G, T, P and E, never indexes the letters out of range, and
    divides by the power of 1024 that puts the size between 1 and 1024
    units; a size under 1024, a negative one too, is printed in bytes. *)
Theorem readable_size_unit (b : Z) (fuel : nat) :
  b < 2 ^ 63 ->
  (6 <= fuel)%nat ->
  if b <? 1024 then readable_size fuel b = Some (Ok (Bytes b))
  else
    exists (div : Z) (exp : nat) (letter : ascii),
      readable_size fuel b = Some (Ok (Scaled b div letter))
      /\ String.get exp "KMGTPE" = Some letter
      /\ div = 1024 ^ (Z.of_nat exp + 1)
      /\ div <= b < 1024 * div.
Proof.
  intros Hb Hfuel. unfold readable_size.
  destruct (Z.ltb_spec b 1024) as [Hlt|Hge]; [reflexivity|].
  rewrite Z.quot_div_nonneg by lia.
  pose proof (Z.div_mod b 1024 ltac:(lia)) as Hdm.
  pose proof (Z.mod_pos_bound b 1024 ltac:(lia)) as Hm.
  destruct (unit_loop_run b Hb fuel (b / 1024) 1024 0)
    as (div & exp & -> & Hdiv & Hbounds).
  - split; [lia|].
    apply Z.lt_le_trans with (1024 ^ 6); [lia|].
    apply Z.pow_le_mono_r; lia.
  - reflexivity.
  - lia.
  - assert (Hexp : (exp < 6)%nat).
    { destruct (Nat.lt_ge_cases exp 6) as [|Hbig]; [assumption|].
      exfalso.
      assert (1024 ^ 7 <= div); [|lia].
      subst div. apply Z.pow_le_mono_r; lia. }
    do 6 (destruct exp as [|exp];
          [lazymatch goal with
           | |- context [String.get ?e "KMGTPE"] => exists div, e
           end;
           eexists; split; [reflexivity|];
           split; [reflexivity|]; split; assumption|]).
    lia.
Qed.

(** ** The error messages of the file manager *)

(** X21: [GetErrorMessage], the table of [RemoveFiles], gives the message
    of [GetMoveErrorMessage], the table of move, copy and rename, for every
    code but 12, -9, 111 and -7, which it does not know: a delete reports
    them as unknown codes. *)
Theorem GetErrorMessage_table (errno : Z) :
  GetErrorMessage errno
  = if existsb (Z.eqb errno) [12; -9; 111; -7] then unknown_error errno
    else GetMoveErrorMessage errno.
Proof.
  unfold GetErrorMessage, GetMoveErrorMessage. cbn [existsb].
  repeat match goal with
         | |- context [errno =? ?k] =>
             destruct (Z.eqb_spec errno k) as [->|?]; [reflexivity|]
         end.
  reflexivity.
Qed.

(** ** What is never sent *)

(** X22: without an access token no operation sends a request: each one
    returns the same error and leaves the world as it is; the walk puts that
    error on its error channel. *)
Theorem no_access_token_no_request (c : Client) (w : World) :
  accessToken c = "" ->
  (forall requests, MoveFiles c requests w = (Err no_token, w))
  /\ (forall requests, CopyFiles c requests w = (Err no_token, w))
  /\ (forall requests, RenameFiles c requests w = (Err no_token, w))
  /\ (forall filePaths, RemoveFiles c filePaths w = (Err no_token, w))
  /\ (forall source dest, MoveFile c source dest w = (Err no_token, w))
  /\ (forall source dest, CopyFile c source dest w = (Err no_token, w))
  /\ (forall source newName,
        RenameFile c source newName w = (Err no_token, w))
  /\ (forall filePath, RemoveFile c filePath w = (Err no_token, w))
  /\ (forall dirPath, ListFiles c dirPath w = (Err no_token, w))
  /\ (forall filePath, GetFileInfo c filePath w = (Err no_token, w))
  /\ (forall filePath,
        GetDetailedFileInfo c filePath w = (Err no_token, w))
  /\ (forall remotePath, CreateDir c remotePath w = (Err no_token, w))
  /\ (forall fuel localFilePath remoteFilePath,
        UploadFile fuel c localFilePath remoteFilePath w
        = Some (Err no_token, w))
  /\ (forall fuel rootPath,
        Walk (S fuel) c rootPath w
        = Some (Nil, [SendErr no_token; CloseFileChan], w)).
Proof.
  intros Htok.
  unfold MoveFile, CopyFile, RenameFile, RemoveFile, Walk, no_token.
  cbn [WalkRecursive].
  unfold MoveFiles, CopyFiles, RenameFiles, RemoveFiles, ListFiles,
    GetFileInfo, GetDetailedFileInfo, CreateDir, UploadFile.
  rewrite Htok. repeat split; intros; try reflexivity.
  destruct (_ || _); reflexivity.
Qed.

(** ** The single-item wrappers *)

(** X23: [MoveFile] keeps the name: for the source [dir/name] it asks for
    one move, of that path to the destination directory, trimmed of the
    slashes at its end, under [name]. *)
Theorem MoveFile_keeps_name (c : Client) (dir name destDir : string)
    (w : World) :
  name <> "" ->
  strings_Contains name "/" = false ->
  MoveFile c (dir +:+ "/" +:+ name) destDir w
  = MoveFiles c
      [MoveRequest.mk (dir +:+ "/" +:+ name)
         (strings_TrimRight destDir "/") name] w.
Proof.
  intros Hname Hfree. unfold MoveFile.
  assert (Hkept : strings_TrimRight (dir +:+ "/" +:+ name) "/"
                  = dir +:+ "/" +:+ name).
  { change ("/" +:+ name) with (String "/" name).
    assert (Hlast : strings_TrimRight (String "/" name) "/"
                    = String "/" name).
    { cbn [strings_TrimRight]. rewrite strings_TrimRight_free by exact Hfree.
      destruct name; [contradiction | reflexivity]. }
    rewrite strings_TrimRight_app; rewrite Hlast; [reflexivity|discriminate]. }
  rewrite Hkept, GetSourceFileName_component by assumption. reflexivity.
Qed.

(** ** At most one request for a batch *)

Lemma print_copied_world (copyRequests : list CopyRequest.t)
    (infos : list CopyInfo.t) :
  forall (i : nat) (w : World),
    let w' := snd (print_copied copyRequests i infos w) in
    sent w' = sent w /\ token_files w' = token_files w
    /\ local_files w' = local_files w /\ write_error w' = write_error w.
Proof.
  induction infos as [|info infos IH]; intros i w; [repeat split|].
  cbn [print_copied]. destruct (copyRequests !! i) as [req|];
    [|repeat split].
  apply (IH (S i) (PrintSuccess _ w)).
Qed.

Ltac one_request :=
  unfold at_most_one; cbn;
  repeat split; try reflexivity; (left; reflexivity) || (right; reflexivity).

(** X24: a batch, whatever its size and whatever comes back, is at most one
    request, the one with the whole list; an empty batch is none. The token
    files and the local files are not touched. *)
Theorem batch_one_request (c : Client) (w : World) :
  (forall requests,
      at_most_one (move_request c requests) w
        (snd (MoveFiles c requests w)))
  /\ (forall requests,
      at_most_one (copy_request c requests) w
        (snd (CopyFiles c requests w)))
  /\ (forall requests,
      at_most_one (rename_request c requests) w
        (snd (RenameFiles c requests w)))
  /\ (forall filePaths,
      at_most_one (delete_request c filePaths) w
        (snd (RemoveFiles c filePaths w)))
  /\ snd (MoveFiles c [] w) = w
  /\ snd (CopyFiles c [] w) = w
  /\ snd (RenameFiles c [] w) = w
  /\ snd (RemoveFiles c [] w) = w.
Proof.
  split; [|split; [|split; [|split]]].
  - intros requests. unfold MoveFiles, Do.
    repeat case_match; one_request.
  - intros requests. unfold CopyFiles, Do.
    repeat case_match; try one_request.
    match goal with
    | |- context [print_copied ?rs ?i ?infos ?w1] =>
        destruct (print_copied_world rs infos i w1) as (Hs & Ht & Hl & He)
    end.
    unfold at_most_one. rewrite Hs, Ht, Hl, He. cbn.
    repeat split; right; reflexivity.
  - intros requests. unfold RenameFiles, Do.
    repeat case_match; one_request.
  - intros filePaths. unfold RemoveFiles, Do.
    repeat case_match; one_request.
  - unfold MoveFiles, CopyFiles, RenameFiles, RemoveFiles.
    destruct (streq (accessToken c) ""); repeat split.
Qed.

(** ** Remote paths that are not absolute *)

(** X25: a remote directory that does not start with a slash is refused
    before anything is sent: by [CreateDir] for the directory to create, by
    [UploadFile] for the directory of the remote file, before the local file
    is read for its digests. *)
Theorem relative_remote_path_refused (c : Client) (w : World) :
  accessToken c <> "" ->
  (forall remotePath : string,
      String.prefix "/" remotePath = false ->
      CreateDir c remotePath w
      = (Err "remote directory path must be an absolute path starting with '/'",
         w))
  /\ (forall (fuel : nat) (localFilePath remoteFilePath name : string)
        (bytes : list Byte.byte),
      local_files w !! localFilePath = Some (Regular name bytes) ->
      String.prefix "/" (filepath_Dir remoteFilePath) = false ->
      UploadFile fuel c localFilePath remoteFilePath w
      = Some (Err "remote path must be an absolute path starting with '/'",
              w)).
Proof.
  intros Htok. split.
  - intros remotePath Hrel. unfold CreateDir.
    rewrite streq_false by exact Htok. rewrite Hrel. reflexivity.
  - intros fuel localFilePath remoteFilePath name bytes Hfile Hrel.
    unfold UploadFile, EnsureRemoteDirExists.
    rewrite streq_false by exact Htok. rewrite Hfile, Hrel. reflexivity.
Qed.

(** ** GetAndDisplayFileInfo: the fallback *)

Lemma GetDetailedFileInfo_sent (c : Client) (filePath : string) (w : World) :
  accessToken c <> "" ->
  sent (snd (GetDetailedFileInfo c filePath w))
  = sent w ++ [meta_request c filePath].
Proof.
  intros Htok. unfold GetDetailedFileInfo, Do.
  rewrite streq_false by exact Htok.
  repeat case_match; reflexivity.
Qed.

Lemma GetFileInfo_sent (c : Client) (filePath : string) (w : World) :
  accessToken c <> "" ->
  sent (snd (GetFileInfo c filePath w))
  = sent w ++ [list_request c (parent_dir filePath)].
Proof.
  intros Htok. unfold GetFileInfo. rewrite streq_false by exact Htok.
  destruct (ListFiles_sent c (parent_dir filePath) w Htok)
    as (r & w' & -> & Hsent & _).
  repeat case_match; exact Hsent.
Qed.

(** X26: [GetAndDisplayFileInfo] asks the meta API first and returns its
    entry after that one request; when the meta call fails, for whatever
    reason, its error is dropped and the parent directory is listed: two
    requests, and the result of [GetFileInfo], its error wrapped. *)
Theorem GetAndDisplayFileInfo_fallback (c : Client) (filePath : string)
    (w : World) :
  accessToken c <> "" ->
  let meta := GetDetailedFileInfo c filePath w in
  let listed := GetFileInfo c filePath (snd meta) in
  match fst meta with
  | Ok fileInfo =>
      GetAndDisplayFileInfo c filePath w = (Ok fileInfo, snd meta)
      /\ sent (snd meta) = sent w ++ [meta_request c filePath]
  | Panic msg => GetAndDisplayFileInfo c filePath w = (Panic msg, snd meta)
  | Err _ =>
      GetAndDisplayFileInfo c filePath w
      = (match fst listed with
         | Err err => Err ("error getting file information: " +:+ err)
         | r => r
         end, snd listed)
      /\ sent (snd listed)
         = sent w
           ++ [meta_request c filePath;
               list_request c (parent_dir filePath)]
  end.
Proof.
  intros Htok meta listed. unfold GetAndDisplayFileInfo.
  pose proof (GetDetailedFileInfo_sent c filePath w Htok) as Hmeta.
  pose proof (GetFileInfo_sent c filePath (snd meta) Htok) as Hlisted.
  fold meta in Hmeta. fold listed in Hlisted.
  fold meta. destruct meta as [[fileInfo|err|msg] w1]; cbn [fst snd] in *.
  - split; [reflexivity | exact Hmeta].
  - subst listed. destruct (GetFileInfo c filePath w1) as [[fileInfo|e|msg] w2];
      cbn [fst snd] in *;
      (split; [reflexivity|]); rewrite Hlisted, Hmeta, <- app_assoc;
      reflexivity.
  - reflexivity.
Qed.
End Pan.

(** * The theorems at concrete inputs *)

Lemma IsTokenExpired_by_deadline_witness :
  IsTokenExpired (Fixture.client Fixture.new_year_2024)
    (Fixture.new_year_2024 + Hour) (Fixture.new_year_2024 + Hour) = false.
Proof.
  destruct (IsTokenExpired_by_deadline (Fixture.client Fixture.new_year_2024)
              (Fixture.new_year_2024 + Hour) (Fixture.new_year_2024 + Hour))
    as (_ & Hfits & _).
  - lia.
  - destruct Hfits as (_ & _ & Hvalid & _).
    + vm_compute. split; [discriminate | reflexivity].
    + apply Hvalid.
      * vm_compute. discriminate.
      * vm_compute. discriminate.
      * vm_compute. reflexivity.
Defined.

(** C3 as the specification words it fails for a record whose [expires_in]
    is beyond the range of [time.Duration]: it is held an instant after it
    was issued, its deadline is some 292 years ahead, and [IsTokenExpired]
    answers true. *)
Lemma IsTokenExpired_overflow :
  let c := Fixture.long_lived_client Fixture.new_year_2024 in
  let now := Fixture.new_year_2024 + Second in
  tokenCreatedAt c <> 0
  /\ expiresIn c <> 0
  /\ now + 48 * Hour < deadline c
  /\ IsTokenExpired c now now = true.
Proof.
  vm_compute. repeat split; discriminate.
Qed.

Lemma requestToken_keep_polling_witness :
  fst (requestToken (Fixture.always 400 "slow_down") Fixture.error_is_body
         (Fixture.decodes_to Fixture.new_token) []
         (Fixture.world Fixture.new_year_2024))
  = Ok TokenResponse.zero.
Proof.
  apply (requestToken_keep_polling (Fixture.always 400 "slow_down")
           Fixture.error_is_body (Fixture.decodes_to Fixture.new_token) []
           (Fixture.world Fixture.new_year_2024) 400 "slow_down").
  - reflexivity.
  - reflexivity.
  - right. reflexivity.
Defined.

(** C4 as the specification words it fails for a response that carries
    [authorization_pending] under a status other than 400: with 401 the
    poll is over. *)
Lemma requestToken_pending_under_401 :
  let server := Fixture.always 401 "authorization_pending" in
  let w := Fixture.world Fixture.new_year_2024 in
  exchange (server (sent w) (token_request []))
    = Response 401 "authorization_pending"
  /\ keep_polling (Fixture.error_is_body "authorization_pending")
  /\ fst (requestToken server Fixture.error_is_body
            (Fixture.decodes_to Fixture.new_token) [] w)
     = Err "token request failed with status 401: authorization_pending".
Proof.
  repeat split. left. reflexivity.
Qed.

(** ** MD5 test vectors (RFC 1321, appendix A.5) *)

Example md5_empty : md5_hex [] = "d41d8cd98f00b204e9800998ecf8427e".
Proof. vm_compute. reflexivity. Qed.

Example md5_abc :
  md5_hex (bytes_of_string "abc") = "900150983cd24fb0d6963f7d28e17f72".
Proof. vm_compute. reflexivity. Qed.

Example md5_eighty_digits :
  md5_hex
    (bytes_of_string
       "12345678901234567890123456789012345678901234567890123456789012345678901234567890")
  = "57edf4a22be3c955ac49da2e2107b67a".
Proof. vm_compute. reflexivity. Qed.

(** ** Polling *)

Lemma always_pending_forever (c : Client) (deviceCode : string) :
  pending_forever (Fixture.always 400 "authorization_pending")
    Fixture.error_is_body c deviceCode.
Proof.
  intros before. exists "authorization_pending". split; reflexivity.
Qed.

Lemma PollForToken_polls_for_half_an_hour_witness :
  exists w' : World,
    PollForToken (Fixture.always 400 "authorization_pending")
      Fixture.error_is_body (Fixture.decodes_to Fixture.new_token) 362
      (Fixture.client Fixture.new_year_2024) "DEVICE-CODE"
      (Fixture.world Fixture.new_year_2024)
    = Some (Err "device code has expired",
            Fixture.client Fixture.new_year_2024, w')
    /\ length (sent w') = 361%nat
    /\ clock w' = Fixture.new_year_2024 + 1805 * Second.
Proof.
  destruct (PollForToken_polls_for_half_an_hour
              (Fixture.always 400 "authorization_pending")
              Fixture.error_is_body (Fixture.decodes_to Fixture.new_token)
              Fixture.session (Fixture.client Fixture.new_year_2024)
              (Fixture.world Fixture.new_year_2024) 362)
    as (w' & Hrun & Hsent & Hclock).
  - reflexivity.
  - reflexivity.
  - apply always_pending_forever.
  - lia.
  - exists w'. split; [exact Hrun|]. split; [|exact Hclock].
    rewrite Hsent. reflexivity.
Defined.

(** The loop itself, given the advertised 5 and 10 seconds, stops after
    three polls, at t = 0, 5 and 10, fifteen seconds after it started. *)
Example poll_with_session :
  exists w' : World,
    poll_with (Fixture.always 400 "authorization_pending")
      Fixture.error_is_body (Fixture.decodes_to Fixture.new_token)
      Fixture.session 4 (Fixture.client Fixture.new_year_2024) "DEVICE-CODE"
      (Fixture.world Fixture.new_year_2024)
    = Some (Err "device code has expired",
            Fixture.client Fixture.new_year_2024, w')
    /\ length (sent w') = 3%nat
    /\ clock w' = Fixture.new_year_2024 + 15 * Second.
Proof.
  eexists. split; [vm_compute; reflexivity|]. split; reflexivity.
Qed.

(** ** Slices *)

Lemma CalculateSliceMD5_slices_witness :
  exists md5List : list string,
    CalculateSliceMD5 6 "/tmp/notes.txt" 2
      (Fixture.world_with_disk Fixture.new_year_2024)
    = Some (Ok md5List)
    /\ length md5List = 3%nat.
Proof.
  destruct (CalculateSliceMD5_slices
              (Fixture.world_with_disk Fixture.new_year_2024)
              "/tmp/notes.txt" "notes.txt" Fixture.five_bytes 2 6)
    as (md5List & Hrun & Hlen & _).
  - reflexivity.
  - unfold maxRW. lia.
  - vm_compute. lia.
  - exists md5List. split; [exact Hrun | exact Hlen].
Defined.

(** C2 as the specification words it fails for a slice size above 1 GiB: a
    file of 2^30 bytes and one more, cut in slices of 2^31 bytes, is one
    slice, and [CalculateSliceMD5] returns two digests, one for each piece
    that a read returns. *)
Lemma CalculateSliceMD5_above_one_GiB :
  exists md5List : list string,
    CalculateSliceMD5 3 "/tmp/big.bin" (2 * maxRW)
      Fixture.world_with_big_file
    = Some (Ok md5List)
    /\ length md5List = 2%nat
    /\ slice_count (length Fixture.big_file) (Z.to_nat (2 * maxRW)) = 1%nat.
Proof.
  apply (CalculateSliceMD5_two_reads Fixture.world_with_big_file
           "/tmp/big.bin" "big.bin" Fixture.big_file).
  - apply lookup_singleton_eq.
  - apply length_replicate.
  - unfold Fixture.big_file. rewrite length_replicate.
    unfold maxRW, maxAlloc. lia.
Qed.

(** The five bytes "abcde" cut every two bytes: "ab", "cd" and "e". *)
Example CalculateSliceMD5_abcde :
  CalculateSliceMD5 6 "/tmp/notes.txt" 2
    (Fixture.world_with_disk Fixture.new_year_2024)
  = Some (Ok ["187ef4436122d1cc2f40dc2b92f0eba0";
              "6865aeb3a9ed28f9a79ec454b259e5d0";
              "e1671797c52e15f763380b45e841ec32"]).
Proof. vm_compute. reflexivity. Qed.

(** ** Refresh *)

Lemma RefreshToken_record_witness :
  let '(r, c', w') :=
    RefreshToken (Fixture.always 200 "token")
      (Fixture.decodes_to Fixture.new_token)
      (Fixture.client Fixture.new_year_2024)
      (Fixture.world (Fixture.new_year_2024 + Hour)) in
  r = Nil
  /\ accessToken c' = "NEW-ACCESS"
  /\ token_files w' !! tokenFile c'
     = Some (TokenFile.mk "NEW-ACCESS" "NEW-REFRESH" 2592000 "42"
               (Fixture.new_year_2024 + Hour)).
Proof.
  pose proof (RefreshToken_record (Fixture.always 200 "token")
                (Fixture.decodes_to Fixture.new_token)
                (Fixture.client Fixture.new_year_2024)
                (Fixture.world (Fixture.new_year_2024 + Hour))) as H.
  destruct (RefreshToken _ _ _ _) as [[r c'] w'] eqn:Hrun.
  vm_compute in Hrun. injection Hrun as <- <- <-.
  destruct H as (_ & _ & H).
  destruct (H eq_refl) as (body & tokenResp & _ & Hjson & _ & Hfile).
  injection Hjson as <-.
  split; [reflexivity|]. split; [reflexivity|]. exact Hfile.
Defined.

(** C6 as the specification words it fails when the token file cannot be
    written: [RefreshToken] returns the error of the write and the client
    already holds the new tokens. *)
Lemma RefreshToken_write_fails :
  let c := Fixture.client Fixture.new_year_2024 in
  let '(r, c', w') :=
    RefreshToken (Fixture.always 200 "token")
      (Fixture.decodes_to Fixture.new_token) c
      (Fixture.read_only_world (Fixture.new_year_2024 + Hour)) in
  r = Err "permission denied"
  /\ token_record c' <> token_record c
  /\ accessToken c' = "NEW-ACCESS"
  /\ refreshToken c' = "NEW-REFRESH".
Proof.
  vm_compute. repeat split. discriminate.
Qed.

(** ** Upload *)

Lemma UploadFile_already_present_witness :
  let c := Fixture.client Fixture.new_year_2024 in
  let w := Fixture.world_with_disk Fixture.new_year_2024 in
  exists w' : World,
    UploadFile (Fixture.always 200 "precreate")
      (Fixture.decodes_to Fixture.already_there)
      (Fixture.decodes_to (CreateFileResponse.mk 0 0 "" "" 0))
      Fixture.no_text (Fixture.dir_is "/docs") Fixture.no_text
      Fixture.no_progress Fixture.as_written 6 c "/tmp/notes.txt"
      "/docs/notes.txt" w
    = Some (Nil, w')
    /\ sent w' = [precreate_request c "/docs/notes.txt" 5 ""].
Proof.
  intros c w.
  destruct (UploadFile_already_present (Fixture.always 200 "precreate")
              (Fixture.decodes_to Fixture.already_there)
              (Fixture.decodes_to (CreateFileResponse.mk 0 0 "" "" 0))
              Fixture.no_text (Fixture.dir_is "/docs") Fixture.no_text
              Fixture.no_progress Fixture.as_written c w "/tmp/notes.txt"
              "/docs/notes.txt" "notes.txt" Fixture.five_bytes
              Fixture.already_there 6)
    as (w' & Hrun & Hsent & _).
  - discriminate.
  - reflexivity.
  - reflexivity.
  - vm_compute. lia.
  - exists "precreate". repeat split.
  - reflexivity.
  - exists w'. split; [exact Hrun|]. exact Hsent.
Defined.

(** ** Batch operations *)

Lemma good_rename_answer (resp : RenameResponse.t) (w : World) (req : Request) :
  RenameResponse.Errno resp = 0 ->
  good_answer (Fixture.always 200 "renamed") (Fixture.decodes_to resp)
    RenameResponse.Errno w req resp.
Proof. intros Herrno. exists "renamed". repeat split. exact Herrno. Qed.

Lemma batch_failures_aggregated_witness :
  fst (RenameFiles (Fixture.always 200 "renamed")
         (Fixture.decodes_to Fixture.second_failed) Fixture.no_text
         (Fixture.client Fixture.new_year_2024) Fixture.renames
         (Fixture.world Fixture.new_year_2024))
  = Err "failed to rename some files: /docs/b.txt -> b1.txt (error code: -9)".
Proof.
  destruct (batch_failures_aggregated (Fixture.always 200 "renamed")
              (Fixture.decodes_to (MoveResponse.mk 0 [] 0 0))
              (Fixture.decodes_to (CopyResponse.mk 0 [] 0 0))
              (Fixture.decodes_to Fixture.second_failed)
              (Fixture.decodes_to (DeleteResponse.mk 0 0 []))
              Fixture.no_text Fixture.no_text Fixture.no_text
              (Fixture.client Fixture.new_year_2024)
              (Fixture.world Fixture.new_year_2024))
    as (Hrename & _).
  - discriminate.
  - destruct (Hrename Fixture.renames Fixture.second_failed)
      as (_ & _ & Hsecond).
    + discriminate.
    + apply good_rename_answer. reflexivity.
    + cbn. lia.
    + apply (Hsecond _ _ _ _ _ _ eq_refl eq_refl); cbn; congruence.
Defined.

Lemma batch_index_in_bounds_witness :
  is_Some (Fixture.renames !! 2%nat)
  /\ is_Some (range_failed RenameInfo.Errno describe_rename Fixture.renames 0
                (RenameResponse.Info Fixture.second_failed) []).
Proof.
  destruct (batch_index_in_bounds (Fixture.always 200 "renamed")
              (Fixture.decodes_to (MoveResponse.mk 0 [] 0 0))
              (Fixture.decodes_to (CopyResponse.mk 0 [] 0 0))
              (Fixture.decodes_to Fixture.second_failed)
              Fixture.no_text Fixture.no_text Fixture.no_text
              (Fixture.client Fixture.new_year_2024)
              (Fixture.world Fixture.new_year_2024))
    as (_ & _ & Hrename).
  - discriminate.
  - destruct (Hrename Fixture.renames Fixture.second_failed)
      as (Hbounds & _).
    + discriminate.
    + apply good_rename_answer. reflexivity.
    + destruct Hbounds as (Hindex & Hloop & _); [cbn; lia|].
      split; [|exact Hloop].
      apply (Hindex 2%nat (RenameInfo.mk "/docs/c.txt" 0)). reflexivity.
Defined.

(** A fourth entry that fails, for a batch of three: [RenameFiles] panics. *)
Example RenameFiles_one_too_many :
  fst (RenameFiles (Fixture.always 200 "renamed")
         (Fixture.decodes_to Fixture.one_too_many) Fixture.no_text
         (Fixture.client Fixture.new_year_2024) Fixture.renames
         (Fixture.world Fixture.new_year_2024))
  = Panic index_out_of_range.
Proof. vm_compute. reflexivity. Qed.

(** Two entries without failure for a copy of one: [CopyFiles] panics when it
    prints the second. *)
Example CopyFiles_two_copied :
  fst (CopyFiles (Fixture.always 200 "copied")
         (Fixture.decodes_to Fixture.two_copied) Fixture.no_text
         (Fixture.client Fixture.new_year_2024) Fixture.copies
         (Fixture.world Fixture.new_year_2024))
  = Panic index_out_of_range.
Proof. vm_compute. reflexivity. Qed.

(** C7 as the specification words it fails when the answer is longer than
    the batch: the top-level [errno] is zero and no entry has an [errno],
    and [CopyFiles] does not return success, it panics; with a failing
    entry beyond the batch, [RenameFiles] does not report it, it panics. *)
Lemma batch_longer_answer_panics :
  let c := Fixture.client Fixture.new_year_2024 in
  let w := Fixture.world Fixture.new_year_2024 in
  (CopyResponse.Errno Fixture.two_copied = 0
   /\ Forall (fun info => CopyInfo.Errno info = 0)
        (CopyResponse.Info Fixture.two_copied)
   /\ fst (CopyFiles (Fixture.always 200 "copied")
             (Fixture.decodes_to Fixture.two_copied) Fixture.no_text c
             Fixture.copies w)
      = Panic index_out_of_range)
  /\ (RenameResponse.Errno Fixture.one_too_many = 0
      /\ fst (RenameFiles (Fixture.always 200 "renamed")
                (Fixture.decodes_to Fixture.one_too_many) Fixture.no_text c
                Fixture.renames w)
         = Panic index_out_of_range).
Proof.
  intros c w. split.
  - split; [reflexivity|]. split; [repeat constructor|].
    vm_compute. reflexivity.
  - split; [reflexivity|]. vm_compute. reflexivity.
Qed.

(** ** The file list of a delete *)

Lemma RemoveFiles_filelist_is_json_witness :
  fileListJSON ["/docs/a.txt"; "/docs/b c.txt"]
  = "[" +:+ dquote +:+ "/docs/a.txt" +:+ dquote +:+ "," +:+ dquote
    +:+ "/docs/b c.txt" +:+ dquote +:+ "]"
  /\ fileListJSON ["/docs/a.txt"; "/docs/b c.txt"]
     = json_array ["/docs/a.txt"; "/docs/b c.txt"].
Proof.
  split; [reflexivity|].
  apply (RemoveFiles_filelist_is_json (Fixture.always 200 "deleted")
           (Fixture.decodes_to (DeleteResponse.mk 0 0 []))
           (Fixture.client Fixture.new_year_2024)
           (Fixture.world Fixture.new_year_2024)).
  - discriminate.
  - discriminate.
  - repeat constructor; vm_compute; intros H; discriminate H.
Defined.

(** C10 as the specification words it fails for a path with a control
    character: the path holds no double quote and no backslash, the code
    leaves its tab as it is, JSON writes it as a backslash and a [t]. *)
Lemma fileListJSON_tab :
  let filePaths := [Fixture.tab_path] in
  filePaths <> []
  /\ Forall no_quote_no_backslash filePaths
  /\ fileListJSON filePaths <> json_array filePaths
  /\ json_array filePaths
     = "[" +:+ dquote +:+ "/docs/a" +:+ backslash +:+ "tb.txt" +:+ dquote
       +:+ "]".
Proof.
  split; [discriminate|]. split; [|split].
  - repeat constructor; vm_compute; intros H; discriminate H.
  - vm_compute. intros H. discriminate H.
  - vm_compute. reflexivity.
Qed.

(** ** Walk *)

Lemma tree_served :
  let c := Fixture.client Fixture.new_year_2024 in
  lists Fixture.tree_server Fixture.tree_listing c "/"
    (Ok (entry <$> [RFile Fixture.file_a;
                    RDir Fixture.dir_b [RFile Fixture.file_c]]))
  /\ Forall (serves Fixture.tree_server Fixture.tree_listing c)
       [RFile Fixture.file_a; RDir Fixture.dir_b [RFile Fixture.file_c]].
Proof.
  split; [intros w; reflexivity|].
  repeat constructor; cbn; discriminate.
Qed.

Lemma Walk_preorder_witness :
  exists w' : World,
    Walk Fixture.tree_server Fixture.tree_listing 3
      (Fixture.client Fixture.new_year_2024) "/"
      (Fixture.world Fixture.new_year_2024)
    = Some (Nil,
            [SendFile Fixture.file_a; SendFile Fixture.dir_b;
             SendFile Fixture.file_c; CloseFileChan], w').
Proof.
  destruct (Walk_preorder Fixture.tree_server Fixture.tree_listing
              (Fixture.client Fixture.new_year_2024) "/" 3
              (Fixture.world Fixture.new_year_2024)) as (Hwalk & _).
  apply (Hwalk [RFile Fixture.file_a;
                RDir Fixture.dir_b [RFile Fixture.file_c]]).
  - apply tree_served.
  - apply tree_served.
  - cbn. lia.
Defined.

(** The listing of /b fails: /a and /b were sent, one error follows, the
    channel is closed. *)
Example Walk_b_fails :
  exists w' : World,
    Walk Fixture.tree_server Fixture.tree_listing_b_fails 3
      (Fixture.client Fixture.new_year_2024) "/"
      (Fixture.world Fixture.new_year_2024)
    = Some (Nil,
            [SendFile Fixture.file_a; SendFile Fixture.dir_b;
             SendErr "API returned error code -9"; CloseFileChan], w').
Proof. eexists. vm_compute. reflexivity. Qed.

(** The failing /b listed before /a: /a is sent all the same. *)
Example Walk_sibling_after_failure :
  exists w' : World,
    Walk Fixture.tree_server Fixture.tree_listing_b_first 3
      (Fixture.client Fixture.new_year_2024) "/"
      (Fixture.world Fixture.new_year_2024)
    = Some (Nil,
            [SendFile Fixture.dir_b; SendErr "API returned error code -9";
             SendFile Fixture.file_a; CloseFileChan], w').
Proof. eexists. vm_compute. reflexivity. Qed.

(** * The further properties, on concrete inputs *)

(** ** Token files *)

Lemma SaveTokens_then_LoadTokens_witness :
  let c := Fixture.client Fixture.new_year_2024 in
  let w := Fixture.world (Fixture.new_year_2024 + Hour) in
  LoadTokens Fixture.signed_out (snd (SaveTokens c w))
  = (Nil,
     mkClient "app-key" "app-secret" "OLD-ACCESS" "OLD-REFRESH" 2592000 "42"
       "/home/u/.local/app/bdfs/.bdfs_certs"
       (Fixture.new_year_2024 + Hour)).
Proof.
  intros c w.
  apply (SaveTokens_then_LoadTokens c Fixture.signed_out
           (snd (fst (SaveTokens c w))) w (snd (SaveTokens c w))).
  - reflexivity.
  - reflexivity.
Defined.

Lemma SaveTokens_one_file_witness :
  let c := Fixture.client Fixture.new_year_2024 in
  let w :=
    Fixture.world_with_token (Fixture.new_year_2024 + Hour)
      Fixture.new_year_2024 in
  let w' := snd (SaveTokens c w) in
  sent w' = sent w
  /\ token_files w' !! "/tmp/other" = token_files w !! "/tmp/other".
Proof.
  intros c w w'.
  destruct (SaveTokens_one_file c (snd (fst (SaveTokens c w))) w w' Nil
              eq_refl) as (Hother & _ & _ & Hsent & _).
  split; [exact Hsent|]. apply Hother. discriminate.
Defined.

Lemma IsTokenExpired_monotone_witness :
  let c := Fixture.client Fixture.new_year_2024 in
  IsTokenExpired c (Fixture.new_year_2024 + 30 * Fixture.Day)
    (Fixture.new_year_2024 + 30 * Fixture.Day) = true.
Proof.
  intros c.
  apply (IsTokenExpired_monotone c
           (Fixture.new_year_2024 + 29 * Fixture.Day)
           (Fixture.new_year_2024 + 29 * Fixture.Day)).
  - vm_compute. discriminate.
  - vm_compute. discriminate.
  - vm_compute. reflexivity.
Defined.

Lemma RefreshToken_then_IsTokenExpired_witness :
  let run :=
    RefreshToken (Fixture.always 200 "token")
      (Fixture.decodes_to Fixture.new_token)
      (Fixture.client Fixture.new_year_2024)
      (Fixture.world (Fixture.new_year_2024 + 29 * Fixture.Day)) in
  IsTokenExpired (snd (fst run)) (clock (snd run)) (clock (snd run)) = false.
Proof.
  intros run.
  destruct (RefreshToken_then_IsTokenExpired (Fixture.always 200 "token")
              (Fixture.decodes_to Fixture.new_token)
              (Fixture.client Fixture.new_year_2024) (snd (fst run))
              (Fixture.world (Fixture.new_year_2024 + 29 * Fixture.Day))
              (snd run) (clock (snd run))) as [Hiff _].
  - reflexivity.
  - vm_compute. discriminate.
  - vm_compute. discriminate.
  - vm_compute. split; [discriminate | reflexivity].
  - vm_compute. discriminate.
  - apply Hiff. vm_compute. discriminate.
Defined.

(** ** Authorize *)

Lemma Authorize_valid_token_witness :
  let c := Fixture.signed_out in
  let w :=
    Fixture.world_with_token (Fixture.new_year_2024 + Hour)
      Fixture.new_year_2024 in
  exists w' : World,
    Authorize (Fixture.always 500 "") (Fixture.decodes_to Fixture.new_token)
      Fixture.no_device_auth c w
    = (Nil, loaded c (Fixture.token_on_disk Fixture.new_year_2024), w')
    /\ sent w' = sent w
    /\ token_files w' = token_files w.
Proof.
  intros c w.
  apply (Authorize_valid_token (Fixture.always 500 "")
           (Fixture.decodes_to Fixture.new_token) Fixture.no_device_auth c w
           (Fixture.token_on_disk Fixture.new_year_2024)).
  - reflexivity.
  - vm_compute. discriminate.
  - vm_compute. discriminate.
  - vm_compute. split; [discriminate | reflexivity].
  - vm_compute. discriminate.
Defined.

Lemma Authorize_refreshes_witness :
  let c := Fixture.signed_out in
  let w :=
    Fixture.world_with_token (Fixture.new_year_2024 + 29 * Fixture.Day)
      Fixture.new_year_2024 in
  exists w' : World,
    Authorize (Fixture.always 200 "token")
      (Fixture.decodes_to Fixture.new_token) Fixture.no_device_auth c w
    = (Nil, refreshed c Fixture.new_token (clock w'), w')
    /\ length (sent w') = 1%nat
    /\ token_files w' !! tokenFile c
       = Some (TokenFile.mk "NEW-ACCESS" "NEW-REFRESH" 2592000 "42"
                 (clock w')).
Proof.
  intros c w.
  destruct (Authorize_refreshes (Fixture.always 200 "token")
              (Fixture.decodes_to Fixture.new_token) Fixture.no_device_auth
              c w (Fixture.token_on_disk Fixture.new_year_2024)
              Fixture.new_token) as (w' & Hrun & Hsent & Hfile).
  - reflexivity.
  - vm_compute. reflexivity.
  - discriminate.
  - exists "token". split; [reflexivity|]. split; [reflexivity|discriminate].
  - reflexivity.
  - exists w'. split; [exact Hrun|]. split; [|exact Hfile].
    rewrite Hsent. reflexivity.
Defined.


(** ** The poll *)

Lemma PollForToken_token_witness :
  let c := Fixture.client Fixture.new_year_2024 in
  let w := Fixture.world Fixture.new_year_2024 in
  exists w' : World,
    PollForToken Fixture.authorized_after_two Fixture.error_is_body
      (Fixture.decodes_to Fixture.new_token) 3 c "DEVICE-CODE" w
    = Some (Ok Fixture.new_token,
            refreshed c Fixture.new_token Fixture.new_year_2024, w')
    /\ length (sent w') = 3%nat
    /\ clock w' = Fixture.new_year_2024 + 10 * Second.
Proof.
  intros c w.
  destruct (PollForToken_token Fixture.authorized_after_two
              Fixture.error_is_body (Fixture.decodes_to Fixture.new_token)
              c "DEVICE-CODE" w 2 3 Fixture.new_token "token" 0)
    as (w' & Hrun & Hsent & Hclock & _).
  - intros j Hj. exists "authorization_pending".
    destruct j as [|[|j]]; [split; reflexivity | split; reflexivity | lia].
  - lia.
  - lia.
  - reflexivity.
  - reflexivity.
  - discriminate.
  - exists w'. split; [exact Hrun|]. split.
    + rewrite Hsent. reflexivity.
    + rewrite Hclock. vm_compute. reflexivity.
Defined.

Lemma PollForToken_fatal_witness :
  let c := Fixture.client Fixture.new_year_2024 in
  let w := Fixture.world Fixture.new_year_2024 in
  exists (msg : string) (w' : World),
    PollForToken (Fixture.always 400 "access_denied") Fixture.error_is_body
      (Fixture.decodes_to Fixture.new_token) 1 c "DEVICE-CODE" w
    = Some (Err msg, c, w')
    /\ length (sent w') = 1%nat.
Proof.
  intros c w.
  destruct (PollForToken_fatal (Fixture.always 400 "access_denied")
              Fixture.error_is_body (Fixture.decodes_to Fixture.new_token)
              c "DEVICE-CODE" w 0 1 (Response 400 "access_denied") 0)
    as (msg & w' & Hrun & Hsent).
  - intros j Hj. lia.
  - lia.
  - lia.
  - reflexivity.
  - split; [discriminate|]. intros [_ [Hkeep|Hkeep]]; discriminate Hkeep.
  - exists msg, w'. split; [exact Hrun|]. rewrite Hsent. reflexivity.
Defined.

(** ** Paths *)

Lemma GetSourceFileName_last_component_witness :
  GetSourceFileName "/docs/a.txt" = "a.txt"
  /\ GetSourceFileName "/docs/a.txt/" = "a.txt"
  /\ GetSourceFileName "a.txt" = "a.txt".
Proof.
  apply (GetSourceFileName_last_component "/docs" "a.txt").
  - discriminate.
  - reflexivity.
Defined.

Lemma GetSourceFileName_no_slash_witness : GetSourceFileName "///" = "".
Proof.
  apply (proj2 (GetSourceFileName_no_slash "///")). reflexivity.
Defined.

Lemma MoveFile_keeps_name_witness :
  let c := Fixture.client Fixture.new_year_2024 in
  let w := Fixture.world Fixture.new_year_2024 in
  MoveFile (Fixture.always 200 "moved") Fixture.undecoded Fixture.no_text c
    "/docs/a.txt" "/backup/" w
  = MoveFiles (Fixture.always 200 "moved") Fixture.undecoded Fixture.no_text
      c [MoveRequest.mk "/docs/a.txt" "/backup" "a.txt"] w.
Proof.
  intros c w.
  apply (MoveFile_keeps_name (Fixture.always 200 "moved") Fixture.undecoded
           Fixture.no_text c "/docs" "a.txt" "/backup/" w).
  - discriminate.
  - reflexivity.
Defined.

(** ** Listing *)

Lemma Walk_requests_witness :
  let c := Fixture.client Fixture.new_year_2024 in
  exists (ops : list ChanOp) (w' : World),
    Walk Fixture.tree_server Fixture.tree_listing 3 c "/"
      (Fixture.world Fixture.new_year_2024)
    = Some (Nil, ops, w')
    /\ sent w' = [list_request c "/"; list_request c "/b"].
Proof.
  intros c.
  destruct (Walk_requests Fixture.tree_server Fixture.tree_listing c "/" 3
              (Fixture.world Fixture.new_year_2024)
              [RFile Fixture.file_a;
               RDir Fixture.dir_b [RFile Fixture.file_c]])
    as (ops & w' & Hrun & Hsent & _).
  - discriminate.
  - apply tree_served.
  - apply tree_served.
  - cbn. lia.
  - exists ops, w'. split; [exact Hrun | exact Hsent].
Defined.

Lemma GetFileInfo_lists_parent_witness :
  let c := Fixture.client Fixture.new_year_2024 in
  let w := Fixture.world Fixture.new_year_2024 in
  exists (r : result FileInfo.t) (w' : World),
    GetFileInfo Fixture.tree_server Fixture.tree_listing c "/b/c" w = (r, w')
    /\ sent w' = [list_request c "/b"].
Proof.
  intros c w.
  destruct (GetFileInfo_lists_parent Fixture.tree_server
              Fixture.tree_listing c "/b" "c" w)
    as (r & w' & Hrun & _ & Hsent & _).
  - discriminate.
  - reflexivity.
  - exists r, w'. split; [exact Hrun | exact Hsent].
Defined.

Lemma GetAndDisplayFileInfo_fallback_witness :
  let c := Fixture.client Fixture.new_year_2024 in
  let w := Fixture.world Fixture.new_year_2024 in
  let run :=
    GetAndDisplayFileInfo Fixture.tree_server Fixture.tree_listing
      Fixture.undecoded c "/b/c" w in
  fst run = Ok Fixture.file_c
  /\ sent (snd run) = [meta_request c "/b/c"; list_request c "/b"].
Proof.
  intros c w run.
  pose proof (GetAndDisplayFileInfo_fallback Fixture.tree_server
                Fixture.tree_listing Fixture.undecoded c "/b/c" w) as H.
  assert (Hmeta : exists err,
             fst (GetDetailedFileInfo Fixture.tree_server Fixture.undecoded
                    c "/b/c" w) = Err err) by (eexists; reflexivity).
  destruct Hmeta as [err Hmeta]. cbv zeta in H. rewrite Hmeta in H.
  destruct H as [Hrun Hsent]; [discriminate|].
  unfold run. rewrite Hrun. split; [reflexivity | exact Hsent].
Defined.

(** ** Upload *)

Lemma UploadFile_transfers_the_file_witness :
  let c := Fixture.client Fixture.new_year_2024 in
  let w := Fixture.world_with_disk Fixture.new_year_2024 in
  let slices :=
    (fun i =>
       slice_request (sliceUploadURL c "/docs/notes.txt" "UP-1" i)
         "notes.txt" Fixture.five_bytes i)
      <$> seq 0 (slice_count 5 (Z.to_nat sliceSize)) in
  exists w' : World,
    UploadFile (Fixture.upload_server 200)
      (Fixture.decodes_to Fixture.session_opened)
      (Fixture.decodes_to Fixture.created_notes) Fixture.no_text
      (Fixture.dir_is "/docs") Fixture.no_text Fixture.no_progress
      Fixture.as_written 6 c "/tmp/notes.txt" "/docs/notes.txt" w
    = Some (Nil, w')
    /\ sent_since w w'
       = precreate_request c "/docs/notes.txt" 5 ""
         :: slices ++ [create_request c "/docs/notes.txt" 5 "UP-1" ""]
    /\ concat (File <$> slices) = Fixture.five_bytes.
Proof.
  intros c w slices.
  apply (UploadFile_transfers_the_file (Fixture.upload_server 200)
           (Fixture.decodes_to Fixture.session_opened)
           (Fixture.decodes_to Fixture.created_notes) Fixture.no_text
           (Fixture.dir_is "/docs") Fixture.no_text Fixture.no_progress
           Fixture.as_written c w "/tmp/notes.txt" "/docs/notes.txt"
           "notes.txt" Fixture.five_bytes Fixture.session_opened 6
           (sliceUploadURL c "/docs/notes.txt" "UP-1")).
  - discriminate.
  - reflexivity.
  - reflexivity.
  - vm_compute. lia.
  - exists "ok". repeat split.
  - discriminate.
  - discriminate.
  - apply Forall_forall. intros i _. reflexivity.
  - apply Forall_fmap, Forall_forall. intros i _ history.
    exists "slice". reflexivity.
  - intros history. exists "ok", Fixture.created_notes. repeat split.
Defined.

Lemma UploadFile_slice_refused_witness :
  let c := Fixture.client Fixture.new_year_2024 in
  let w := Fixture.world_with_disk Fixture.new_year_2024 in
  (exists (msg : string) (w' : World),
      UploadFile (Fixture.upload_server 500)
        (Fixture.decodes_to Fixture.session_opened)
        (Fixture.decodes_to Fixture.created_notes) Fixture.no_text
        (Fixture.dir_is "/docs") Fixture.no_text Fixture.no_progress
        Fixture.as_written 6 c "/tmp/notes.txt" "/docs/notes.txt" w
      = Some (Err msg, w')
      /\ sent_since w w'
         = [precreate_request c "/docs/notes.txt" 5 "";
            slice_request (sliceUploadURL c "/docs/notes.txt" "UP-1" 0)
              "notes.txt" Fixture.five_bytes 0])
  /\ (exists w' : World,
      UploadFile (Fixture.upload_server 200)
        (Fixture.decodes_to Fixture.session_opened)
        (Fixture.decodes_to Fixture.created_notes) Fixture.no_text
        (Fixture.dir_is "/docs") Fixture.no_text Fixture.no_progress
        Fixture.malformed 6 c "/tmp/notes.txt" "/docs/notes.txt" w
      = Some (Err ("failed to create slice upload request: "
                   +:+ "net/url: invalid control character in URL"), w')
      /\ sent_since w w' = [precreate_request c "/docs/notes.txt" 5 ""]).
Proof.
  intros c w.
  assert (Hfirst : (0 < slice_count (length Fixture.five_bytes)
                         (Z.to_nat sliceSize))%nat).
  { change (length Fixture.five_bytes) with 5%nat.
    rewrite slice_count_last; [lia|]. unfold sliceSize. lia. }
  split.
  - destruct (UploadFile_slice_refused (Fixture.upload_server 500)
                (Fixture.decodes_to Fixture.session_opened)
                (Fixture.decodes_to Fixture.created_notes) Fixture.no_text
                (Fixture.dir_is "/docs") Fixture.no_text Fixture.no_progress
                Fixture.as_written c w "/tmp/notes.txt" "/docs/notes.txt"
                "notes.txt" Fixture.five_bytes Fixture.session_opened 6 0
                (sliceUploadURL c "/docs/notes.txt" "UP-1"))
      as [Hrefused _].
    + discriminate.
    + reflexivity.
    + reflexivity.
    + vm_compute. lia.
    + exists "ok". repeat split.
    + discriminate.
    + discriminate.
    + exact Hfirst.
    + constructor.
    + destruct Hrefused as (msg & w' & Hrun & Hsent & _).
      * split; [reflexivity|]. intros history. cbn. discriminate.
      * exists msg, w'. split; [exact Hrun | exact Hsent].
  - destruct (UploadFile_slice_refused (Fixture.upload_server 200)
                (Fixture.decodes_to Fixture.session_opened)
                (Fixture.decodes_to Fixture.created_notes) Fixture.no_text
                (Fixture.dir_is "/docs") Fixture.no_text Fixture.no_progress
                Fixture.malformed c w "/tmp/notes.txt" "/docs/notes.txt"
                "notes.txt" Fixture.five_bytes Fixture.session_opened 6 0
                (sliceUploadURL c "/docs/notes.txt" "UP-1"))
      as [_ Hmalformed].
    + discriminate.
    + reflexivity.
    + reflexivity.
    + vm_compute. lia.
    + exists "ok". repeat split.
    + discriminate.
    + discriminate.
    + exact Hfirst.
    + constructor.
    + apply Hmalformed. reflexivity.
Defined.

Lemma relative_remote_path_refused_witness :
  let c := Fixture.client Fixture.new_year_2024 in
  let w := Fixture.world_with_disk Fixture.new_year_2024 in
  CreateDir (Fixture.always 200 "ok")
    (Fixture.decodes_to Fixture.created_notes) c "docs/reports" w
  = (Err "remote directory path must be an absolute path starting with '/'",
     w)
  /\ UploadFile (Fixture.always 200 "ok")
       (Fixture.decodes_to Fixture.session_opened)
       (Fixture.decodes_to Fixture.created_notes) Fixture.no_text
       (Fixture.dir_is "docs") Fixture.no_text Fixture.no_progress
       Fixture.as_written 6 c "/tmp/notes.txt" "docs/notes.txt" w
     = Some (Err "remote path must be an absolute path starting with '/'",
             w).
Proof.
  intros c w.
  destruct (relative_remote_path_refused (Fixture.always 200 "ok")
              (Fixture.decodes_to Fixture.session_opened)
              (Fixture.decodes_to Fixture.created_notes) Fixture.no_text
              (Fixture.dir_is "docs") Fixture.no_text Fixture.no_progress
              Fixture.as_written c w) as [Hdir Hupload]; [discriminate|].
  split.
  - apply Hdir. reflexivity.
  - apply (Hupload 6%nat "/tmp/notes.txt" "docs/notes.txt" "notes.txt"
             Fixture.five_bytes); reflexivity.
Defined.

(** ** Digests and sizes *)

Lemma CalculateSliceMD5_one_slice_witness :
  let w := Fixture.world_with_disk Fixture.new_year_2024 in
  exists digest : string,
    CalculateMD5 "/tmp/notes.txt" w = Ok digest
    /\ CalculateSliceMD5 2 "/tmp/notes.txt" 8 w = Some (Ok [digest]).
Proof.
  intros w.
  apply (CalculateSliceMD5_one_slice w "/tmp/notes.txt" "notes.txt"
           Fixture.five_bytes 8 2).
  - reflexivity.
  - vm_compute. lia.
  - vm_compute. discriminate.
  - vm_compute. split; discriminate.
  - lia.
Defined.

Lemma CalculateSliceMD5_no_slice_witness :
  let w := Fixture.world_with_disk Fixture.new_year_2024 in
  CalculateSliceMD5 1 "/tmp/notes.txt" 0 w = Some (Ok [])
  /\ CalculateSliceMD5 1 "/tmp/notes.txt" (-1) w
     = Some (Panic "makeslice: len out of range").
Proof.
  intros w.
  destruct (CalculateSliceMD5_no_slice w "/tmp/notes.txt"
              (Regular "notes.txt" Fixture.five_bytes) 0 1)
    as [Hnone _]; [reflexivity | lia |].
  destruct (CalculateSliceMD5_no_slice w "/tmp/notes.txt"
              (Regular "notes.txt" Fixture.five_bytes) (-1) 1)
    as [_ Hpanic]; [reflexivity | lia |].
  split.
  - apply Hnone; [unfold maxAlloc; lia | left; reflexivity].
  - apply Hpanic. left. lia.
Defined.

Lemma readable_size_unit_witness :
  exists (div : Z) (exp : nat) (letter : ascii),
    readable_size 6 1536 = Some (Ok (Scaled 1536 div letter))
    /\ String.get exp "KMGTPE" = Some letter
    /\ div = 1024 ^ (Z.of_nat exp + 1)
    /\ div <= 1536 < 1024 * div.
Proof.
  apply (readable_size_unit 1536 6).
  - reflexivity.
  - lia.
Defined.

(** ** No token *)

Lemma no_access_token_no_request_witness :
  let w := Fixture.world Fixture.new_year_2024 in
  ListFiles (Fixture.always 200 "ok") Fixture.undecoded Fixture.signed_out
    "/" w
  = (Err no_token, w)
  /\ RemoveFile (Fixture.always 200 "ok") Fixture.undecoded
       Fixture.signed_out "/docs/a.txt" w
     = (Err no_token, w).
Proof.
  intros w.
  destruct (no_access_token_no_request (Fixture.always 200 "ok")
              Fixture.undecoded Fixture.undecoded Fixture.undecoded
              Fixture.no_text Fixture.undecoded Fixture.undecoded
              Fixture.undecoded Fixture.undecoded Fixture.no_text
              Fixture.no_text Fixture.no_text (Fixture.dir_is "/")
              Fixture.no_text Fixture.no_progress Fixture.as_written
              (Fixture.dir_is "") (Fixture.dir_is "") Fixture.undecoded
              Fixture.signed_out w
              eq_refl)
    as (_ & _ & _ & _ & _ & _ & _ & Hremove & Hlist & _).
  split; [apply Hlist | apply Hremove].
Defined.
